(** * Stock-Price-Predictor: the forecasting edge function

    A shallow embedding of [predict-stock/index.ts] (normalizer, trend
    forecaster, recurrent forecaster, request handler) and the properties the
    specification states about it.

    Numbers.  A JavaScript [number] is modelled by [num]: the special values
    [NaN], [+Infinity], [-Infinity], and the finite values, which are taken
    as exact reals.  Rounding, overflow of finite arithmetic and the sign of
    zero are idealised away; what is kept is every special value the program
    can produce from finite input ([0/0] in [normalizeData], the empty
    [Math.min()]), with the propagation rules of IEEE 754 and of
    [Math.max]/[Math.min].

    Dates.  A [Date] is its time value, in milliseconds since the epoch.  The
    zone of the host and every reading of the clock are parameters: each
    forecaster and the handler call [new Date()] for themselves, [setDate]
    works on the local calendar of the host and [toISOString] prints the UTC
    day. *)

From Stdlib Require Import Reals Lra Lia ZArith String Ascii Bool Arith List.
Import ListNotations.

(** ** JavaScript numbers *)

Module JS.

Inductive num : Type :=
| NaN
| PInf
| NInf
| Num (r : R).

Definition Rsign (r : R) : comparison :=
  match total_order_T r 0 with
  | inleft (left _) => Lt
  | inleft (right _) => Eq
  | inright _ => Gt
  end.

Definition inf_of_sign (c : comparison) : num :=
  match c with
  | Lt => NInf
  | Eq => NaN
  | Gt => PInf
  end.

Definition neg (a : num) : num :=
  match a with
  | NaN => NaN
  | PInf => NInf
  | NInf => PInf
  | Num x => Num (- x)
  end.

Definition add (a b : num) : num :=
  match a, b with
  | NaN, _ | _, NaN => NaN
  | PInf, NInf | NInf, PInf => NaN
  | PInf, _ | _, PInf => PInf
  | NInf, _ | _, NInf => NInf
  | Num x, Num y => Num (x + y)
  end.

Definition sub (a b : num) : num :=
  match a, b with
  | NaN, _ | _, NaN => NaN
  | PInf, PInf | NInf, NInf => NaN
  | PInf, _ | _, NInf => PInf
  | NInf, _ | _, PInf => NInf
  | Num x, Num y => Num (x - y)
  end.

Definition mul (a b : num) : num :=
  match a, b with
  | NaN, _ | _, NaN => NaN
  | Num x, Num y => Num (x * y)
  | Num x, PInf | PInf, Num x => inf_of_sign (Rsign x)
  | Num x, NInf | NInf, Num x => inf_of_sign (CompOpp (Rsign x))
  | PInf, PInf | NInf, NInf => PInf
  | PInf, NInf | NInf, PInf => NInf
  end.

(** [x / 0] is [NaN] for [x = 0] and an infinity of the sign of [x]
    otherwise (the divisor being [+0]). *)
Definition div (a b : num) : num :=
  match a, b with
  | NaN, _ | _, NaN => NaN
  | Num x, Num y =>
      match Rsign y with
      | Eq => inf_of_sign (Rsign x)
      | _ => Num (x / y)
      end
  | Num _, _ => Num 0
  | PInf, Num y => match Rsign y with Lt => NInf | _ => PInf end
  | NInf, Num y => match Rsign y with Lt => PInf | _ => NInf end
  | _, _ => NaN
  end.

(** The relational operators: every comparison with [NaN] is false. *)
Definition ltb (a b : num) : bool :=
  match a, b with
  | NaN, _ | _, NaN => false
  | _, NInf | PInf, _ => false
  | NInf, _ | _, PInf => true
  | Num x, Num y => if Rlt_dec x y then true else false
  end.

Definition leb (a b : num) : bool :=
  match a, b with
  | NaN, _ | _, NaN => false
  | NInf, _ | _, PInf => true
  | _, NInf | PInf, _ => false
  | Num x, Num y => if Rle_dec x y then true else false
  end.

Definition lt (a b : num) : Prop := ltb a b = true.
Definition le (a b : num) : Prop := leb a b = true.

(** [Math.max(a, b)] and [Math.min(a, b)]: [NaN] when either is. *)
Definition Math_max2 (a b : num) : num :=
  match a, b with
  | NaN, _ | _, NaN => NaN
  | PInf, _ | _, PInf => PInf
  | NInf, x | x, NInf => x
  | Num x, Num y => Num (Rmax x y)
  end.

Definition Math_min2 (a b : num) : num :=
  match a, b with
  | NaN, _ | _, NaN => NaN
  | NInf, _ | _, NInf => NInf
  | PInf, x | x, PInf => x
  | Num x, Num y => Num (Rmin x y)
  end.

(** [Math.max(...data)] and [Math.min(...data)]: of no argument they are
    [-Infinity] and [+Infinity]. *)
Definition Math_max (data : list num) : num := fold_right Math_max2 NInf data.
Definition Math_min (data : list num) : num := fold_right Math_min2 PInf data.

Definition Math_sqrt (a : num) : num :=
  match a with
  | NaN | NInf => NaN
  | PInf => PInf
  | Num x => if Rlt_dec x 0 then NaN else Num (sqrt x)
  end.

Definition Math_exp (a : num) : num :=
  match a with
  | NaN => NaN
  | PInf => PInf
  | NInf => Num 0
  | Num x => Num (exp x)
  end.

Definition Math_tanh (a : num) : num :=
  match a with
  | NaN => NaN
  | PInf => Num 1
  | NInf => Num (-1)
  | Num x => Num (tanh x)
  end.

(** [Math.pow(a, 2)]. *)
Definition Math_pow2 (a : num) : num := mul a a.

(** Reading [a[i]] in an arithmetic context: an index out of range reads
    [undefined], which converts to [NaN]. *)
Definition get (a : list num) (i : nat) : num := nth i a NaN.

(** A number literal and the number of an array index or length. *)
Definition of_nat (n : nat) : num := Num (INR n).

Definition finite (a : num) : Prop := exists r, a = Num r.

End JS.

Import JS.

Declare Scope num_scope.
Delimit Scope num_scope with num.
Bind Scope num_scope with num.
Infix "+" := add : num_scope.
Infix "-" := sub : num_scope.
Infix "*" := mul : num_scope.
Infix "/" := div : num_scope.
Infix "<=" := le : num_scope.
Infix "<" := lt : num_scope.

Local Open Scope R_scope.

(** ** Normalizer *)

Record Normalized : Type := mkNormalized {
  normalized : list num;
  min : num;
  max : num
}.

Definition normalizeData (data : list num) : Normalized :=
  let min := Math_min data in
  let max := Math_max data in
  let range := (max - min)%num in
  let normalized := map (fun val => ((val - min) / range)%num) data in
  mkNormalized normalized min max.

Definition denormalize (normalizedVal min max : num) : num :=
  (normalizedVal * (max - min) + min)%num.

(** ** Arrays, integers and exceptions *)

(** [a.slice(-k)]: the last [k] elements; [slice(-0)] is [slice(0)], the
    whole array. *)
Definition slice_last {A : Type} (k : nat) (a : list A) : list A :=
  if (k =? 0)%nat then a else skipn (length a - k) a.

(** [a.map((x, i) => f x i)]. *)
Definition mapi {A B : Type} (f : A -> nat -> B) (a : list A) : list B :=
  map (fun p => f (snd p) (fst p)) (combine (seq 0 (length a)) a).

(** [a[j] = v]: an index past the end extends the array; the holes this
    leaves read [undefined], [NaN] in arithmetic. *)
Definition array_set (a : list num) (j : nat) (v : num) : list num :=
  firstn j a ++ repeat NaN (j - length a) ++ v :: skipn (S j) a.

(** An integer-valued number, as [parseInt] returns it: an integer or [NaN].
    [daysToPredict] and [steps] are typed [number] in the source; their only
    caller passes the result of [parseInt]. *)
Inductive jsint : Type :=
| IntNaN
| Int (z : Z).

Definition of_int (d : jsint) : num :=
  match d with
  | IntNaN => NaN
  | Int z => Num (IZR z)
  end.

Definition int_ltb (d : jsint) (k : Z) : bool :=
  match d with
  | IntNaN => false
  | Int z => (z <? k)%Z
  end.

Definition int_gtb (d : jsint) (k : Z) : bool :=
  match d with
  | IntNaN => false
  | Int z => (k <? z)%Z
  end.

(** How many times [for (let i = 1; i <= d; i++)] and
    [for (let i = 0; i < d; i++)] run their body: never when [d] is [NaN]. *)
Definition count (d : jsint) : nat :=
  match d with
  | IntNaN => O
  | Int z => Z.to_nat z
  end.

(** A call that returns or throws [new Error(message)]. *)
Inductive result (A : Type) : Type :=
| Ok (a : A)
| Throw (message : string).

Arguments Ok {A} a.
Arguments Throw {A} message.

(** ** Dates *)

(** A time value is a number of milliseconds since the epoch, as [new Date()]
    holds it; a date is a number of days since the epoch, the day that
    [toISOString().split('T')[0]] names. *)
Definition msPerDay : Z := 86400000.

(** The local time zone of the host: its offset from UTC in milliseconds at
    a UTC time value and at a local one, [LocalTZA(t, true)] and
    [LocalTZA(t, false)]. *)
Record TimeZone : Type := mkZone {
  offset_at_utc : Z -> Z;
  offset_at_local : Z -> Z
}.

Definition LocalTime (zone : TimeZone) (t : Z) : Z := (t + offset_at_utc zone t)%Z.

Definition UTC (zone : TimeZone) (t : Z) : Z := (t - offset_at_local zone t)%Z.

(** The time value of [d] after [d = new Date(today)] and
    [d.setDate(today.getDate() + i)]. [setDate(dt)] takes the local time [t]
    of [d], makes the date of the day [dt] of the month of [t] at the time
    of day of [t], and converts it back to UTC; with [dt] the day of the
    month of [t] plus [i], that date is [t] plus [i] days. *)
Definition setDate_plus (zone : TimeZone) (today i : Z) : Z :=
  UTC zone (LocalTime zone today + i * msPerDay)%Z.

(** [d.toISOString().split('T')[0]]: the UTC day of the time value. *)
Definition toISODate (t : Z) : Z := (t / msPerDay)%Z.

(** The zone of a host that runs in UTC. *)
Definition utc : TimeZone := mkZone (fun _ => 0%Z) (fun _ => 0%Z).

(** ** Trend forecaster *)

(** A prediction; [date] is the day the date string names. *)
Record Prediction : Type := mkPrediction {
  date : Z;
  predicted_price : num;
  confidence_lower : num;
  confidence_upper : num
}.

Record Sums : Type := mkSums {
  sumX : num;
  sumY : num;
  sumXY : num;
  sumX2 : num
}.

Definition sums_step (recentPrices : list num) (s : Sums) (i : nat) : Sums :=
  mkSums (sumX s + of_nat i)%num
         (sumY s + get recentPrices i)%num
         (sumXY s + of_nat i * get recentPrices i)%num
         (sumX2 s + of_nat i * of_nat i)%num.

Definition sums (recentPrices : list num) : Sums :=
  fold_left (sums_step recentPrices) (seq 0 (length recentPrices))
            (mkSums (Num 0) (Num 0) (Num 0) (Num 0)).

Definition windowSize (n : nat) : nat := Nat.min 30 (n / 3).

(** The denominator of the slope. *)
Definition denominator (recentPrices : list num) : num :=
  let s := sums recentPrices in
  (of_nat (length recentPrices) * sumX2 s - sumX s * sumX s)%num.

(** [a.reduce((acc, price) => acc + Math.pow(price - mean, 2), 0) / a.length]
    and its square root. *)
Definition variance_of (a : list num) (mean : num) : num :=
  (fold_left (fun acc price => acc + Math_pow2 (price - mean)) a (Num 0)
   / of_nat (length a))%num.

(** [Math.max(lastPrice - maxChange, Math.min(lastPrice + maxChange, price))]
    with [maxChange = lastPrice * fraction]. *)
Definition clamp (lastPrice fraction price : num) : num :=
  let maxChange := (lastPrice * fraction)%num in
  Math_max2 (lastPrice - maxChange)%num (Math_min2 (lastPrice + maxChange)%num price).

(** The confidence half-width of loop index [i]:
    [stdDev * (1 + (i / daysToPredict) * growth) * z]. *)
Definition confidenceRange (stdDev : num) (growth z : R) (daysToPredict : jsint)
    (i : nat) : num :=
  let confidenceMultiplier :=
    (Num 1 + (of_nat i / of_int daysToPredict) * Num growth)%num in
  (stdDev * confidenceMultiplier * Num z)%num.

(** The body of the prediction loop, for day [i]. *)
Definition lr_day (zone : TimeZone) (today : Z) (window : nat)
    (slope intercept stdDev lastPrice : num)
    (daysToPredict : jsint) (i : nat) : Prediction :=
  let predictedPrice := (slope * of_nat (window + i) + intercept)%num in
  let clampedPrice := clamp lastPrice (Num (15 / 100)) predictedPrice in
  let confidenceRange := confidenceRange stdDev (5 / 10) (196 / 100) daysToPredict i in
  mkPrediction (toISODate (setDate_plus zone today (Z.of_nat i)))
               (Math_max2 (Num 0) clampedPrice)
               (Math_max2 (Num 0) (clampedPrice - confidenceRange)%num)
               (clampedPrice + confidenceRange)%num.

Definition predictLinearRegression (zone : TimeZone) (today : Z)
    (historicalPrices : list num)
    (daysToPredict : jsint) : result (list Prediction) :=
  let n := length historicalPrices in
  if (n <? 10)%nat then Throw "Insufficient historical data for prediction"
  else
    let recentPrices := slice_last (windowSize n) historicalPrices in
    let s := sums recentPrices in
    let len := of_nat (length recentPrices) in
    let slope := ((len * sumXY s - sumX s * sumY s) / denominator recentPrices)%num in
    let intercept := ((sumY s - slope * sumX s) / len)%num in
    let mean := (sumY s / len)%num in
    let stdDev := Math_sqrt (variance_of recentPrices mean) in
    let lastPrice := get historicalPrices (n - 1) in
    Ok (map (lr_day zone today (length recentPrices) slope intercept stdDev lastPrice
                    daysToPredict)
            (seq 1 (count daysToPredict))).

(** ** Recurrent forecaster *)

Definition sigmoid (x : num) : num := (Num 1 / (Num 1 + Math_exp (neg x)))%num.

Definition tanh (x : num) : num := Math_tanh x.

(** The successive values of [Math.random()]; the functions that draw take
    the number of draws made so far and return the new one. *)
Definition Random : Type := nat -> R.

Record SimpleLSTMCell : Type := mkCell {
  cell_hiddenSize : nat;
  Wf : list (list num);
  Wi : list (list num);
  Wc : list (list num);
  Wo : list (list num)
}.

Definition initWeights (random : Random) (drawn rows cols : nat)
    : list (list num) * nat :=
  let scale := Math_sqrt (Num 2 / of_nat (rows + cols))%num in
  (map (fun i =>
          map (fun j =>
                 ((Num (random (drawn + i * cols + j)%nat) - Num (5 / 10))
                  * Num 2 * scale)%num)
              (seq 0 cols))
       (seq 0 rows),
   (drawn + rows * cols)%nat).

Definition new_SimpleLSTMCell (random : Random) (drawn inputSize hiddenSize : nat)
    : SimpleLSTMCell * nat :=
  let (wf, d1) := initWeights random drawn hiddenSize (inputSize + hiddenSize) in
  let (wi, d2) := initWeights random d1 hiddenSize (inputSize + hiddenSize) in
  let (wc, d3) := initWeights random d2 hiddenSize (inputSize + hiddenSize) in
  let (wo, d4) := initWeights random d3 hiddenSize (inputSize + hiddenSize) in
  (mkCell hiddenSize wf wi wc wo, d4).

Definition matMul (weights : list (list num)) (input : list num) : list num :=
  map (fun row =>
         fold_left (fun sum j => (sum + get row j * get input j)%num)
                   (seq 0 (length input)) (Num 0))
      weights.

Definition forward (cell : SimpleLSTMCell) (x : num) (h c : list num)
    : list num * list num :=
  let combined := x :: h in
  let ft := map sigmoid (matMul (Wf cell) combined) in
  let it := map sigmoid (matMul (Wi cell) combined) in
  let cTilde := map tanh (matMul (Wc cell) combined) in
  let ot := map sigmoid (matMul (Wo cell) combined) in
  let newC := mapi (fun cVal i => (get ft i * cVal + get it i * get cTilde i)%num) c in
  let newH := mapi (fun cVal i => (get ot i * tanh cVal)%num) newC in
  (newH, newC).

Record SimpleLSTM : Type := mkLSTM {
  cell : SimpleLSTMCell;
  hiddenSize : nat;
  outputWeights : list num
}.

Definition new_SimpleLSTM (random : Random) (drawn hiddenSize : nat)
    : SimpleLSTM * nat :=
  let (cell, d) := new_SimpleLSTMCell random drawn 1 hiddenSize in
  (mkLSTM cell hiddenSize
          (map (fun k => ((Num (random (d + k)%nat) - Num (5 / 10)) * Num (1 / 10))%num)
               (seq 0 hiddenSize)),
   (d + hiddenSize)%nat).

(** [h.reduce((sum, val, idx) => sum + val * this.outputWeights[idx], 0)]. *)
Definition readout (this : SimpleLSTM) (h : list num) : num :=
  fold_left (fun sum p => (sum + snd p * get (outputWeights this) (fst p))%num)
            (combine (seq 0 (length h)) h) (Num 0).

(** [this.outputWeights[j] += learningRate * error * h[j]]. *)
Definition update_weight (learningRate error : num) (h : list num)
    (this : SimpleLSTM) (j : nat) : SimpleLSTM :=
  mkLSTM (cell this) (hiddenSize this)
         (array_set (outputWeights this) j
                    (get (outputWeights this) j + learningRate * error * get h j)%num).

(** The state of the training loops: the object and the locals [h] and [c]. *)
Record TrainState : Type := mkTrain {
  ts_this : SimpleLSTM;
  ts_h : list num;
  ts_c : list num
}.

(** The body of the loop over [i]: one forward step, then the update of
    every readout weight. *)
Definition train_step (data : list num) (st : TrainState) (i : nat) : TrainState :=
  let learningRate := Num (1 / 1000) in
  let (h, c) := forward (cell (ts_this st)) (get data i) (ts_h st) (ts_c st) in
  let predicted := readout (ts_this st) h in
  let error := (get data (i + 1) - predicted)%num in
  mkTrain (fold_left (update_weight learningRate error h)
                     (seq 0 (hiddenSize (ts_this st))) (ts_this st))
          h c.

(** The body of the loop over [epoch]. *)
Definition train_epoch (data : list num) (lstm : SimpleLSTM) : SimpleLSTM :=
  let zeros := repeat (Num 0) (hiddenSize lstm) in
  ts_this (fold_left (train_step data) (seq 0 (length data - 1))
                     (mkTrain lstm zeros zeros)).

Definition train (lstm : SimpleLSTM) (data : list num) (epochs : nat) : SimpleLSTM :=
  fold_left (fun lstm _ => train_epoch data lstm) (seq 0 epochs) lstm.

(** The state of the prediction loop. *)
Record PredictState : Type := mkPredict {
  ph : list num;
  pc : list num;
  lastInput : num;
  predicted_so_far : list num
}.

Definition predict_step (lstm : SimpleLSTM) (st : PredictState) : PredictState :=
  let (h, c) := forward (cell lstm) (lastInput st) (ph st) (pc st) in
  let predicted := readout lstm h in
  mkPredict h c predicted (predicted_so_far st ++ [predicted]).

Definition predict (lstm : SimpleLSTM) (lastValues : list num) (steps : jsint)
    : list num :=
  let zeros := repeat (Num 0) (hiddenSize lstm) in
  let (h, c) := fold_left (fun hc val => forward (cell lstm) val (fst hc) (snd hc))
                          lastValues (zeros, zeros) in
  let lastInput := get lastValues (length lastValues - 1) in
  predicted_so_far
    (fold_left (fun st _ => predict_step lstm st) (seq 0 (count steps))
               (mkPredict h c lastInput [])).

(** The body of the post-processing loop, for index [i]. *)
Definition lstm_day (zone : TimeZone) (today : Z) (actualPredictions : list num)
    (stdDev lastPrice : num)
    (daysToPredict : jsint) (i : nat) : Prediction :=
  let rawPrediction := get actualPredictions i in
  let smoothingFactor :=
    (Num (7 / 10) + Num (3 / 10) * Math_exp (neg (of_nat i) / Num 10))%num in
  let smoothedPrediction :=
    (rawPrediction * smoothingFactor + lastPrice * (Num 1 - smoothingFactor))%num in
  let clampedPrice := clamp lastPrice (Num (20 / 100)) smoothedPrediction in
  let confidenceRange := confidenceRange stdDev (6 / 10) 2 daysToPredict i in
  mkPrediction (toISODate (setDate_plus zone today (Z.of_nat i + 1)))
               (Math_max2 (Num 0) clampedPrice)
               (Math_max2 (Num 0) (clampedPrice - confidenceRange)%num)
               (clampedPrice + confidenceRange)%num.

Definition predictLSTM (random : Random) (zone : TimeZone) (today : Z)
    (historicalPrices : list num)
    (daysToPredict : jsint) : result (list Prediction) :=
  let n := length historicalPrices in
  if (n <? 60)%nat then Throw "LSTM requires at least 60 days of historical data"
  else
    let nd := normalizeData historicalPrices in
    let lstm := train (fst (new_SimpleLSTM random 0 50)) (normalized nd) 50 in
    let lookbackWindow := Nat.min 60 n in
    let lastValues := slice_last lookbackWindow (normalized nd) in
    let normalizedPredictions := predict lstm lastValues daysToPredict in
    let actualPredictions :=
      map (fun val => denormalize val (min nd) (max nd)) normalizedPredictions in
    let recentPrices := slice_last 30 historicalPrices in
    let mean :=
      (fold_left (fun sum price => sum + price) recentPrices (Num 0)
       / of_nat (length recentPrices))%num in
    let stdDev := Math_sqrt (variance_of recentPrices mean) in
    let lastPrice := get historicalPrices (n - 1) in
    Ok (map (lstm_day zone today actualPredictions stdDev lastPrice daysToPredict)
            (seq 0 (count daysToPredict))).

(** ** Request handler *)

Definition toUpperCase_char (ch : ascii) : ascii :=
  let k := nat_of_ascii ch in
  if ((97 <=? k) && (k <=? 122))%nat then ascii_of_nat (k - 32) else ch.

(** [s.toUpperCase()], on ASCII letters. *)
Fixpoint toUpperCase (s : string) : string :=
  match s with
  | EmptyString => EmptyString
  | String ch s' => String (toUpperCase_char ch) (toUpperCase s')
  end.

Definition is_white_space (ch : ascii) : bool :=
  let k := nat_of_ascii ch in
  ((k =? 32) || ((9 <=? k) && (k <=? 13)))%nat.

Fixpoint trim_start (s : string) : string :=
  match s with
  | String ch s' => if is_white_space ch then trim_start s' else s
  | EmptyString => s
  end.

Definition digit_value (ch : ascii) : option Z :=
  let k := nat_of_ascii ch in
  if ((48 <=? k) && (k <=? 57))%nat then Some (Z.of_nat (k - 48))
  else if ((97 <=? k) && (k <=? 122))%nat then Some (Z.of_nat (k - 87))
  else if ((65 <=? k) && (k <=? 90))%nat then Some (Z.of_nat (k - 55))
  else None.

(** The value of the longest prefix of digits of the radix; [acc] is [None]
    until a digit has been read. *)
Fixpoint parse_digits (radix : Z) (s : string) (acc : option Z) : option Z :=
  match s with
  | EmptyString => acc
  | String ch s' =>
      match digit_value ch with
      | Some v =>
          if (v <? radix)%Z
          then parse_digits radix s'
                 (Some (match acc with Some a => a | None => 0 end * radix + v)%Z)
          else acc
      | None => acc
      end
  end.

(** [parseInt(s)] with no radix: leading white space, a sign, a [0x] prefix
    for radix 16, then digits; [NaN] when there is no digit. *)
Definition parseInt (s : string) : jsint :=
  let s := trim_start s in
  let (sign, s) :=
    match s with
    | String "-" s' => ((-1)%Z, s')
    | String "+" s' => (1%Z, s')
    | _ => (1%Z, s)
    end in
  let (radix, s) :=
    match s with
    | String "0" (String "x" s') | String "0" (String "X" s') => (16%Z, s')
    | _ => (10%Z, s)
    end in
  match parse_digits radix s None with
  | None => IntNaN
  | Some v => Int (sign * v)
  end.

(** What the handler reads of a request: the method and the two query
    parameters, [None] when [searchParams.get] returns [null]. *)
Record Request : Type := mkRequest {
  method : string;
  ticker_param : option string;
  days_param : option string
}.

(** The answer of [select('close, date')] on [stock_data]: the rows and the
    error; [close] is the number [parseFloat] makes of the column. *)
Record Row : Type := mkRow {
  close : num;
  row_date : string
}.

Record Selected : Type := mkSelected {
  data : option (list Row);
  error : option string
}.

Record ModelPredictions : Type := mkModel {
  model : string;
  model_predictions : list Prediction
}.

(** A row of the [predictions] table. *)
Record Inserted : Type := mkInserted {
  ins_ticker : string;
  prediction_date : Z;
  target_date : Z;
  ins_predicted_price : num;
  ins_confidence_lower : num;
  ins_confidence_upper : num;
  model_version : string
}.

(** The response body, before [JSON.stringify]. *)
Inductive Body : Type :=
| NoBody
| ErrorBody (error : string) (details : option string)
| ForecastBody (ticker : string) (prediction_days : jsint)
    (models : list ModelPredictions) (lstm_error : option string)
    (disclaimer : string).

Record Response : Type := mkResponse {
  status : Z;
  body : Body
}.

(** What the handler does besides answering, in order. *)
Inductive Event : Type :=
| Select (ticker : string)
| Invoke (model : string) (historicalPrices : list num) (daysToPredict : jsint)
| Insert (records : list Inserted)
| ConsoleError (message : string).

Definition disclaimer_text : string :=
  "These predictions are for educational purposes only and should not be used for actual trading decisions.".

Definition to_records (ticker : string) (predictionDate : Z) (version : string)
    (preds : list Prediction) : list Inserted :=
  map (fun pred =>
         mkInserted ticker predictionDate (date pred) (predicted_price pred)
                    (confidence_lower pred) (confidence_upper pred) version)
      preds.

Section Handler.

(** The recurrent forecaster the handler calls, the zone of the host, the
    time the trend forecaster reads off the clock ([today]) and the time the
    handler reads for the prediction date ([now]), and the [stock_data]
    table as a function of the ticker. *)
Variable recurrent : list num -> jsint -> result (list Prediction).
Variable zone : TimeZone.
Variable today : Z.
Variable now : Z.
Variable stock_data : string -> Selected.

Definition bad_request (message : string) : Response :=
  mkResponse 400 (ErrorBody message None).

(** The handler from the first model call on. *)
Definition forecast (ticker : string) (days : jsint) (closingPrices : list num)
    : Response * list Event :=
  match predictLinearRegression zone today closingPrices days with
  | Throw message =>
      (mkResponse 500 (ErrorBody "Internal server error" (Some message)),
       [Invoke "linear_regression" closingPrices days; ConsoleError "Error:"])
  | Ok lrPredictions =>
      let '(lstmPredictions, lstmError, lstmEvents) :=
        if (60 <=? length closingPrices)%nat then
          match recurrent closingPrices days with
          | Ok preds => (preds, None, [Invoke "lstm" closingPrices days])
          | Throw message =>
              ([], Some message,
               [Invoke "lstm" closingPrices days;
                ConsoleError "LSTM prediction error:"])
          end
        else ([], Some "Insufficient data for LSTM (requires 60+ days)"%string, []) in
      let recordsToInsert :=
        to_records ticker (toISODate now) "linear_regression" lrPredictions
        ++ (if (0 <? length lstmPredictions)%nat
            then to_records ticker (toISODate now) "lstm" lstmPredictions else []) in
      let insertEvents :=
        if (0 <? length recordsToInsert)%nat then [Insert recordsToInsert] else [] in
      let models :=
        mkModel "linear_regression" lrPredictions
        :: (if (0 <? length lstmPredictions)%nat
            then [mkModel "lstm" lstmPredictions] else []) in
      (mkResponse 200 (ForecastBody ticker days models lstmError disclaimer_text),
       Invoke "linear_regression" closingPrices days :: lstmEvents ++ insertEvents)
  end.

(** The days the handler works with:
    [parseInt(url.searchParams.get('days') || '30')]. *)
Definition days_of (req : Request) : jsint :=
  parseInt (match days_param req with
            | None | Some EmptyString => "30"
            | Some s => s
            end).

Definition serve (req : Request) : Response * list Event :=
  if (method req =? "OPTIONS")%string then (mkResponse 200 NoBody, [])
  else
    let ticker := option_map toUpperCase (ticker_param req) in
    let days := days_of req in
    match ticker with
    | None | Some EmptyString => (bad_request "Ticker symbol is required", [])
    | Some ticker =>
        if int_ltb days 1 || int_gtb days 90
        then (bad_request "Days must be between 1 and 90", [])
        else
          let selected := stock_data ticker in
          match error selected with
          | Some dbError =>
              (mkResponse 500 (ErrorBody "Failed to fetch historical data" None),
               [Select ticker; ConsoleError "Database error:"])
          | None =>
              match data selected with
              | None =>
                  (bad_request
                     "Insufficient historical data. Please fetch stock data first.",
                   [Select ticker])
              | Some historicalData =>
                  if (length historicalData <? 10)%nat
                  then (bad_request
                          "Insufficient historical data. Please fetch stock data first.",
                        [Select ticker])
                  else
                    let closingPrices := map close historicalData in
                    let (response, events) := forecast ticker days closingPrices in
                    (response, Select ticker :: events)
              end
          end
    end.

End Handler.

(** The handler as deployed: the recurrent forecaster is [predictLSTM], which
    reads the clock for itself ([lstmToday]). *)
Definition Deno_serve (random : Random) (zone : TimeZone) (today lstmToday now : Z)
    (stock_data : string -> Selected) (req : Request) : Response * list Event :=
  serve (predictLSTM random zone lstmToday) zone today now stock_data req.

(** ** Vocabulary of the statements *)

(** The smallest and the largest element of the non-empty list [x :: xs]. *)
Fixpoint Rmin_list (x : R) (xs : list R) : R :=
  match xs with
  | [] => x
  | y :: ys => Rmin x (Rmin_list y ys)
  end.

Fixpoint Rmax_list (x : R) (xs : list R) : R :=
  match xs with
  | [] => x
  | y :: ys => Rmax x (Rmax_list y ys)
  end.

(** A series with two different prices. *)
Definition non_constant (prices : list R) : Prop :=
  exists a b, In a prices /\ In b prices /\ a <> b.

(** The sums [0 + 1 + ... + (w-1)] and [0*0 + 1*1 + ... + (w-1)*(w-1)], in the
    order the fitting loop adds them. *)
Fixpoint index_sum (w : nat) : R :=
  match w with
  | O => 0
  | S k => index_sum k + INR k
  end.

Fixpoint index_square_sum (w : nat) : R :=
  match w with
  | O => 0
  | S k => index_square_sum k + INR k * INR k
  end.

(** A zone whose offset from UTC never changes. *)
Definition fixed_offset (zone : TimeZone) : Prop :=
  exists k, (forall t, offset_at_utc zone t = k) /\ (forall t, offset_at_local zone t = k).

(** A zone whose offset is [before] until the time value [transition] and
    [after] from then on; a local time that the change skips or repeats is
    read with the offset [before]. *)
Definition zone_with_change (transition before after : Z) : TimeZone :=
  mkZone (fun t => if (t <? transition)%Z then before else after)
         (fun t => if (t <? transition + Z.max before after)%Z then before else after).

(** Eastern time around the start of daylight saving time in 2026: five
    hours behind UTC until 2026-03-08T07:00:00Z, four hours from then on. *)
Definition eastern_2026 : TimeZone :=
  zone_with_change 1772953200000 (-18000000) (-14400000).

(** Dates that increase strictly along the list. *)
Fixpoint increasing_dates (preds : list Prediction) : Prop :=
  match preds with
  | [] => True
  | p :: rest =>
      match rest with
      | [] => True
      | q :: _ => (date p < date q)%Z
      end /\ increasing_dates rest
  end.

(** The invariant of a prediction: a price that is not negative, between
    its confidence bounds. *)
Definition well_formed (p : Prediction) : Prop :=
  (Num 0 <= predicted_price p)%num
  /\ (confidence_lower p <= predicted_price p)%num
  /\ (predicted_price p <= confidence_upper p)%num.

(** A predicted price no further than [fraction] of [lastPrice] from it. *)
Definition within (fraction lastPrice : R) (p : Prediction) : Prop :=
  exists price, predicted_price p = Num price
                /\ Rabs (price - lastPrice) <= fraction * lastPrice.

(** A [rows] by [cols] matrix of finite numbers. *)
Definition finite_matrix (rows cols : nat) (W : list (list num)) : Prop :=
  length W = rows
  /\ Forall (fun row => length row = cols /\ Forall finite row) W.

(** A cell as its constructor builds it: four finite gate matrices of
    [hiddenSize] rows and [inputSize + hiddenSize] columns, [inputSize]
    being 1. *)
Definition cell_ok (cell : SimpleLSTMCell) : Prop :=
  let H := cell_hiddenSize cell in
  finite_matrix H (1 + H) (Wf cell)
  /\ finite_matrix H (1 + H) (Wi cell)
  /\ finite_matrix H (1 + H) (Wc cell)
  /\ finite_matrix H (1 + H) (Wo cell).

(** A network as its constructor builds it and as training keeps it. *)
Definition lstm_ok (lstm : SimpleLSTM) : Prop :=
  cell_ok (cell lstm)
  /\ cell_hiddenSize (cell lstm) = hiddenSize lstm
  /\ length (outputWeights lstm) = hiddenSize lstm
  /\ Forall finite (outputWeights lstm).

(** The readout weight [j] after the update loop of one training step:
    changed by [learningRate * error * h[j]] below [hiddenSize], and as
    before from there on. *)
Definition updated_weight (lstm : SimpleLSTM) (error : num) (h : list num) (j : nat)
    : num :=
  if (j <? hiddenSize lstm)%nat
  then (get (outputWeights lstm) j + Num (1 / 1000) * error * get h j)%num
  else get (outputWeights lstm) j.

(** Hidden and cell state of the size of the network, all finite. *)
Definition state_ok (lstm : SimpleLSTM) (h c : list num) : Prop :=
  length h = hiddenSize lstm /\ Forall finite h
  /\ length c = hiddenSize lstm /\ Forall finite c.

(** The series [a, a + b, a + 2 b, ...] of [n] prices. *)
Definition line (a b : R) (n : nat) : list R :=
  map (fun k => a + b * INR k) (seq 0 n).

(** A finite number strictly between [lo] and [hi]. *)
Definition strictly_between (lo hi : R) (v : num) : Prop :=
  exists r, v = Num r /\ lo < r < hi.

(** [Math.random()] as specified: every draw is in [0, 1). *)
Definition unit_draws (random : Random) : Prop :=
  forall k, 0 <= random k < 1.

(** The batches of records the events insert, in order. *)
Definition inserted_batches (events : list Event) : list (list Inserted) :=
  flat_map (fun e => match e with Insert records => [records] | _ => [] end) events.

(** The records of the models of an answer, model by model. *)
Definition records_of (ticker : string) (predictionDate : Z)
    (models : list ModelPredictions) : list Inserted :=
  flat_map (fun m => to_records ticker predictionDate (model m) (model_predictions m))
           models.

(** The batches a list of records is inserted in: one when there is a
    record, none otherwise. *)
Definition batches (records : list Inserted) : list (list Inserted) :=
  if (0 <? length records)%nat then [records] else [].

(** ** Price chart and model cards ([StockChart], [ModelComparison]) *)

(** A point of the history the chart is given; the chart reads [close]. *)
Record StockDataPoint : Type := mkPoint {
  point_date : string;
  point_open : num;
  point_high : num;
  point_low : num;
  point_close : num;
  point_volume : num
}.

(** [allPrices]: the closes, then for each model its predicted prices, its
    upper bounds and its lower bounds; [models] undefined is no model. *)
Definition allPrices (historicalData : list StockDataPoint)
    (models : list ModelPredictions) : list num :=
  map point_close historicalData
  ++ flat_map (fun model =>
                 map predicted_price (model_predictions model)
                 ++ map confidence_upper (model_predictions model)
                 ++ map confidence_lower (model_predictions model))
              models.

Record PriceScale : Type := mkScale {
  minPrice : num;
  maxPrice : num;
  priceRange : num
}.

(** The memoized scale: the range of all prices, padded by a tenth of it
    above and below. *)
Definition priceScale (historicalData : list StockDataPoint)
    (models : list ModelPredictions) : PriceScale :=
  let allPrices := allPrices historicalData models in
  let min := Math_min allPrices in
  let max := Math_max allPrices in
  let range := (max - min)%num in
  let padding := (range * Num (1 / 10))%num in
  mkScale (min - padding)%num (max + padding)%num (range + padding * Num 2)%num.

Definition getYPosition (scale : PriceScale) (price : num) : num :=
  ((maxPrice scale - price) / priceRange scale * Num 100)%num.

Definition hasPredictions (models : list ModelPredictions) : bool :=
  (0 <? length models)%nat
  && existsb (fun m => (0 <? length (model_predictions m))%nat) models.

Definition historicalWidth (models : list ModelPredictions) : num :=
  if hasPredictions models then Num 70 else Num 100.

Definition predictionWidth (models : list ModelPredictions) : num :=
  if hasPredictions models then Num 30 else Num 0.

Definition getXPosition (models : list ModelPredictions) (index total : num)
    (isPrediction : bool) : num :=
  if isPrediction
  then (historicalWidth models + index / total * predictionWidth models)%num
  else (index / total * historicalWidth models)%num.

(** The x positions of the predictions of a model, as the prediction path
    and the confidence area compute them. *)
Definition predictionXs (models : list ModelPredictions) (model : ModelPredictions)
    : list num :=
  mapi (fun point index =>
          getXPosition models (of_nat index)
                       (of_nat (length (model_predictions model)) - Num 1)%num true)
       (model_predictions model).

(** [model.predictions[model.predictions.length - 1]], [None] for
    [undefined]. *)
Definition lastPrediction (model : ModelPredictions) : option Prediction :=
  nth_error (model_predictions model) (length (model_predictions model) - 1).

(** The percentage a model card shows, when it shows a card. *)
Definition priceChangePercent (model : ModelPredictions) (currentPrice : num)
    : option num :=
  match lastPrediction model with
  | None => None
  | Some lastPrediction =>
      let priceChange := (predicted_price lastPrediction - currentPrice)%num in
      Some (priceChange / currentPrice * Num 100)%num
  end.

(** * Properties *)

(** ** Arithmetic of finite numbers *)

Lemma Rsign_pos (r : R) : 0 < r -> Rsign r = Gt.
Proof.
  intros H. unfold Rsign.
  destruct (total_order_T r 0) as [[Hlt | Heq] | Hgt]; try reflexivity; lra.
Qed.

Lemma Rsign_neg (r : R) : r < 0 -> Rsign r = Lt.
Proof.
  intros H. unfold Rsign.
  destruct (total_order_T r 0) as [[Hlt | Heq] | Hgt]; try reflexivity; lra.
Qed.

Lemma Rsign_zero : Rsign 0 = Eq.
Proof.
  unfold Rsign.
  destruct (total_order_T 0 0) as [[Hlt | Heq] | Hgt]; try reflexivity; lra.
Qed.

Lemma div_Num (x y : R) : y <> 0 -> (Num x / Num y)%num = Num (x / y).
Proof.
  intros Hy. unfold div.
  destruct (Rtotal_order y 0) as [Hlt | [Heq | Hgt]].
  - now rewrite Rsign_neg.
  - contradiction.
  - now rewrite Rsign_pos.
Qed.

Lemma div_zero_zero (x y : R) : x = 0 -> y = 0 -> (Num x / Num y)%num = NaN.
Proof.
  intros -> ->. unfold div. now rewrite Rsign_zero.
Qed.

Lemma le_Num (x y : R) : (Num x <= Num y)%num <-> x <= y.
Proof.
  unfold le, leb. destruct (Rle_dec x y); split; intros; auto; discriminate.
Qed.

Lemma lt_Num (x y : R) : (Num x < Num y)%num <-> x < y.
Proof.
  unfold lt, ltb. destruct (Rlt_dec x y); split; intros; auto; discriminate.
Qed.

Lemma Math_sqrt_Num (x : R) : 0 <= x -> Math_sqrt (Num x) = Num (sqrt x).
Proof.
  intros Hx. unfold Math_sqrt. destruct (Rlt_dec x 0); [lra | reflexivity].
Qed.

Lemma get_map_Num (rs : list R) (i : nat) :
  (i < length rs)%nat -> get (map Num rs) i = Num (nth i rs 0).
Proof.
  intros Hi. unfold get.
  rewrite (nth_indep _ NaN (Num 0)) by now rewrite length_map.
  apply (map_nth Num).
Qed.

(** ** Normalizer *)

Lemma Math_min_Num (x : R) (xs : list R) :
  Math_min (map Num (x :: xs)) = Num (Rmin_list x xs).
Proof.
  revert x. induction xs as [| y ys IH]; intros x.
  - reflexivity.
  - change (Math_min (map Num (x :: y :: ys)))
      with (Math_min2 (Num x) (Math_min (map Num (y :: ys)))).
    now rewrite IH.
Qed.

Lemma Math_max_Num (x : R) (xs : list R) :
  Math_max (map Num (x :: xs)) = Num (Rmax_list x xs).
Proof.
  revert x. induction xs as [| y ys IH]; intros x.
  - reflexivity.
  - change (Math_max (map Num (x :: y :: ys)))
      with (Math_max2 (Num x) (Math_max (map Num (y :: ys)))).
    now rewrite IH.
Qed.

Lemma Rmin_list_le (x : R) (xs : list R) (v : R) :
  In v (x :: xs) -> Rmin_list x xs <= v.
Proof.
  revert x. induction xs as [| y ys IH]; intros x Hin.
  - destruct Hin as [<- | []]. simpl. lra.
  - simpl. destruct Hin as [<- | Hin].
    + apply Rmin_l.
    + apply Rle_trans with (Rmin_list y ys); [apply Rmin_r | apply IH; exact Hin].
Qed.

Lemma Rmax_list_ge (x : R) (xs : list R) (v : R) :
  In v (x :: xs) -> v <= Rmax_list x xs.
Proof.
  revert x. induction xs as [| y ys IH]; intros x Hin.
  - destruct Hin as [<- | []]. simpl. lra.
  - simpl. destruct Hin as [<- | Hin].
    + apply Rmax_l.
    + apply Rle_trans with (Rmax_list y ys); [apply IH; exact Hin | apply Rmax_r].
Qed.

Lemma Rmin_list_constant (x : R) (xs : list R) :
  (forall v, In v xs -> v = x) -> Rmin_list x xs = x.
Proof.
  revert x. induction xs as [| y ys IH]; intros x Hall; simpl.
  - reflexivity.
  - assert (y = x) as -> by (apply Hall; now left).
    rewrite IH by (intros v Hv; apply Hall; now right).
    apply Rmin_left. lra.
Qed.

Lemma Rmax_list_constant (x : R) (xs : list R) :
  (forall v, In v xs -> v = x) -> Rmax_list x xs = x.
Proof.
  revert x. induction xs as [| y ys IH]; intros x Hall; simpl.
  - reflexivity.
  - assert (y = x) as -> by (apply Hall; now left).
    rewrite IH by (intros v Hv; apply Hall; now right).
    apply Rmax_left. lra.
Qed.

Lemma non_constant_range (x : R) (xs : list R) :
  non_constant (x :: xs) -> Rmin_list x xs < Rmax_list x xs.
Proof.
  intros (a & b & Ha & Hb & Hab).
  pose proof (Rmin_list_le x xs a Ha). pose proof (Rmin_list_le x xs b Hb).
  pose proof (Rmax_list_ge x xs a Ha). pose proof (Rmax_list_ge x xs b Hb).
  destruct (Rtotal_order a b) as [? | [? | ?]]; [lra | contradiction | lra].
Qed.

(** C3, as the code has it: on a constant series [normalizeData] returns
    without throwing, [min] and [max] are the constant, and every normalized
    point is [NaN] (the quotient [0 / 0]); no neutral value is substituted. *)
Theorem normalizeData_constant (c : R) (prices : list R) :
  prices <> [] ->
  (forall v, In v prices -> v = c) ->
  normalizeData (map Num prices)
  = mkNormalized (repeat NaN (length prices)) (Num c) (Num c).
Proof.
  intros Hne Hall. destruct prices as [| x xs]; [contradiction |].
  assert (x = c) as -> by (apply Hall; now left).
  assert (Hxs : forall v, In v xs -> v = c) by (intros v Hv; apply Hall; now right).
  unfold normalizeData.
  rewrite Math_min_Num, Math_max_Num, Rmin_list_constant, Rmax_list_constant by assumption.
  f_equal.
  rewrite map_map.
  assert (Hmap : forall l : list R, (forall v, In v l -> v = c) ->
            map (fun v => ((Num v - Num c) / (Num c - Num c))%num) l
            = repeat NaN (length l)).
  { induction l as [| v l IH]; intros Hl; cbn [map length repeat].
    - reflexivity.
    - rewrite IH by (intros w Hw; apply Hl; now right).
      rewrite (Hl v) by now left.
      cbn [sub]. now rewrite div_zero_zero by lra. }
  apply Hmap. intros v [<- | Hv]; auto.
Qed.

Lemma normalizeData_constant_witness :
  normalizeData (map Num [7; 7])
  = mkNormalized (repeat NaN (length [7; 7])) (Num 7) (Num 7).
Proof.
  apply (normalizeData_constant 7 [7; 7]).
  - discriminate.
  - intros v [<- | [<- | []]]; reflexivity.
Defined.

(** C3, as the specification words it, fails: the three points of the
    constant series 100, 100, 100 are normalized to [NaN], not to 0.5 or to
    another number. *)
Lemma normalizeData_constant_propagates_NaN :
  normalized (normalizeData [Num 100; Num 100; Num 100]) = [NaN; NaN; NaN].
Proof.
  assert (Hall : forall v, In v [100; 100] -> v = 100)
    by (intros v [<- | [<- | []]]; reflexivity).
  unfold normalizeData.
  change [Num 100; Num 100; Num 100] with (map Num [100; 100; 100]).
  rewrite Math_min_Num, Math_max_Num, Rmin_list_constant, Rmax_list_constant
    by exact Hall.
  cbn [map sub normalized]. now rewrite div_zero_zero by lra.
Qed.

(** C5: for a series with two different prices, [denormalize] with the bounds
    of [normalizeData] maps every normalized point back to the price it came
    from.  Finite arithmetic being exact here, the two are equal, which is
    the round trip within every tolerance. *)
Theorem denormalize_normalizeData (prices : list R) (i : nat) :
  non_constant prices ->
  (i < length prices)%nat ->
  let nd := normalizeData (map Num prices) in
  denormalize (get (normalized nd) i) (min nd) (max nd) = Num (nth i prices 0).
Proof.
  intros Hnc Hi nd. subst nd.
  destruct prices as [| x xs]; [inversion Hi |].
  pose proof (non_constant_range x xs Hnc) as Hrange.
  unfold normalizeData.
  rewrite Math_min_Num, Math_max_Num.
  cbn [normalized min max].
  rewrite map_map.
  set (f := fun v : R => _).
  unfold get. rewrite (nth_indep _ NaN (f 0)) by now rewrite length_map.
  rewrite map_nth. subst f. cbn beta.
  set (v := nth i (x :: xs) 0).
  unfold denormalize. cbn [sub].
  rewrite div_Num by lra. cbn [mul add]. f_equal. field. lra.
Qed.

Lemma denormalize_normalizeData_witness :
  let nd := normalizeData (map Num [1; 3]) in
  denormalize (get (normalized nd) 1) (min nd) (max nd) = Num (nth 1 [1; 3] 0).
Proof.
  apply (denormalize_normalizeData [1; 3] 1).
  - exists 1, 3. repeat split; [now left | right; now left | lra].
  - simpl. lia.
Defined.

(** ** Trend forecaster: the fit *)

Lemma fold_left_seq_S {A : Type} (f : A -> nat -> A) (k : nat) (a : A) :
  fold_left f (seq 0 (S k)) a = f (fold_left f (seq 0 k) a) k.
Proof.
  rewrite seq_S, fold_left_app. reflexivity.
Qed.

Lemma sumX_partial (l : list num) (k : nat) (s : Sums) :
  sumX s = Num 0 ->
  sumX (fold_left (sums_step l) (seq 0 k) s) = Num (index_sum k).
Proof.
  intros Hs. induction k as [| k IH].
  - exact Hs.
  - rewrite fold_left_seq_S. cbn [sums_step sumX]. rewrite IH. reflexivity.
Qed.

Lemma sumX2_partial (l : list num) (k : nat) (s : Sums) :
  sumX2 s = Num 0 ->
  sumX2 (fold_left (sums_step l) (seq 0 k) s) = Num (index_square_sum k).
Proof.
  intros Hs. induction k as [| k IH].
  - exact Hs.
  - rewrite fold_left_seq_S. cbn [sums_step sumX2]. rewrite IH. reflexivity.
Qed.

Lemma sumY_partial (prices : list R) (k : nat) (s : Sums) :
  finite (sumY s) -> (k <= length prices)%nat ->
  finite (sumY (fold_left (sums_step (map Num prices)) (seq 0 k) s)).
Proof.
  intros Hs. induction k as [| k IH]; intros Hk.
  - exact Hs.
  - rewrite fold_left_seq_S. cbn [sums_step sumY].
    destruct IH as [y Hy]; [lia |]. rewrite Hy, get_map_Num by lia.
    eexists. reflexivity.
Qed.

Lemma sumXY_partial (prices : list R) (k : nat) (s : Sums) :
  finite (sumXY s) -> (k <= length prices)%nat ->
  finite (sumXY (fold_left (sums_step (map Num prices)) (seq 0 k) s)).
Proof.
  intros Hs. induction k as [| k IH]; intros Hk.
  - exact Hs.
  - rewrite fold_left_seq_S. cbn [sums_step sumXY].
    destruct IH as [y Hy]; [lia |]. rewrite Hy, get_map_Num by lia.
    eexists. reflexivity.
Qed.

Lemma index_sum_closed (w : nat) : 2 * index_sum w = INR w * (INR w - 1).
Proof.
  induction w as [| w IH].
  - simpl. lra.
  - rewrite S_INR. cbn [index_sum]. nra.
Qed.

Lemma index_square_sum_closed (w : nat) :
  6 * index_square_sum w = (INR w - 1) * INR w * (2 * INR w - 1).
Proof.
  induction w as [| w IH].
  - simpl. lra.
  - rewrite S_INR. cbn [index_square_sum]. nra.
Qed.

Lemma ols_denominator_pos (w : nat) :
  (2 <= w)%nat ->
  0 < INR w * index_square_sum w - index_sum w * index_sum w.
Proof.
  intros Hw.
  pose proof (index_sum_closed w) as Hx.
  pose proof (index_square_sum_closed w) as Hy.
  assert (Ha : 2 <= INR w) by (apply le_INR in Hw; simpl in Hw; lra).
  set (a := INR w) in *.
  replace (index_sum w) with (a * (a - 1) / 2) by lra.
  replace (index_square_sum w) with ((a - 1) * a * (2 * a - 1) / 6) by lra.
  replace (a * ((a - 1) * a * (2 * a - 1) / 6) - a * (a - 1) / 2 * (a * (a - 1) / 2))
    with (a * a * ((a - 1) * (a + 1)) / 12) by field.
  assert (0 < a * a) by nra.
  assert (0 < (a - 1) * (a + 1)) by nra.
  assert (0 < a * a * ((a - 1) * (a + 1))) by (apply Rmult_lt_0_compat; assumption).
  lra.
Qed.

Lemma denominator_Num (l : list num) :
  denominator l
  = Num (INR (length l) * index_square_sum (length l)
         - index_sum (length l) * index_sum (length l)).
Proof.
  unfold denominator, sums.
  rewrite sumX_partial, sumX2_partial by reflexivity. reflexivity.
Qed.

Lemma windowSize_bounds (n : nat) :
  (10 <= n)%nat -> (3 <= windowSize n <= n)%nat.
Proof.
  intros Hn. unfold windowSize.
  assert (3 <= n / 3)%nat by (apply Nat.div_le_lower_bound; lia).
  assert (n / 3 <= n)%nat by (apply Nat.Div0.div_le_upper_bound; lia).
  lia.
Qed.

Lemma length_slice_last {A : Type} (k : nat) (a : list A) :
  (0 < k <= length a)%nat -> length (slice_last k a) = k.
Proof.
  intros Hk. unfold slice_last.
  destruct (Nat.eqb_spec k 0); [lia |].
  rewrite length_skipn. lia.
Qed.

Lemma slice_last_map {A B : Type} (f : A -> B) (k : nat) (a : list A) :
  slice_last k (map f a) = map f (slice_last k a).
Proof.
  unfold slice_last. destruct (k =? 0)%nat; [reflexivity |].
  now rewrite length_map, skipn_map.
Qed.

(** C8: for a series of at least 10 prices the fitting window has at least 3
    of them, and the denominator [window * sumX2 - sumX * sumX] of the slope
    is a finite number other than 0: the slope is never a division by 0. *)
Theorem slope_denominator_nonzero (historicalPrices : list num) :
  (10 <= length historicalPrices)%nat ->
  let window := windowSize (length historicalPrices) in
  (3 <= window)%nat
  /\ length (slice_last window historicalPrices) = window
  /\ exists r, denominator (slice_last window historicalPrices) = Num r /\ r <> 0.
Proof.
  intros Hn window.
  pose proof (windowSize_bounds _ Hn) as Hw. fold window in Hw.
  assert (Hlen : length (slice_last window historicalPrices) = window)
    by (apply length_slice_last; lia).
  split; [lia |]. split; [exact Hlen |].
  rewrite denominator_Num, Hlen. eexists. split; [reflexivity |].
  assert (0 < INR window * index_square_sum window - index_sum window * index_sum window)
    by (apply ols_denominator_pos; lia).
  lra.
Qed.

Lemma slope_denominator_nonzero_witness :
  let window := windowSize (length (repeat (Num 1) 10)) in
  (3 <= window)%nat
  /\ length (slice_last window (repeat (Num 1) 10)) = window
  /\ exists r, denominator (slice_last window (repeat (Num 1) 10)) = Num r /\ r <> 0.
Proof.
  apply (slope_denominator_nonzero (repeat (Num 1) 10)). simpl. lia.
Defined.

(** ** Trend forecaster: the confidence band *)

Lemma of_nat_div_Int (i : nat) (d : Z) :
  (1 <= d)%Z -> (of_nat i / of_int (Int d))%num = Num (INR i / IZR d).
Proof.
  intros Hd. unfold of_nat, of_int. apply div_Num.
  apply IZR_le in Hd. lra.
Qed.

Lemma confidenceRange_Num (s growth z : R) (d : Z) (i : nat) :
  (1 <= d)%Z ->
  confidenceRange (Num s) growth z (Int d) i
  = Num (s * (1 + INR i / IZR d * growth) * z).
Proof.
  intros Hd. unfold confidenceRange. now rewrite of_nat_div_Int.
Qed.

(** C7: for a standard deviation above 0 and a fixed number of days, the
    confidence half-width [stdDev * (1 + (i / days) * 0.5) * 1.96] of the
    trend forecaster does not decrease when the day [i] increases. *)
Theorem confidenceRange_monotone (stdDev : R) (days : Z) (i j : nat) :
  0 < stdDev ->
  (1 <= days)%Z ->
  (i <= j)%nat ->
  (confidenceRange (Num stdDev) (5 / 10) (196 / 100) (Int days) i
   <= confidenceRange (Num stdDev) (5 / 10) (196 / 100) (Int days) j)%num.
Proof.
  intros Hs Hd Hij.
  rewrite !confidenceRange_Num by assumption. apply le_Num.
  assert (Hd' : 0 < IZR days) by (apply IZR_le in Hd; lra).
  assert (Hq : INR i / IZR days <= INR j / IZR days).
  { apply Rmult_le_compat_r.
    - left. now apply Rinv_0_lt_compat.
    - now apply le_INR. }
  nra.
Qed.

Lemma confidenceRange_monotone_witness :
  (confidenceRange (Num 2) (5 / 10) (196 / 100) (Int 30) 1
   <= confidenceRange (Num 2) (5 / 10) (196 / 100) (Int 30) 2)%num.
Proof.
  apply (confidenceRange_monotone 2 30 1 2); [lra | lia | lia].
Defined.

(** ** The prediction loops *)

Lemma variance_of_Num (prices : list R) (mean : R) :
  prices <> [] ->
  exists v, 0 <= v /\ variance_of (map Num prices) (Num mean) = Num v.
Proof.
  intros Hne.
  assert (Hfold : forall (l : list R) (a : R), 0 <= a ->
            exists b, 0 <= b
              /\ fold_left (fun acc price => (acc + Math_pow2 (price - Num mean))%num)
                           (map Num l) (Num a) = Num b).
  { induction l as [| x l IH]; intros a Ha.
    - exists a. now split.
    - cbn [map fold_left]. apply IH.
      pose proof (Rle_0_sqr (x - mean)) as Hsq. unfold Rsqr in Hsq. lra. }
  destruct (Hfold prices 0 (Rle_refl 0)) as (b & Hb & Heq).
  unfold variance_of. rewrite Heq, length_map.
  assert (Hlen : 0 < INR (length prices)).
  { apply lt_0_INR. destruct prices; [contradiction | simpl; lia]. }
  unfold of_nat. rewrite div_Num by lra.
  eexists. split; [| reflexivity].
  apply Rmult_le_pos; [assumption | left; now apply Rinv_0_lt_compat].
Qed.

Lemma stdDev_Num (prices : list R) (mean : R) :
  prices <> [] ->
  exists s, 0 <= s /\ Math_sqrt (variance_of (map Num prices) (Num mean)) = Num s.
Proof.
  intros Hne. destruct (variance_of_Num prices mean Hne) as (v & Hv & ->).
  exists (sqrt v). split; [apply sqrt_pos | now apply Math_sqrt_Num].
Qed.

Lemma clamp_Num (lastPrice fraction price : R) :
  clamp (Num lastPrice) (Num fraction) (Num price)
  = Num (Rmax (lastPrice - lastPrice * fraction)
              (Rmin (lastPrice + lastPrice * fraction) price)).
Proof. reflexivity. Qed.

(** What both loops push, given the clamped price [c] and the half-width
    [q]: the floor at 0 changes nothing, the band contains the price, and
    the price is within the fraction of the last price. *)
Lemma band_facts (lastPrice fraction price q : R) :
  0 <= lastPrice -> 0 <= fraction <= 1 -> 0 <= q ->
  let c := Rmax (lastPrice - lastPrice * fraction)
                (Rmin (lastPrice + lastPrice * fraction) price) in
  0 <= Rmax 0 c
  /\ Rmax 0 (c - q) <= Rmax 0 c
  /\ Rmax 0 c <= c + q
  /\ Rabs (Rmax 0 c - lastPrice) <= fraction * lastPrice.
Proof.
  intros HL Hf Hq c.
  assert (Hlo : lastPrice - lastPrice * fraction <= c) by apply Rmax_l.
  assert (Hhi : c <= lastPrice + lastPrice * fraction).
  { unfold c. apply Rmax_lub; [nra | apply Rmin_l]. }
  assert (Hc : 0 <= c) by nra.
  rewrite (Rmax_right 0 c) by exact Hc.
  repeat split.
  - exact Hc.
  - apply Rmax_lub; lra.
  - lra.
  - apply Rabs_le. split; nra.
Qed.

Lemma pushed_ok (date : Z) (lastPrice fraction price q : R) :
  0 <= lastPrice -> 0 <= fraction <= 1 -> 0 <= q ->
  let clampedPrice := clamp (Num lastPrice) (Num fraction) (Num price) in
  let p := mkPrediction date (Math_max2 (Num 0) clampedPrice)
                        (Math_max2 (Num 0) (clampedPrice - Num q)%num)
                        (clampedPrice + Num q)%num in
  well_formed p /\ within fraction lastPrice p.
Proof.
  intros HL Hf Hq clampedPrice p. subst p clampedPrice.
  rewrite clamp_Num.
  destruct (band_facts lastPrice fraction price q HL Hf Hq) as (H0 & Hlow & Hup & Habs).
  unfold well_formed, within.
  cbn [predicted_price confidence_lower confidence_upper Math_max2 sub add].
  rewrite !le_Num. repeat split; try assumption.
  eexists. split; [reflexivity | assumption].
Qed.

Lemma lr_day_ok (zone : TimeZone) (today : Z) (window : nat) (slope intercept stdDev lastPrice : R)
    (days : Z) (i : nat) :
  0 <= stdDev -> 0 <= lastPrice -> (1 <= days)%Z ->
  let p := lr_day zone today window (Num slope) (Num intercept) (Num stdDev)
                  (Num lastPrice) (Int days) i in
  well_formed p /\ within (15 / 100) lastPrice p.
Proof.
  intros Hs HL Hd p. subst p. unfold lr_day.
  rewrite confidenceRange_Num by assumption.
  apply pushed_ok; try lra.
  assert (0 < IZR days) by (apply IZR_le in Hd; lra).
  assert (0 <= INR i / IZR days).
  { apply Rmult_le_pos; [apply pos_INR | left; now apply Rinv_0_lt_compat]. }
  apply Rmult_le_pos; [apply Rmult_le_pos |]; lra.
Qed.

(** On a series of prices the fit is finite: the forecaster returns the
    loop's predictions for a finite slope, intercept and deviation. *)
Lemma predictLinearRegression_fit (zone : TimeZone) (today : Z) (prices : list R) (days : jsint) :
  (10 <= length prices)%nat ->
  exists slope intercept stdDev,
    0 <= stdDev
    /\ predictLinearRegression zone today (map Num prices) days
       = Ok (map (lr_day zone today (windowSize (length prices)) (Num slope) (Num intercept)
                         (Num stdDev) (Num (nth (length prices - 1) prices 0)) days)
                 (seq 1 (count days))).
Proof.
  intros Hn. unfold predictLinearRegression.
  rewrite length_map.
  destruct (Nat.ltb_spec (length prices) 10) as [| _]; [lia |].
  pose proof (windowSize_bounds _ Hn) as Hw.
  set (window := windowSize (length prices)) in *.
  rewrite slice_last_map.
  set (recent := slice_last window prices).
  assert (Hlen : length recent = window) by (apply length_slice_last; lia).
  assert (Hne : recent <> []) by (intros E; rewrite E in Hlen; simpl in Hlen; lia).
  rewrite denominator_Num, length_map, Hlen.
  assert (Hden : 0 < INR window * index_square_sum window
                     - index_sum window * index_sum window)
    by (apply ols_denominator_pos; lia).
  assert (HW : 0 < INR window) by (apply lt_0_INR; lia).
  unfold sums. rewrite length_map, Hlen.
  rewrite sumX_partial by reflexivity.
  destruct (sumY_partial recent window (mkSums (Num 0) (Num 0) (Num 0) (Num 0)))
    as [sy Hsy]; [now exists 0 | lia |].
  destruct (sumXY_partial recent window (mkSums (Num 0) (Num 0) (Num 0) (Num 0)))
    as [sxy Hsxy]; [now exists 0 | lia |].
  rewrite Hsy, Hsxy. unfold of_nat. cbn [mul sub].
  rewrite !div_Num by lra. cbn [mul sub]. rewrite !div_Num by lra.
  destruct (stdDev_Num recent (sy / INR window) Hne) as (s & Hs & ->).
  rewrite get_map_Num by lia.
  eexists _, _, s. split; [exact Hs | reflexivity].
Qed.

Lemma increasing_dates_map (f : nat -> Prediction) (shift : Z) (a k : nat) :
  (forall i, date (f i) = (shift + Z.of_nat i)%Z) ->
  increasing_dates (map f (seq a k)).
Proof.
  intros Hf. revert a. induction k as [| k IH]; intros a.
  - exact I.
  - cbn [seq map increasing_dates]. split; [| apply IH].
    destruct k; cbn [seq map]; [exact I |]. rewrite !Hf. lia.
Qed.

(** Under an offset that never changes [setDate] moves the time value by
    whole days, and so the UTC day by as many. *)
Lemma toISODate_fixed_offset (zone : TimeZone) (today i : Z) :
  fixed_offset zone ->
  toISODate (setDate_plus zone today i) = (toISODate today + i)%Z.
Proof.
  intros (k & Hu & Hl).
  unfold toISODate, setDate_plus, UTC, LocalTime. rewrite Hu, Hl.
  replace (today + k + i * msPerDay - k)%Z with (today + i * msPerDay)%Z by ring.
  apply Z.div_add. unfold msPerDay. lia.
Qed.

Lemma lr_dates (zone : TimeZone) (today : Z) (window : nat)
    (slope intercept stdDev lastPrice : num) (days : jsint) (l : list nat) :
  map date (map (lr_day zone today window slope intercept stdDev lastPrice days) l)
  = map (fun i => toISODate (setDate_plus zone today (Z.of_nat i))) l.
Proof. rewrite map_map. reflexivity. Qed.

Lemma lstm_dates (zone : TimeZone) (today : Z) (actualPredictions : list num)
    (stdDev lastPrice : num) (days : jsint) (l : list nat) :
  map date (map (lstm_day zone today actualPredictions stdDev lastPrice days) l)
  = map (fun i => toISODate (setDate_plus zone today (Z.of_nat i + 1))) l.
Proof. rewrite map_map. reflexivity. Qed.

Lemma nth_error_map_seq {A : Type} (f : nat -> A) (a k i : nat) (p : A) :
  nth_error (map f (seq a k)) i = Some p -> (i < k)%nat /\ p = f (a + i)%nat.
Proof.
  intros Hp.
  assert (Hi : (i < k)%nat).
  { rewrite <- (length_seq k a), <- (length_map f). apply nth_error_Some. congruence. }
  split; [exact Hi |].
  rewrite nth_error_map, nth_error_nth' with (d := O) in Hp by now rewrite length_seq.
  rewrite seq_nth in Hp by exact Hi. cbn in Hp. congruence.
Qed.

Lemma last_price_nonneg (prices : list R) :
  Forall (fun p => 0 <= p) prices -> 0 <= nth (length prices - 1) prices 0.
Proof.
  intros Hall.
  destruct (Nat.eq_dec (length prices) 0) as [E | E].
  - rewrite nth_overflow by lia. lra.
  - rewrite Forall_forall in Hall. apply Hall, nth_In. lia.
Qed.

(** X26: on a series of at least 10 prices, none negative, and for 1 to 90
    days, [predictLinearRegression] returns, whatever the zone of the host
    and the time on its clock; it returns as many predictions as days, and
    every prediction has a price that is not negative, between its
    confidence bounds. *)
Theorem predictLinearRegression_well_formed (zone : TimeZone) (today : Z)
    (prices : list R) (days : Z) :
  (10 <= length prices)%nat ->
  Forall (fun p => 0 <= p) prices ->
  (1 <= days <= 90)%Z ->
  exists preds,
    predictLinearRegression zone today (map Num prices) (Int days) = Ok preds
    /\ Z.of_nat (length preds) = days
    /\ Forall well_formed preds.
Proof.
  intros Hn Hpos Hd.
  destruct (predictLinearRegression_fit zone today prices (Int days) Hn)
    as (slope & intercept & stdDev & Hs & Heq).
  pose proof (last_price_nonneg prices Hpos) as HL.
  set (lastPrice := nth (length prices - 1) prices 0) in *.
  eexists. split; [exact Heq |]. split.
  - rewrite length_map, length_seq. cbn [count]. lia.
  - apply Forall_forall. intros p Hp. apply in_map_iff in Hp.
    destruct Hp as (i & <- & _).
    apply lr_day_ok; [assumption | assumption | lia].
Qed.

Lemma predictLinearRegression_well_formed_witness :
  exists preds,
    predictLinearRegression eastern_2026 1772843400000 (map Num (repeat 100 10)) (Int 5)
    = Ok preds
    /\ Z.of_nat (length preds) = 5%Z
    /\ Forall well_formed preds.
Proof.
  apply (predictLinearRegression_well_formed eastern_2026 1772843400000 (repeat 100 10) 5).
  - rewrite repeat_length. lia.
  - apply Forall_forall. intros p Hp. apply repeat_spec in Hp. lra.
  - lia.
Defined.

(** C1, evaluated where it fails: the host keeps Eastern time and its clock
    reads 2026-03-07T00:30:00Z, the evening of March 6 there, two days
    before the clocks go forward. On 10 prices of 100 and for 3 days the
    trend forecaster returns three predictions, and the second has the date
    of the first: [setDate] moves the local day, [toISOString] prints the
    UTC day, and the local evenings of March 7 and March 8 fall on the same
    UTC day, 20520 days after the epoch (2026-03-08). The dates do not
    increase strictly, and day 2 is not dated today + 2. *)
Theorem predictLinearRegression_repeats_a_date :
  exists preds,
    predictLinearRegression eastern_2026 1772843400000 (map Num (repeat 100 10)) (Int 3)
    = Ok preds
    /\ toISODate 1772843400000 = 20519%Z
    /\ map date preds = [20520; 20520; 20521]%Z
    /\ ~ increasing_dates preds.
Proof.
  destruct (predictLinearRegression_fit eastern_2026 1772843400000 (repeat 100 10) (Int 3))
    as (slope & intercept & stdDev & _ & Heq).
  { rewrite repeat_length. lia. }
  eexists. split; [exact Heq |]. split; [reflexivity |].
  rewrite lr_dates. split; [vm_compute; reflexivity |].
  change (count (Int 3)) with 3%nat. cbn [seq map increasing_dates].
  intros [H _]. cbn [lr_day date] in H. vm_compute in H. discriminate H.
Qed.

(** ** Recurrent forecaster: training *)

Lemma nth_at_length {A : Type} (l1 l2 : list A) (v d : A) (i : nat) :
  length l1 = i -> nth i (l1 ++ v :: l2) d = v.
Proof.
  intros <-. apply nth_middle.
Qed.

Lemma get_array_set (a : list num) (j : nat) (v : num) (i : nat) :
  get (array_set a j v) i = if (i =? j)%nat then v else get a i.
Proof.
  unfold get, array_set. rewrite app_assoc.
  set (pre := firstn j a ++ repeat NaN (j - length a)).
  assert (Hpre : length pre = j).
  { unfold pre. rewrite length_app, length_firstn, repeat_length. lia. }
  destruct (Nat.eqb_spec i j) as [-> | Hij].
  - now apply nth_at_length.
  - destruct (Nat.lt_ge_cases i j) as [Hlt | Hge].
    + rewrite app_nth1 by lia. unfold pre.
      destruct (Nat.lt_ge_cases i (length a)) as [Hia | Hia].
      * rewrite app_nth1 by (rewrite length_firstn; lia).
        rewrite nth_firstn. destruct (Nat.ltb_spec i j); [reflexivity | lia].
      * rewrite app_nth2 by (rewrite length_firstn; lia).
        rewrite nth_repeat. symmetry. apply nth_overflow. lia.
    + rewrite app_nth2 by lia. rewrite Hpre.
      replace (i - j)%nat with (S (i - S j)) by lia.
      cbn [nth]. rewrite nth_skipn. f_equal. lia.
Qed.

(** The loop over [j] touches the readout weights alone. *)
Lemma update_loop_frame (learningRate error : num) (h : list num) (js : list nat)
    (lstm : SimpleLSTM) :
  let lstm' := fold_left (update_weight learningRate error h) js lstm in
  cell lstm' = cell lstm /\ hiddenSize lstm' = hiddenSize lstm.
Proof.
  revert lstm. induction js as [| j js IH]; intros lstm.
  - now split.
  - cbn [fold_left]. destruct (IH (update_weight learningRate error h lstm j)) as [-> ->].
    now split.
Qed.

Lemma update_loop_weights (learningRate error : num) (h : list num) (k : nat)
    (lstm : SimpleLSTM) (j : nat) :
  get (outputWeights (fold_left (update_weight learningRate error h) (seq 0 k) lstm)) j
  = if (j <? k)%nat
    then (get (outputWeights lstm) j + learningRate * error * get h j)%num
    else get (outputWeights lstm) j.
Proof.
  induction k as [| k IH].
  - reflexivity.
  - rewrite fold_left_seq_S.
    set (prev := fold_left _ _ _) in *.
    unfold update_weight at 1. cbn [outputWeights].
    rewrite get_array_set.
    destruct (Nat.eqb_spec j k) as [-> | Hjk].
    + rewrite Nat.ltb_irrefl in IH. rewrite IH.
      destruct (Nat.ltb_spec k (S k)); [reflexivity | lia].
    + rewrite IH.
      destruct (Nat.ltb_spec j k), (Nat.ltb_spec j (S k)); try lia; reflexivity.
Qed.

Lemma train_step_frame (data : list num) (st : TrainState) (i : nat) :
  cell (ts_this (train_step data st i)) = cell (ts_this st)
  /\ hiddenSize (ts_this (train_step data st i)) = hiddenSize (ts_this st).
Proof.
  unfold train_step. destruct (forward _ _ _ _) as [h c]. cbn [ts_this].
  apply update_loop_frame.
Qed.

Lemma train_steps_frame (data : list num) (idx : list nat) (st : TrainState) :
  cell (ts_this (fold_left (train_step data) idx st)) = cell (ts_this st)
  /\ hiddenSize (ts_this (fold_left (train_step data) idx st)) = hiddenSize (ts_this st).
Proof.
  revert st. induction idx as [| i idx IH]; intros st.
  - now split.
  - cbn [fold_left]. destruct (IH (train_step data st i)) as [-> ->].
    apply train_step_frame.
Qed.

Lemma train_epoch_frame (data : list num) (lstm : SimpleLSTM) :
  cell (train_epoch data lstm) = cell lstm
  /\ hiddenSize (train_epoch data lstm) = hiddenSize lstm.
Proof.
  unfold train_epoch. apply (train_steps_frame data _ (mkTrain lstm _ _)).
Qed.

Lemma train_frame (lstm : SimpleLSTM) (data : list num) (epochs : nat) :
  cell (train lstm data epochs) = cell lstm
  /\ hiddenSize (train lstm data epochs) = hiddenSize lstm.
Proof.
  unfold train. generalize (seq 0 epochs) as es. intros es. revert lstm.
  induction es as [| e es IH]; intros lstm.
  - now split.
  - cbn [fold_left]. destruct (IH (train_epoch data lstm)) as [-> ->].
    apply train_epoch_frame.
Qed.

(** C9: whatever the data and the number of epochs, [train] leaves the cell,
    and so its four gate matrices [Wf], [Wi], [Wc] and [Wo], as they were;
    and a training step changes the readout weights alone: after the forward
    step to [h] and with [error] the next value less the readout of [h],
    weight [j] below [hiddenSize] has gained [0.001 * error * h[j]] and the
    others are as before. *)
Theorem train_only_readout (lstm : SimpleLSTM) (data : list num) (epochs : nat) :
  (Wf (cell (train lstm data epochs)) = Wf (cell lstm)
   /\ Wi (cell (train lstm data epochs)) = Wi (cell lstm)
   /\ Wc (cell (train lstm data epochs)) = Wc (cell lstm)
   /\ Wo (cell (train lstm data epochs)) = Wo (cell lstm))
  /\ forall (st : TrainState) (i j : nat),
       let h := fst (forward (cell (ts_this st)) (get data i) (ts_h st) (ts_c st)) in
       let error := (get data (i + 1) - readout (ts_this st) h)%num in
       let st' := train_step data st i in
       cell (ts_this st') = cell (ts_this st)
       /\ ts_h st' = h
       /\ get (outputWeights (ts_this st')) j = updated_weight (ts_this st) error h j.
Proof.
  split.
  - destruct (train_frame lstm data epochs) as [-> _]. repeat split.
  - intros st i j h error st'. subst h error st'.
    split; [apply train_step_frame |].
    unfold train_step, updated_weight.
    destruct (forward _ _ _ _) as [h c]. cbn [ts_this ts_h fst].
    split; [reflexivity | apply update_loop_weights].
Qed.

(** ** Recurrent forecaster: finite weights give finite predictions *)

Lemma finite_Num (r : R) : finite (Num r).
Proof. now exists r. Qed.

Lemma finite_add (a b : num) : finite a -> finite b -> finite (a + b)%num.
Proof. intros [x ->] [y ->]. apply finite_Num. Qed.

Lemma finite_sub (a b : num) : finite a -> finite b -> finite (a - b)%num.
Proof. intros [x ->] [y ->]. apply finite_Num. Qed.

Lemma finite_mul (a b : num) : finite a -> finite b -> finite (a * b)%num.
Proof. intros [x ->] [y ->]. apply finite_Num. Qed.

Lemma finite_sigmoid (x : num) : finite x -> finite (sigmoid x).
Proof.
  intros [r ->]. unfold sigmoid. cbn [neg Math_exp add].
  pose proof (exp_pos (- r)). rewrite div_Num by lra. apply finite_Num.
Qed.

Lemma finite_tanh (x : num) : finite x -> finite (tanh x).
Proof. intros [r ->]. apply finite_Num. Qed.

Lemma finite_get (l : list num) (i : nat) :
  Forall finite l -> (i < length l)%nat -> finite (get l i).
Proof.
  intros Hl Hi. rewrite Forall_forall in Hl. now apply Hl, nth_In.
Qed.

Lemma Forall_finite_get (l : list num) :
  (forall j, (j < length l)%nat -> finite (get l j)) -> Forall finite l.
Proof.
  intros H. apply Forall_forall. intros x Hx.
  destruct (In_nth l x NaN Hx) as (j & Hj & <-). now apply H.
Qed.

Lemma Forall_finite_repeat (r : R) (n : nat) : Forall finite (repeat (Num r) n).
Proof.
  apply Forall_forall. intros x Hx. apply repeat_spec in Hx. subst. apply finite_Num.
Qed.

Create HintDb finite_db.

#[local] Hint Resolve finite_Num finite_add finite_sub finite_mul finite_sigmoid
  finite_tanh finite_get : finite_db.

Lemma fold_seq_finite (f : num -> nat -> num) (k : nat) (a : num) :
  finite a ->
  (forall s i, (i < k)%nat -> finite s -> finite (f s i)) ->
  finite (fold_left f (seq 0 k) a).
Proof.
  intros Ha. induction k as [| k IH]; intros Hf.
  - exact Ha.
  - rewrite fold_left_seq_S. apply Hf; [lia |]. apply IH. intros s i Hi. apply Hf. lia.
Qed.

Lemma fold_left_finite {B : Type} (f : num -> B -> num) (l : list B) (a : num) :
  finite a ->
  (forall s p, In p l -> finite s -> finite (f s p)) ->
  finite (fold_left f l a).
Proof.
  revert a. induction l as [| p l IH]; intros a Ha Hf.
  - exact Ha.
  - cbn [fold_left]. apply IH.
    + apply Hf; [now left | exact Ha].
    + intros s q Hq. apply Hf. now right.
Qed.

Lemma matMul_finite (rows : nat) (W : list (list num)) (input : list num) :
  finite_matrix rows (length input) W -> Forall finite input ->
  length (matMul W input) = rows /\ Forall finite (matMul W input).
Proof.
  intros [Hrows Hall] Hin. unfold matMul. split; [now rewrite length_map |].
  apply Forall_map. eapply Forall_impl; [| exact Hall].
  intros row [Hlen Hrow]. cbn beta.
  apply fold_seq_finite; [apply finite_Num |].
  intros s i Hi Hs.
  apply finite_add; [exact Hs |]. apply finite_mul; apply finite_get; auto; lia.
Qed.

Lemma length_mapi {A B : Type} (f : A -> nat -> B) (l : list A) :
  length (mapi f l) = length l.
Proof.
  unfold mapi. rewrite length_map, length_combine, length_seq. lia.
Qed.

Lemma Forall_mapi {A B : Type} (P : B -> Prop) (f : A -> nat -> B) (l : list A) :
  (forall i x, (i < length l)%nat -> In x l -> P (f x i)) -> Forall P (mapi f l).
Proof.
  intros H. unfold mapi. apply Forall_map, Forall_forall.
  intros [i x] Hix. cbn [fst snd]. apply H.
  - apply in_combine_l, in_seq in Hix. lia.
  - now apply in_combine_r in Hix.
Qed.

Lemma forward_finite (cell : SimpleLSTMCell) (x : num) (h c : list num) :
  cell_ok cell -> finite x ->
  length h = cell_hiddenSize cell -> Forall finite h ->
  length c = cell_hiddenSize cell -> Forall finite c ->
  let hc := forward cell x h c in
  (length (fst hc) = cell_hiddenSize cell /\ Forall finite (fst hc))
  /\ (length (snd hc) = cell_hiddenSize cell /\ Forall finite (snd hc)).
Proof.
  intros (Hf & Hi & Hc & Ho) Hx Hlh Hh Hlc Hcf hc. subst hc.
  assert (Hcomb : Forall finite (x :: h)) by now constructor.
  assert (Hlen : length (x :: h) = (1 + cell_hiddenSize cell)%nat)
    by (cbn [length]; lia).
  rewrite <- Hlen in Hf, Hi, Hc, Ho.
  destruct (matMul_finite _ _ _ Hf Hcomb) as [Lf Ff].
  destruct (matMul_finite _ _ _ Hi Hcomb) as [Li Fi].
  destruct (matMul_finite _ _ _ Hc Hcomb) as [Lc Fc].
  destruct (matMul_finite _ _ _ Ho Hcomb) as [Lo Fo].
  unfold forward. cbn [fst snd].
  set (ft := map sigmoid (matMul (Wf cell) (x :: h))).
  set (it := map sigmoid (matMul (Wi cell) (x :: h))).
  set (cTilde := map tanh (matMul (Wc cell) (x :: h))).
  set (ot := map sigmoid (matMul (Wo cell) (x :: h))).
  assert (Fft : Forall finite ft)
    by (apply Forall_map; eapply Forall_impl; [| exact Ff]; auto with finite_db).
  assert (Fit : Forall finite it)
    by (apply Forall_map; eapply Forall_impl; [| exact Fi]; auto with finite_db).
  assert (Fct : Forall finite cTilde)
    by (apply Forall_map; eapply Forall_impl; [| exact Fc]; auto with finite_db).
  assert (Fot : Forall finite ot)
    by (apply Forall_map; eapply Forall_impl; [| exact Fo]; auto with finite_db).
  assert (Lft : length ft = cell_hiddenSize cell) by (unfold ft; now rewrite length_map).
  assert (Lit : length it = cell_hiddenSize cell) by (unfold it; now rewrite length_map).
  assert (Lct : length cTilde = cell_hiddenSize cell)
    by (unfold cTilde; now rewrite length_map).
  assert (Lot : length ot = cell_hiddenSize cell) by (unfold ot; now rewrite length_map).
  set (newC := mapi _ c).
  assert (LC : length newC = cell_hiddenSize cell)
    by (unfold newC; now rewrite length_mapi).
  assert (FC : Forall finite newC).
  { apply Forall_mapi. intros i cVal Hi' Hin.
    rewrite Forall_forall in Hcf.
    apply finite_add; apply finite_mul; auto; apply finite_get; auto; lia. }
  repeat split; try assumption.
  - now rewrite length_mapi.
  - apply Forall_mapi. intros i cVal Hi' Hin.
    rewrite Forall_forall in FC.
    apply finite_mul; [apply finite_get; auto; lia | auto with finite_db].
Qed.

Lemma readout_finite (lstm : SimpleLSTM) (h : list num) :
  length (outputWeights lstm) = length h ->
  Forall finite (outputWeights lstm) -> Forall finite h ->
  finite (readout lstm h).
Proof.
  intros Hlen Hw Hh. unfold readout.
  apply fold_left_finite; [apply finite_Num |].
  intros s [i val] Hin Hs. cbn [fst snd].
  rewrite Forall_forall in Hh.
  apply finite_add; [exact Hs |]. apply finite_mul.
  - apply Hh. now apply in_combine_r in Hin.
  - apply finite_get; [exact Hw |]. apply in_combine_l, in_seq in Hin. lia.
Qed.

Lemma length_array_set (a : list num) (j : nat) (v : num) :
  (j < length a)%nat -> length (array_set a j v) = length a.
Proof.
  intros Hj. unfold array_set.
  rewrite !length_app, length_firstn, repeat_length. cbn [length].
  rewrite length_skipn. lia.
Qed.

Lemma update_loop_length (learningRate error : num) (h : list num) (k : nat)
    (lstm : SimpleLSTM) :
  (k <= length (outputWeights lstm))%nat ->
  length (outputWeights (fold_left (update_weight learningRate error h) (seq 0 k) lstm))
  = length (outputWeights lstm).
Proof.
  induction k as [| k IH]; intros Hk.
  - reflexivity.
  - rewrite fold_left_seq_S. unfold update_weight at 1. cbn [outputWeights].
    rewrite length_array_set; rewrite IH; lia.
Qed.

Lemma update_loop_ok (error : num) (h : list num) (lstm : SimpleLSTM) :
  lstm_ok lstm -> finite error ->
  length h = hiddenSize lstm -> Forall finite h ->
  lstm_ok (fold_left (update_weight (Num (1 / 1000)) error h)
                     (seq 0 (hiddenSize lstm)) lstm).
Proof.
  intros (Hcell & Hsize & Hlen & Hw) He Hlh Hh.
  set (lstm' := fold_left _ _ _).
  destruct (update_loop_frame (Num (1 / 1000)) error h (seq 0 (hiddenSize lstm)) lstm)
    as [Ecell Esize].
  fold lstm' in Ecell, Esize.
  assert (Elen : length (outputWeights lstm') = length (outputWeights lstm))
    by (apply update_loop_length; lia).
  unfold lstm_ok. rewrite Ecell, Esize, Elen.
  split; [exact Hcell |]. split; [exact Hsize |]. split; [exact Hlen |].
  apply Forall_finite_get. intros j Hj. unfold lstm'.
  rewrite update_loop_weights.
  destruct (j <? hiddenSize lstm)%nat.
  - apply finite_add; [apply finite_get; auto; lia |].
    apply finite_mul; [auto with finite_db |]. apply finite_get; auto; lia.
  - apply finite_get; auto; lia.
Qed.

Lemma train_step_ok (data : list num) (st : TrainState) (i : nat) :
  Forall finite data -> (i + 1 < length data)%nat ->
  lstm_ok (ts_this st) -> state_ok (ts_this st) (ts_h st) (ts_c st) ->
  let st' := train_step data st i in
  lstm_ok (ts_this st') /\ state_ok (ts_this st') (ts_h st') (ts_c st').
Proof.
  intros Hdata Hi Hok (Hlh & Hh & Hlc & Hc) st'. subst st'.
  pose proof Hok as (Hcell & Hsize & Hlen & Hw).
  rewrite <- Hsize in Hlh, Hlc.
  destruct (forward_finite (cell (ts_this st)) (get data i) (ts_h st) (ts_c st))
    as [[Lh' Fh'] [Lc' Fc']]; auto.
  { apply finite_get; auto; lia. }
  unfold train_step. destruct (forward _ _ _ _) as [h' c']. cbn [fst snd] in *.
  cbn [ts_this ts_h ts_c].
  assert (Hnew : lstm_ok (fold_left
                   (update_weight (Num (1 / 1000))
                      (get data (i + 1) - readout (ts_this st) h')%num h')
                   (seq 0 (hiddenSize (ts_this st))) (ts_this st))).
  { apply update_loop_ok; auto; try lia.
    apply finite_sub; [apply finite_get; auto |].
    apply readout_finite; auto. lia. }
  split; [exact Hnew |].
  destruct (update_loop_frame (Num (1 / 1000))
              (get data (i + 1) - readout (ts_this st) h')%num h'
              (seq 0 (hiddenSize (ts_this st))) (ts_this st)) as [_ Esize].
  unfold state_ok. rewrite Esize. repeat split; auto; lia.
Qed.

Lemma train_epoch_ok (data : list num) (lstm : SimpleLSTM) :
  Forall finite data -> lstm_ok lstm -> lstm_ok (train_epoch data lstm).
Proof.
  intros Hdata Hok. unfold train_epoch.
  assert (Hloop : forall k st, (k <= length data - 1)%nat ->
            lstm_ok (ts_this st) -> state_ok (ts_this st) (ts_h st) (ts_c st) ->
            let st' := fold_left (train_step data) (seq 0 k) st in
            lstm_ok (ts_this st') /\ state_ok (ts_this st') (ts_h st') (ts_c st')).
  { induction k as [| k IH]; intros st Hk H1 H2.
    - now split.
    - cbn zeta. rewrite fold_left_seq_S.
      destruct (IH st) as [H1' H2']; [lia | assumption | assumption |].
      apply train_step_ok; auto. lia. }
  apply (Hloop (length data - 1)%nat (mkTrain lstm _ _)); [lia | exact Hok |].
  cbn [ts_this ts_h ts_c]. unfold state_ok. rewrite repeat_length.
  repeat split; auto using Forall_finite_repeat.
Qed.

Lemma train_ok (lstm : SimpleLSTM) (data : list num) (epochs : nat) :
  Forall finite data -> lstm_ok lstm -> lstm_ok (train lstm data epochs).
Proof.
  intros Hdata. unfold train. generalize (seq 0 epochs) as es. intros es. revert lstm.
  induction es as [| e es IH]; intros lstm Hok.
  - exact Hok.
  - cbn [fold_left]. apply IH. now apply train_epoch_ok.
Qed.

Lemma initWeights_finite (random : Random) (drawn rows cols : nat) :
  (0 < rows + cols)%nat ->
  finite_matrix rows cols (fst (initWeights random drawn rows cols)).
Proof.
  intros Hpos. unfold initWeights. cbn [fst].
  assert (Hrc : 0 < INR (rows + cols)) by now apply lt_0_INR.
  unfold of_nat. rewrite div_Num by lra.
  rewrite Math_sqrt_Num
    by (apply Rmult_le_pos; [lra | left; now apply Rinv_0_lt_compat]).
  split; [now rewrite length_map, length_seq |].
  apply Forall_map, Forall_forall. intros i _.
  split; [now rewrite length_map, length_seq |].
  apply Forall_map, Forall_forall. intros j _. apply finite_Num.
Qed.

Lemma new_SimpleLSTM_ok (random : Random) (drawn hiddenSize' : nat) :
  let lstm := fst (new_SimpleLSTM random drawn hiddenSize') in
  lstm_ok lstm /\ hiddenSize lstm = hiddenSize'.
Proof.
  unfold new_SimpleLSTM, new_SimpleLSTMCell.
  destruct (initWeights random drawn hiddenSize' (1 + hiddenSize')) as [wf d1] eqn:E1.
  destruct (initWeights random d1 hiddenSize' (1 + hiddenSize')) as [wi d2] eqn:E2.
  destruct (initWeights random d2 hiddenSize' (1 + hiddenSize')) as [wc d3] eqn:E3.
  destruct (initWeights random d3 hiddenSize' (1 + hiddenSize')) as [wo d4] eqn:E4.
  cbn [fst]. split; [| reflexivity].
  unfold lstm_ok, cell_ok.
  cbn [cell hiddenSize outputWeights cell_hiddenSize Wf Wi Wc Wo].
  replace wf with (fst (initWeights random drawn hiddenSize' (1 + hiddenSize')))
    by now rewrite E1.
  replace wi with (fst (initWeights random d1 hiddenSize' (1 + hiddenSize')))
    by now rewrite E2.
  replace wc with (fst (initWeights random d2 hiddenSize' (1 + hiddenSize')))
    by now rewrite E3.
  replace wo with (fst (initWeights random d3 hiddenSize' (1 + hiddenSize')))
    by now rewrite E4.
  repeat split; try (apply initWeights_finite; lia);
    try (now rewrite length_map, length_seq).
  apply Forall_map, Forall_forall. intros k _. apply finite_Num.
Qed.

Lemma warm_up_ok (lstm : SimpleLSTM) (lastValues : list num) (hc : list num * list num) :
  lstm_ok lstm -> Forall finite lastValues ->
  state_ok lstm (fst hc) (snd hc) ->
  let hc' := fold_left (fun hc val => forward (cell lstm) val (fst hc) (snd hc))
                       lastValues hc in
  state_ok lstm (fst hc') (snd hc').
Proof.
  intros Hok Hvals. revert hc.
  induction Hvals as [| val vals Hval Hvals IH]; intros hc Hst.
  - exact Hst.
  - cbn [fold_left]. apply IH.
    destruct Hok as (Hcell & Hsize & _). destruct Hst as (Hlh & Hh & Hlc & Hc).
    rewrite <- Hsize in *.
    destruct (forward_finite (cell lstm) val (fst hc) (snd hc))
      as [[? ?] [? ?]]; auto.
    unfold state_ok. rewrite <- Hsize. auto.
Qed.

Lemma predict_step_ok (lstm : SimpleLSTM) (st : PredictState) :
  lstm_ok lstm -> state_ok lstm (ph st) (pc st) -> finite (lastInput st) ->
  Forall finite (predicted_so_far st) ->
  let st' := predict_step lstm st in
  state_ok lstm (ph st') (pc st') /\ finite (lastInput st')
  /\ Forall finite (predicted_so_far st')
  /\ length (predicted_so_far st') = S (length (predicted_so_far st)).
Proof.
  intros Hok (Hlh & Hh & Hlc & Hc) Hin Hsofar st'. subst st'.
  pose proof Hok as (Hcell & Hsize & Hlen & Hw).
  rewrite <- Hsize in Hlh, Hlc.
  destruct (forward_finite (cell lstm) (lastInput st) (ph st) (pc st))
    as [[Lh Fh] [Lc Fc]]; auto.
  unfold predict_step. destruct (forward _ _ _ _) as [h c]. cbn [fst snd] in *.
  cbn [ph pc lastInput predicted_so_far].
  assert (Hread : finite (readout lstm h)) by (apply readout_finite; auto; lia).
  unfold state_ok. rewrite <- Hsize.
  split; [auto |]. split; [exact Hread |]. split.
  - apply Forall_app. split; [assumption | now constructor].
  - rewrite length_app. cbn [length]. lia.
Qed.

Lemma predict_finite (lstm : SimpleLSTM) (lastValues : list num) (steps : jsint) :
  lstm_ok lstm -> Forall finite lastValues -> lastValues <> [] ->
  length (predict lstm lastValues steps) = count steps
  /\ Forall finite (predict lstm lastValues steps).
Proof.
  intros Hok Hvals Hne. unfold predict.
  set (zeros := repeat (Num 0) (hiddenSize lstm)).
  assert (Hzero : state_ok lstm (fst (zeros, zeros)) (snd (zeros, zeros))).
  { cbn [fst snd]. unfold state_ok, zeros. rewrite repeat_length.
    repeat split; auto using Forall_finite_repeat. }
  pose proof (warm_up_ok lstm lastValues (zeros, zeros) Hok Hvals Hzero) as Hwarm.
  cbn zeta in Hwarm. destruct (fold_left _ lastValues (zeros, zeros)) as [h c].
  cbn [fst snd] in Hwarm.
  assert (Hlast : finite (get lastValues (length lastValues - 1))).
  { apply finite_get; [assumption |]. destruct lastValues; [contradiction | simpl; lia]. }
  assert (Hloop : forall k st,
            state_ok lstm (ph st) (pc st) -> finite (lastInput st) ->
            Forall finite (predicted_so_far st) ->
            let st' := fold_left (fun st _ => predict_step lstm st) (seq 0 k) st in
            state_ok lstm (ph st') (pc st') /\ finite (lastInput st')
            /\ Forall finite (predicted_so_far st')
            /\ length (predicted_so_far st') = (length (predicted_so_far st) + k)%nat).
  { induction k as [| k IH]; intros st H1 H2 H3.
    - cbn [seq fold_left].
      split; [exact H1 |]. split; [exact H2 |]. split; [exact H3 | lia].
    - cbn zeta. rewrite fold_left_seq_S.
      destruct (IH st H1 H2 H3) as (H1' & H2' & H3' & H4').
      destruct (predict_step_ok lstm _ Hok H1' H2' H3') as (H1s & H2s & H3s & Hl).
      split; [exact H1s |]. split; [exact H2s |]. split; [exact H3s |].
      rewrite Hl, H4'. lia. }
  destruct (Hloop (count steps) (mkPredict h c (get lastValues (length lastValues - 1)) []))
    as (_ & _ & Hfin & Hlen); auto.
Qed.

Lemma normalizeData_finite (x : R) (xs : list R) :
  non_constant (x :: xs) ->
  normalizeData (map Num (x :: xs))
  = mkNormalized
      (map (fun v => Num ((v - Rmin_list x xs) / (Rmax_list x xs - Rmin_list x xs)))
           (x :: xs))
      (Num (Rmin_list x xs)) (Num (Rmax_list x xs)).
Proof.
  intros Hnc. pose proof (non_constant_range x xs Hnc) as Hrange.
  unfold normalizeData. rewrite Math_min_Num, Math_max_Num. f_equal.
  rewrite map_map. apply map_ext. intros v. cbn [sub]. apply div_Num. lra.
Qed.

Lemma lstm_day_ok (zone : TimeZone) (today : Z) (actualPredictions : list num)
    (stdDev lastPrice : R)
    (days : Z) (i : nat) :
  finite (get actualPredictions i) ->
  0 <= stdDev -> 0 <= lastPrice -> (1 <= days)%Z ->
  let p := lstm_day zone today actualPredictions (Num stdDev) (Num lastPrice) (Int days) i in
  well_formed p /\ within (20 / 100) lastPrice p.
Proof.
  intros [raw Hraw] Hs HL Hd p. subst p. unfold lstm_day.
  rewrite confidenceRange_Num, Hraw by assumption.
  unfold of_nat. cbn [neg]. rewrite div_Num by lra.
  cbn [Math_exp mul add sub].
  apply pushed_ok; try lra.
  assert (0 < IZR days) by (apply IZR_le in Hd; lra).
  assert (0 <= INR i / IZR days).
  { apply Rmult_le_pos; [apply pos_INR | left; now apply Rinv_0_lt_compat]. }
  apply Rmult_le_pos; [apply Rmult_le_pos |]; lra.
Qed.

Lemma Forall_slice_last {A : Type} (P : A -> Prop) (k : nat) (a : list A) :
  Forall P a -> Forall P (slice_last k a).
Proof.
  intros Ha. unfold slice_last. destruct (k =? 0)%nat; [exact Ha |].
  rewrite <- (firstn_skipn (length a - k) a) in Ha.
  now apply Forall_app in Ha.
Qed.

Lemma sum_finite (prices : list R) (a : R) :
  finite (fold_left (fun sum price => (sum + price)%num) (map Num prices) (Num a)).
Proof.
  revert a. induction prices as [| x l IH]; intros a.
  - apply finite_Num.
  - cbn [map fold_left add]. apply IH.
Qed.

(** On a series of prices that are not all equal, the recurrent forecaster
    returns the post-processing of finite raw predictions. *)
Lemma predictLSTM_fit (random : Random) (zone : TimeZone) (today : Z) (prices : list R)
    (days : jsint) :
  (60 <= length prices)%nat -> non_constant prices ->
  exists actualPredictions stdDev,
    0 <= stdDev
    /\ length actualPredictions = count days
    /\ Forall finite actualPredictions
    /\ predictLSTM random zone today (map Num prices) days
       = Ok (map (lstm_day zone today actualPredictions (Num stdDev)
                           (Num (nth (length prices - 1) prices 0)) days)
                 (seq 0 (count days))).
Proof.
  intros Hn Hnc. unfold predictLSTM.
  rewrite length_map.
  destruct (Nat.ltb_spec (length prices) 60) as [| _]; [lia |].
  destruct prices as [| x xs]; [simpl in Hn; lia |].
  rewrite (normalizeData_finite x xs Hnc). cbn [normalized min max].
  set (m := Rmin_list x xs). set (M := Rmax_list x xs).
  set (norm := map (fun v => Num ((v - m) / (M - m))) (x :: xs)).
  assert (Hnorm : Forall finite norm)
    by (apply Forall_map, Forall_forall; intros v _; apply finite_Num).
  assert (Hnlen : length norm = length (x :: xs)) by apply length_map.
  set (lstm := train _ norm 50).
  assert (Hok : lstm_ok lstm)
    by (apply train_ok; [exact Hnorm | apply new_SimpleLSTM_ok]).
  set (lastValues := slice_last (Nat.min 60 (length (x :: xs))) norm).
  assert (Hlast : length lastValues = Nat.min 60 (length (x :: xs)))
    by (apply length_slice_last; lia).
  assert (Hvals : Forall finite lastValues).
  { now apply Forall_slice_last. }
  destruct (predict_finite lstm lastValues days Hok Hvals) as [Hplen Hpfin].
  { intros E. rewrite E in Hlast. simpl in Hlast. lia. }
  rewrite slice_last_map.
  set (recent := slice_last 30 (x :: xs)).
  assert (Hrlen : length recent = 30%nat) by (apply length_slice_last; lia).
  assert (Hrne : recent <> []) by (intros E; rewrite E in Hrlen; discriminate).
  destruct (sum_finite recent 0) as [total ->].
  rewrite length_map, Hrlen. unfold of_nat.
  assert (H30 : 0 < INR 30) by (apply lt_0_INR; lia).
  rewrite div_Num by lra.
  destruct (stdDev_Num recent (total / INR 30) Hrne) as (s & Hs & ->).
  rewrite get_map_Num by lia.
  eexists _, s. split; [exact Hs |]. split; [| split; [| reflexivity]].
  - now rewrite length_map.
  - apply Forall_map. eapply Forall_impl; [| exact Hpfin].
    intros v [r ->]. apply finite_Num.
Qed.

(** ** Recurrent forecaster: a constant series *)

Lemma add_NaN_r (a : num) : (a + NaN)%num = NaN.
Proof. now destruct a. Qed.

Lemma mul_NaN_r (a : num) : (a * NaN)%num = NaN.
Proof. now destruct a. Qed.

Lemma Math_min2_NaN_r (a : num) : Math_min2 a NaN = NaN.
Proof. now destruct a. Qed.

Lemma Math_max2_NaN_r (a : num) : Math_max2 a NaN = NaN.
Proof. now destruct a. Qed.

Lemma get_repeat_NaN (k i : nat) : get (repeat NaN k) i = NaN.
Proof. apply nth_repeat. Qed.

Lemma fold_left_NaN {B : Type} (g : B -> num) (l : list B) :
  fold_left (fun sum p => (sum + g p)%num) l NaN = NaN.
Proof.
  induction l as [| p l IH]; [reflexivity | exact IH].
Qed.

Lemma matMul_NaN (W : list (list num)) (h : list num) :
  matMul W (NaN :: h) = repeat NaN (length W).
Proof.
  unfold matMul. induction W as [| row W IH]; cbn [map length repeat].
  - reflexivity.
  - f_equal; [| exact IH].
    cbn [seq fold_left]. unfold get at 2. cbn [nth].
    rewrite mul_NaN_r. cbn [add].
    apply (fold_left_NaN (fun j => (get row j * get (NaN :: h) j)%num)).
Qed.

Lemma mapi_constant {A B : Type} (f : A -> nat -> B) (v : B) (l : list A) :
  (forall x i, f x i = v) -> mapi f l = repeat v (length l).
Proof.
  intros Hf. unfold mapi. generalize 0%nat as a.
  induction l as [| x l IH]; intros a; cbn [length seq combine map repeat].
  - reflexivity.
  - cbn [fst snd]. now rewrite Hf, IH.
Qed.

(** One step of the cell on the input [NaN]: whatever the weights, the new
    hidden and cell states are [NaN] throughout. *)
Lemma forward_NaN (cell : SimpleLSTMCell) (h c : list num) :
  forward cell NaN h c = (repeat NaN (length c), repeat NaN (length c)).
Proof.
  unfold forward. rewrite !matMul_NaN, !map_repeat.
  change (sigmoid NaN) with NaN. change (tanh NaN) with NaN.
  assert (HC : mapi (fun cVal i =>
                       (get (repeat NaN (length (Wf cell))) i * cVal
                        + get (repeat NaN (length (Wi cell))) i
                          * get (repeat NaN (length (Wc cell))) i)%num) c
               = repeat NaN (length c)).
  { apply mapi_constant. intros x i. now rewrite !get_repeat_NaN. }
  rewrite HC. f_equal.
  rewrite (mapi_constant _ NaN), repeat_length; [reflexivity |].
  intros x i. now rewrite get_repeat_NaN.
Qed.

Lemma warm_up_NaN (cell : SimpleLSTMCell) (k : nat) (h c : list num) :
  fold_left (fun hc val => forward cell val (fst hc) (snd hc))
            (repeat NaN (S k)) (h, c)
  = (repeat NaN (length c), repeat NaN (length c)).
Proof.
  revert h c. induction k as [| k IH]; intros h c.
  - cbn [repeat fold_left fst snd]. apply forward_NaN.
  - change (repeat NaN (S (S k))) with (NaN :: repeat NaN (S k)).
    cbn [fold_left fst snd]. rewrite forward_NaN, IH, repeat_length. reflexivity.
Qed.

Lemma readout_NaN (lstm : SimpleLSTM) (k : nat) :
  readout lstm (repeat NaN (S k)) = NaN.
Proof.
  unfold readout. rewrite repeat_length.
  cbn [repeat seq combine fold_left fst snd mul add].
  apply (fold_left_NaN (fun p => (snd p * get (outputWeights lstm) (fst p))%num)).
Qed.

Lemma predict_loop_NaN (lstm : SimpleLSTM) (l : list nat) (h c acc : list num) :
  (0 < length c)%nat ->
  predicted_so_far (fold_left (fun st _ => predict_step lstm st) l
                              (mkPredict h c NaN acc))
  = acc ++ repeat NaN (length l).
Proof.
  intros Hc. revert h c acc Hc.
  induction l as [| x l IH]; intros h c acc Hc.
  - cbn [fold_left predicted_so_far length repeat]. now rewrite app_nil_r.
  - cbn [fold_left length repeat]. unfold predict_step at 2.
    cbn [lastInput ph pc predicted_so_far]. rewrite forward_NaN.
    destruct (length c) as [| k] eqn:E; [lia |].
    rewrite readout_NaN, IH by (rewrite repeat_length; lia).
    rewrite <- app_assoc. reflexivity.
Qed.

(** With [NaN] as the input values every prediction is [NaN]. *)
Lemma predict_NaN (lstm : SimpleLSTM) (k : nat) (steps : jsint) :
  (0 < hiddenSize lstm)%nat ->
  predict lstm (repeat NaN (S k)) steps = repeat NaN (count steps).
Proof.
  intros HH. unfold predict. rewrite warm_up_NaN, get_repeat_NaN.
  rewrite predict_loop_NaN by (rewrite !repeat_length; lia).
  now rewrite length_seq.
Qed.

Lemma lstm_day_NaN (zone : TimeZone) (today : Z) (k : nat) (stdDev lastPrice : num) (days : jsint)
    (i : nat) :
  predicted_price (lstm_day zone today (repeat NaN k) stdDev lastPrice days i) = NaN.
Proof.
  unfold lstm_day, clamp. cbn [predicted_price]. rewrite get_repeat_NaN.
  cbn [mul add]. now rewrite Math_min2_NaN_r, Math_max2_NaN_r.
Qed.

Lemma lstm_days_NaN (zone : TimeZone) (today : Z) (k : nat) (stdDev lastPrice : num) (days : jsint)
    (a n : nat) :
  map (fun i => predicted_price (lstm_day zone today (repeat NaN k) stdDev lastPrice days i))
      (seq a n)
  = repeat NaN n.
Proof.
  revert a. induction n as [| n IH]; intros a.
  - reflexivity.
  - cbn [seq map repeat]. now rewrite lstm_day_NaN, IH.
Qed.

Lemma lstm_day_NaN_bounds (zone : TimeZone) (today : Z) (k : nat) (stdDev lastPrice : num)
    (days : jsint) (i : nat) :
  let p := lstm_day zone today (repeat NaN k) stdDev lastPrice days i in
  confidence_lower p = NaN /\ confidence_upper p = NaN.
Proof.
  unfold lstm_day, clamp. cbn [confidence_lower confidence_upper].
  rewrite get_repeat_NaN. cbn [mul add].
  rewrite Math_min2_NaN_r, Math_max2_NaN_r. split; reflexivity.
Qed.

Lemma slice_last_repeat {A : Type} (x : A) (k n : nat) :
  (0 < k <= n)%nat -> slice_last k (repeat x n) = repeat x k.
Proof.
  intros Hk. unfold slice_last. destruct (Nat.eqb_spec k 0); [lia |].
  rewrite repeat_length.
  replace n with ((n - k) + k)%nat at 2 by lia.
  rewrite repeat_app, skipn_app, repeat_length.
  rewrite skipn_all2 by (rewrite repeat_length; lia).
  replace (n - k - (n - k))%nat with O by lia. reflexivity.
Qed.

Lemma normalized_constant (c : R) (l : list R) :
  (forall v, In v l -> v = c) ->
  map (fun v => ((Num v - Num c) / (Num c - Num c))%num) l = repeat NaN (length l).
Proof.
  induction l as [| v l IH]; intros Hl; cbn [map length repeat].
  - reflexivity.
  - rewrite IH by (intros w Hw; apply Hl; now right).
    rewrite (Hl v) by now left.
    cbn [sub]. now rewrite div_zero_zero by lra.
Qed.

Lemma normalizeData_constant_series (c : R) (xs : list R) :
  (forall v, In v xs -> v = c) ->
  normalizeData (map Num (c :: xs))
  = mkNormalized (repeat NaN (S (length xs))) (Num c) (Num c).
Proof.
  intros Hxs. unfold normalizeData.
  rewrite Math_min_Num, Math_max_Num, Rmin_list_constant, Rmax_list_constant
    by assumption.
  f_equal. rewrite map_map.
  apply (normalized_constant c (c :: xs)). intros v [<- | Hv]; auto.
Qed.

(** On a series of one repeated price the recurrent forecaster runs its
    loop over the days on predictions that are all [NaN], whatever the
    random weights. *)
Lemma predictLSTM_constant_days (random : Random) (zone : TimeZone) (today : Z) (c : R)
    (prices : list R) (days : jsint) :
  (60 <= length prices)%nat -> (forall v, In v prices -> v = c) ->
  exists k stdDev lastPrice,
    predictLSTM random zone today (map Num prices) days
    = Ok (map (lstm_day zone today (repeat NaN k) stdDev lastPrice days)
              (seq 0 (count days))).
Proof.
  intros Hn Hall. unfold predictLSTM.
  rewrite length_map.
  destruct (Nat.ltb_spec (length prices) 60) as [| _]; [lia |].
  destruct prices as [| x xs]; [simpl in Hn; lia |].
  assert (x = c) as -> by (apply Hall; now left).
  rewrite normalizeData_constant_series by (intros v Hv; apply Hall; now right).
  cbn [normalized min max].
  change (S (length xs)) with (length (c :: xs)).
  rewrite slice_last_repeat by lia.
  set (lstm := train _ _ 50).
  assert (HH : hiddenSize lstm = 50%nat).
  { unfold lstm. destruct (train_frame (fst (new_SimpleLSTM random 0 50))
                             (repeat NaN (length (c :: xs))) 50) as [_ ->].
    apply new_SimpleLSTM_ok. }
  destruct (Nat.min 60 (length (c :: xs))) as [| k] eqn:E; [lia |].
  rewrite predict_NaN by lia.
  rewrite map_repeat. change (denormalize NaN (Num c) (Num c)) with NaN.
  eexists _, _, _. reflexivity.
Qed.

(** On a series of one repeated price the recurrent forecaster returns
    predictions whose prices are all [NaN], whatever the random weights. *)
Lemma predictLSTM_constant (random : Random) (zone : TimeZone) (today : Z) (c : R)
    (prices : list R) (days : jsint) :
  (60 <= length prices)%nat -> (forall v, In v prices -> v = c) ->
  exists preds,
    predictLSTM random zone today (map Num prices) days = Ok preds
    /\ map predicted_price preds = repeat NaN (count days).
Proof.
  intros Hn Hall.
  destruct (predictLSTM_constant_days random zone today c prices days Hn Hall)
    as (k & stdDev & lastPrice & Heq).
  eexists. split; [exact Heq |].
  rewrite map_map. apply lstm_days_NaN.
Qed.

(** C6, evaluated where it fails: on 60 prices of 100 and for one day the
    recurrent forecaster returns one prediction whose price and confidence
    bounds are [NaN]. The range of the series is 0, every normalized point
    is 0/0, and [NaN] passes the clamp to 20% of the last price and the
    floor at 0 that the loop spells out, [Math.min] and [Math.max] returning
    [NaN]; the price is within no bound of 100. *)
Theorem predictLSTM_constant_series_NaN :
  exists p,
    predictLSTM (fun _ => 0) utc 0 (map Num (repeat 100 60)) (Int 1) = Ok [p]
    /\ predicted_price p = NaN
    /\ confidence_lower p = NaN
    /\ confidence_upper p = NaN
    /\ ~ within (20 / 100) 100 p.
Proof.
  destruct (predictLSTM_constant_days (fun _ => 0) utc 0 100 (repeat 100 60) (Int 1))
    as (k & stdDev & lastPrice & Heq).
  - rewrite repeat_length. lia.
  - intros v Hv. now apply repeat_spec in Hv.
  - change (count (Int 1)) with 1%nat in Heq. cbn [seq map] in Heq.
    eexists. split; [exact Heq |].
    destruct (lstm_day_NaN_bounds utc 0 k stdDev lastPrice (Int 1) 0) as [Hlow Hup].
    split; [apply lstm_day_NaN |]. split; [exact Hlow |]. split; [exact Hup |].
    intros [price [Hp _]]. rewrite lstm_day_NaN in Hp. discriminate Hp.
Qed.

(** X27: with no negative price and 1 to 90 days, every price the trend
    forecaster predicts on 10 prices or more is within 15% of the last
    price, and every price the recurrent forecaster predicts on 60 prices or
    more that are not all equal is within 20% of the last price. *)
Theorem predicted_prices_within_bounds (random : Random) (zone : TimeZone) (today : Z)
    (prices : list R)
    (days : Z) :
  Forall (fun p => 0 <= p) prices ->
  (1 <= days <= 90)%Z ->
  let lastPrice := nth (length prices - 1) prices 0 in
  ((10 <= length prices)%nat ->
   exists preds,
     predictLinearRegression zone today (map Num prices) (Int days) = Ok preds
     /\ Forall (within (15 / 100) lastPrice) preds)
  /\ ((60 <= length prices)%nat -> non_constant prices ->
      exists preds,
        predictLSTM random zone today (map Num prices) (Int days) = Ok preds
        /\ Forall (within (20 / 100) lastPrice) preds).
Proof.
  intros Hpos Hd lastPrice.
  pose proof (last_price_nonneg prices Hpos) as HL. fold lastPrice in HL.
  split.
  - intros Hn.
    destruct (predictLinearRegression_fit zone today prices (Int days) Hn)
      as (slope & intercept & stdDev & Hs & Heq).
    eexists. split; [exact Heq |].
    apply Forall_map, Forall_forall. intros i _.
    apply lr_day_ok; [assumption | assumption | lia].
  - intros Hn Hnc.
    destruct (predictLSTM_fit random zone today prices (Int days) Hn Hnc)
      as (actual & stdDev & Hs & Hlen & Hfin & Heq).
    eexists. split; [exact Heq |].
    apply Forall_map, Forall_forall. intros i Hi. apply in_seq in Hi.
    apply lstm_day_ok; [| assumption | assumption | lia].
    apply finite_get; [assumption | lia].
Qed.

Lemma predicted_prices_within_bounds_witness :
  let prices := 1 :: repeat 2 59 in
  let lastPrice := nth (length prices - 1) prices 0 in
  ((10 <= length prices)%nat ->
   exists preds,
     predictLinearRegression utc 0 (map Num prices) (Int 1) = Ok preds
     /\ Forall (within (15 / 100) lastPrice) preds)
  /\ ((60 <= length prices)%nat -> non_constant prices ->
      exists preds,
        predictLSTM (fun _ => 0) utc 0 (map Num prices) (Int 1) = Ok preds
        /\ Forall (within (20 / 100) lastPrice) preds).
Proof.
  apply (predicted_prices_within_bounds (fun _ => 0) utc 0 (1 :: repeat 2 59) 1).
  - constructor; [lra |]. apply Forall_forall. intros p Hp.
    apply repeat_spec in Hp. lra.
  - lia.
Defined.

(** ** Request handler *)

Lemma predictLinearRegression_returns (zone : TimeZone) (today : Z) (historicalPrices : list num)
    (days : jsint) :
  (10 <= length historicalPrices)%nat ->
  exists preds,
    predictLinearRegression zone today historicalPrices days = Ok preds
    /\ length preds = count days.
Proof.
  intros Hn. unfold predictLinearRegression.
  destruct (Nat.ltb_spec (length historicalPrices) 10) as [| _]; [lia |].
  eexists. split; [reflexivity |]. now rewrite length_map, length_seq.
Qed.

Lemma predictLSTM_returns (random : Random) (zone : TimeZone) (today : Z)
    (historicalPrices : list num)
    (days : jsint) :
  (60 <= length historicalPrices)%nat ->
  exists preds,
    predictLSTM random zone today historicalPrices days = Ok preds
    /\ length preds = count days.
Proof.
  intros Hn. unfold predictLSTM.
  destruct (Nat.ltb_spec (length historicalPrices) 60) as [| _]; [lia |].
  eexists. split; [reflexivity |]. now rewrite length_map, length_seq.
Qed.

Lemma days_in_range (days : Z) :
  (1 <= days <= 90)%Z -> int_ltb (Int days) 1 || int_gtb (Int days) 90 = false.
Proof.
  intros Hd. cbn [int_ltb int_gtb].
  destruct (Z.ltb_spec days 1), (Z.ltb_spec 90 days); try lia; reflexivity.
Qed.

(** A request that passes every check reaches the forecast. *)
Lemma serve_reaches_forecast
    (recurrent : list num -> jsint -> result (list Prediction))
    (zone : TimeZone) (today now : Z)
    (stock_data : string -> Selected) (req : Request) (raw ticker : string)
    (rows : list Row) :
  method req <> "OPTIONS"%string ->
  ticker_param req = Some raw -> toUpperCase raw = ticker -> ticker <> ""%string ->
  int_ltb (days_of req) 1 || int_gtb (days_of req) 90 = false ->
  stock_data ticker = mkSelected (Some rows) None ->
  (10 <= length rows)%nat ->
  serve recurrent zone today now stock_data req
  = (fst (forecast recurrent zone today now ticker (days_of req) (map close rows)),
     Select ticker
     :: snd (forecast recurrent zone today now ticker (days_of req) (map close rows))).
Proof.
  intros Hm Hraw Hup Hne Hdays Hdb Hn. unfold serve.
  apply String.eqb_neq in Hm. rewrite Hm, Hraw. cbn [option_map]. rewrite Hup.
  destruct ticker as [| ch rest]; [contradiction |].
  rewrite Hdays, Hdb. cbn [error data].
  destruct (Nat.ltb_spec (length rows) 10) as [| _]; [lia |].
  now destruct (forecast _ _ _ _ _).
Qed.

(** C2: for a request that passes the checks, with 1 to 90 days and at least
    10 rows, the trend forecaster returns and the answer is a success that
    carries its predictions first.  With fewer than 60 rows, or when the
    recurrent forecaster throws, the trend model is the only one listed and
    the error note is set; when the recurrent forecaster returns predictions
    it is listed second and the note is null, which is what the deployed
    handler answers on 60 rows or more. *)
Theorem partial_failure_isolation
    (recurrent : list num -> jsint -> result (list Prediction)) (random : Random)
    (zone : TimeZone) (today lstmToday now : Z) (stock_data : string -> Selected)
    (req : Request)     (raw ticker : string) (days : Z) (rows : list Row) :
  method req <> "OPTIONS"%string ->
  ticker_param req = Some raw -> toUpperCase raw = ticker -> ticker <> ""%string ->
  days_of req = Int days -> (1 <= days <= 90)%Z ->
  stock_data ticker = mkSelected (Some rows) None ->
  (10 <= length rows)%nat ->
  let closingPrices := map close rows in
  let answer models note :=
    mkResponse 200 (ForecastBody ticker (Int days) models note disclaimer_text) in
  exists lrPredictions,
    predictLinearRegression zone today closingPrices (Int days) = Ok lrPredictions
    /\ ((length rows < 60)%nat ->
        fst (serve recurrent zone today now stock_data req)
        = answer [mkModel "linear_regression" lrPredictions]
                 (Some "Insufficient data for LSTM (requires 60+ days)"%string))
    /\ (forall message,
          (60 <= length rows)%nat ->
          recurrent closingPrices (Int days) = Throw message ->
          fst (serve recurrent zone today now stock_data req)
          = answer [mkModel "linear_regression" lrPredictions] (Some message))
    /\ (forall lstmPredictions,
          (60 <= length rows)%nat ->
          recurrent closingPrices (Int days) = Ok lstmPredictions ->
          lstmPredictions <> [] ->
          fst (serve recurrent zone today now stock_data req)
          = answer [mkModel "linear_regression" lrPredictions;
                    mkModel "lstm" lstmPredictions] None)
    /\ ((60 <= length rows)%nat ->
        exists lstmPredictions,
          predictLSTM random zone lstmToday closingPrices (Int days) = Ok lstmPredictions
          /\ fst (Deno_serve random zone today lstmToday now stock_data req)
             = answer [mkModel "linear_regression" lrPredictions;
                       mkModel "lstm" lstmPredictions] None).
Proof.
  intros Hm Hraw Hup Hne Hdays Hd Hdb Hn closingPrices answer.
  assert (Hserve : forall rec,
            fst (serve rec zone today now stock_data req)
            = fst (forecast rec zone today now ticker (Int days) closingPrices)).
  { intros rec.
    rewrite (serve_reaches_forecast rec zone today now stock_data req raw ticker rows);
      try assumption.
    - now rewrite Hdays.
    - rewrite Hdays. now apply days_in_range. }
  destruct (predictLinearRegression_returns zone today closingPrices (Int days))
    as (lr & Hlr & Hlen); [unfold closingPrices; rewrite length_map; lia |].
  assert (Hcp : length closingPrices = length rows) by apply length_map.
  assert (Hgood : forall rec lstmPredictions,
            (60 <= length rows)%nat ->
            rec closingPrices (Int days) = Ok lstmPredictions ->
            lstmPredictions <> [] ->
            fst (serve rec zone today now stock_data req)
            = answer [mkModel "linear_regression" lr; mkModel "lstm" lstmPredictions]
                     None).
  { intros rec preds H60 Hrec Hpreds. rewrite Hserve. unfold forecast.
    rewrite Hlr, Hcp.
    destruct (Nat.leb_spec 60 (length rows)) as [_ |]; [| lia].
    rewrite Hrec.
    destruct preds as [| p preds]; [contradiction |]. reflexivity. }
  exists lr. split; [exact Hlr |]. split; [| split; [| split]].
  - intros Hlt. rewrite Hserve. unfold forecast. rewrite Hlr, Hcp.
    destruct (Nat.leb_spec 60 (length rows)) as [| _]; [lia |]. reflexivity.
  - intros message H60 Hthrow. rewrite Hserve. unfold forecast. rewrite Hlr, Hcp.
    destruct (Nat.leb_spec 60 (length rows)) as [_ |]; [| lia].
    rewrite Hthrow. reflexivity.
  - exact (Hgood recurrent).
  - intros H60.
    destruct (predictLSTM_returns random zone lstmToday closingPrices (Int days))
      as (preds & Hpreds & Hplen); [lia |].
    exists preds. split; [exact Hpreds |].
    apply (Hgood (predictLSTM random zone lstmToday)); [exact H60 | exact Hpreds |].
    intros E. rewrite E in Hplen. cbn [length count] in Hplen. lia.
Qed.

Lemma partial_failure_isolation_witness :
  let recurrent := predictLSTM (fun _ => 0) utc 0 in
  let rows := repeat (mkRow (Num 100) "2024-01-02") 10 in
  let stock_data := fun _ : string => mkSelected (Some rows) None in
  let req := mkRequest "GET" (Some "aapl"%string) (Some "5"%string) in
  let closingPrices := map close rows in
  let answer models note :=
    mkResponse 200 (ForecastBody "AAPL" (Int 5) models note disclaimer_text) in
  exists lrPredictions,
    predictLinearRegression utc 0 closingPrices (Int 5) = Ok lrPredictions
    /\ ((length rows < 60)%nat ->
        fst (serve recurrent utc 0 0 stock_data req)
        = answer [mkModel "linear_regression" lrPredictions]
                 (Some "Insufficient data for LSTM (requires 60+ days)"%string))
    /\ (forall message,
          (60 <= length rows)%nat ->
          recurrent closingPrices (Int 5) = Throw message ->
          fst (serve recurrent utc 0 0 stock_data req)
          = answer [mkModel "linear_regression" lrPredictions] (Some message))
    /\ (forall lstmPredictions,
          (60 <= length rows)%nat ->
          recurrent closingPrices (Int 5) = Ok lstmPredictions ->
          lstmPredictions <> [] ->
          fst (serve recurrent utc 0 0 stock_data req)
          = answer [mkModel "linear_regression" lrPredictions;
                    mkModel "lstm" lstmPredictions] None)
    /\ ((60 <= length rows)%nat ->
        exists lstmPredictions,
          predictLSTM (fun _ => 0) utc 0 closingPrices (Int 5) = Ok lstmPredictions
          /\ fst (Deno_serve (fun _ => 0) utc 0 0 0 stock_data req)
             = answer [mkModel "linear_regression" lrPredictions;
                       mkModel "lstm" lstmPredictions] None).
Proof.
  intros recurrent rows stock_data req.
  apply (partial_failure_isolation recurrent (fun _ => 0) utc 0 0 0 stock_data req
           "aapl" "AAPL" 5 rows).
  - discriminate.
  - reflexivity.
  - reflexivity.
  - discriminate.
  - reflexivity.
  - lia.
  - reflexivity.
  - unfold rows. rewrite repeat_length. lia.
Defined.

(** C4, where the code departs from it: for [days=abc] [parseInt] gives
    [NaN], both comparisons of the range check are false, and the request,
    with a ticker and 10 rows on file, is answered with status 200 after the
    trend forecaster has been invoked, with no prediction in the answer. *)
Theorem non_numeric_days_pass_the_check :
  let rows := repeat (mkRow (Num 100) "2024-01-02") 10 in
  let stock_data := fun _ : string => mkSelected (Some rows) None in
  let req := mkRequest "GET" (Some "AAPL"%string) (Some "abc"%string) in
  days_of req = IntNaN
  /\ Deno_serve (fun _ => 0) utc 0 0 0 stock_data req
     = (mkResponse 200
          (ForecastBody "AAPL" IntNaN [mkModel "linear_regression" []]
             (Some "Insufficient data for LSTM (requires 60+ days)"%string)
             disclaimer_text),
        [Select "AAPL"; Invoke "linear_regression" (map close rows) IntNaN]).
Proof.
  split; reflexivity.
Qed.

(** Days that are an integer outside 1..90 are refused before the table is
    read or a forecaster invoked. *)
Lemma serve_days_out_of_range
    (recurrent : list num -> jsint -> result (list Prediction))
    (zone : TimeZone) (today now : Z)
    (stock_data : string -> Selected) (req : Request) (raw : string) (days : Z) :
  method req <> "OPTIONS"%string ->
  ticker_param req = Some raw -> raw <> ""%string ->
  days_of req = Int days -> (days < 1 \/ 90 < days)%Z ->
  serve recurrent zone today now stock_data req
  = (bad_request "Days must be between 1 and 90", []).
Proof.
  intros Hm Hraw Hne Hdays Hd. unfold serve.
  apply String.eqb_neq in Hm. rewrite Hm, Hraw. cbn [option_map].
  destruct raw as [| ch rest]; [contradiction |]. cbn [toUpperCase].
  rewrite Hdays. cbn [int_ltb int_gtb].
  destruct (Z.ltb_spec days 1), (Z.ltb_spec 90 days); try lia; reflexivity.
Qed.

Lemma days_of_absent (req : Request) : days_param req = None -> days_of req = Int 30.
Proof.
  intros H. unfold days_of. rewrite H. reflexivity.
Qed.

(** C10: when the request has no [days] parameter the handler works with 30
    days: it never answers that the days are out of range, and a request that
    passes the other checks is answered with a success for 30 days, the
    trend forecaster having been invoked for 30 days and its 30 predictions
    being the first model of the answer. *)
Theorem absent_days_default_to_30
    (recurrent : list num -> jsint -> result (list Prediction))
    (zone : TimeZone) (today now : Z)
    (stock_data : string -> Selected) (req : Request) :
  days_param req = None ->
  days_of req = Int 30
  /\ fst (serve recurrent zone today now stock_data req)
     <> bad_request "Days must be between 1 and 90"
  /\ forall raw rows,
       method req <> "OPTIONS"%string ->
       ticker_param req = Some raw -> raw <> ""%string ->
       stock_data (toUpperCase raw) = mkSelected (Some rows) None ->
       (10 <= length rows)%nat ->
       exists lrPredictions others note,
         predictLinearRegression zone today (map close rows) (Int 30) = Ok lrPredictions
         /\ length lrPredictions = 30%nat
         /\ fst (serve recurrent zone today now stock_data req)
            = mkResponse 200
                (ForecastBody (toUpperCase raw) (Int 30)
                   (mkModel "linear_regression" lrPredictions :: others) note
                   disclaimer_text)
         /\ In (Invoke "linear_regression" (map close rows) (Int 30))
               (snd (serve recurrent zone today now stock_data req)).
Proof.
  intros Habsent. pose proof (days_of_absent req Habsent) as Hdays.
  split; [exact Hdays |]. split.
  - unfold serve. rewrite Hdays.
    destruct (method req =? "OPTIONS")%string; [discriminate |].
    destruct (option_map toUpperCase (ticker_param req)) as [[| ch ticker] |];
      try discriminate.
    cbn [int_ltb int_gtb Z.ltb Z.compare Pos.compare Pos.compare_cont orb].
    destruct (error (stock_data _)); [discriminate |].
    destruct (data (stock_data _)) as [rows |]; [| discriminate].
    destruct (length rows <? 10)%nat; [discriminate |].
    unfold forecast.
    destruct (predictLinearRegression _ _ _); [| discriminate].
    destruct (if (60 <=? _)%nat then _ else _) as [[preds note] events].
    discriminate.
  - intros raw rows Hm Hraw Hne Hdb Hn.
    assert (Hup : toUpperCase raw <> ""%string)
      by (destruct raw; [contradiction | discriminate]).
    rewrite (serve_reaches_forecast recurrent zone today now stock_data req raw
               (toUpperCase raw) rows); try assumption; try reflexivity.
    2: { rewrite Hdays. reflexivity. }
    rewrite Hdays. cbn [fst snd].
    destruct (predictLinearRegression_returns zone today (map close rows) (Int 30))
      as (lr & Hlr & Hlen); [rewrite length_map; lia |].
    unfold forecast. rewrite Hlr.
    destruct (if (60 <=? _)%nat then _ else _) as [[preds note] events].
    cbn [fst snd].
    exists lr. eexists. exists note.
    split; [reflexivity |]. split; [exact Hlen |]. split; [reflexivity |].
    right. now left.
Qed.

Lemma absent_days_default_to_30_witness :
  let recurrent := predictLSTM (fun _ => 0) utc 0 in
  let rows := repeat (mkRow (Num 100) "2024-01-02") 10 in
  let stock_data := fun _ : string => mkSelected (Some rows) None in
  let req := mkRequest "GET" (Some "aapl"%string) None in
  days_of req = Int 30
  /\ fst (serve recurrent utc 0 0 stock_data req)
     <> bad_request "Days must be between 1 and 90"
  /\ forall raw rows,
       method req <> "OPTIONS"%string ->
       ticker_param req = Some raw -> raw <> ""%string ->
       stock_data (toUpperCase raw) = mkSelected (Some rows) None ->
       (10 <= length rows)%nat ->
       exists lrPredictions others note,
         predictLinearRegression utc 0 (map close rows) (Int 30) = Ok lrPredictions
         /\ length lrPredictions = 30%nat
         /\ fst (serve recurrent utc 0 0 stock_data req)
            = mkResponse 200
                (ForecastBody (toUpperCase raw) (Int 30)
                   (mkModel "linear_regression" lrPredictions :: others) note
                   disclaimer_text)
         /\ In (Invoke "linear_regression" (map close rows) (Int 30))
               (snd (serve recurrent utc 0 0 stock_data req)).
Proof.
  intros recurrent rows stock_data req.
  apply (absent_days_default_to_30 recurrent utc 0 0 stock_data req). reflexivity.
Defined.

(** * Further properties *)

(** ** Normalizer *)

Lemma Rmin_list_In (x : R) (xs : list R) : In (Rmin_list x xs) (x :: xs).
Proof.
  revert x. induction xs as [| y ys IH]; intros x.
  - now left.
  - cbn [Rmin_list]. unfold Rmin. destruct (Rle_dec x (Rmin_list y ys)).
    + now left.
    + right. apply IH.
Qed.

Lemma Rmax_list_In (x : R) (xs : list R) : In (Rmax_list x xs) (x :: xs).
Proof.
  revert x. induction xs as [| y ys IH]; intros x.
  - now left.
  - cbn [Rmax_list]. unfold Rmax. destruct (Rle_dec x (Rmax_list y ys)).
    + right. apply IH.
    + now left.
Qed.

(** X1: on a series with two different prices every normalized point is a
    number between 0 and 1; a price that no price of the series is below is
    sent to 0 and a price that none is above is sent to 1, and both occur;
    and of two prices the larger never gets the smaller point. *)
Theorem normalizeData_unit_interval (prices : list R) :
  non_constant prices ->
  let nd := normalizeData (map Num prices) in
  let price i := nth i prices 0 in
  length (normalized nd) = length prices
  /\ (forall i, (i < length prices)%nat ->
        exists v, get (normalized nd) i = Num v /\ 0 <= v <= 1)
  /\ (forall i, (i < length prices)%nat ->
        (forall p, In p prices -> price i <= p) -> get (normalized nd) i = Num 0)
  /\ (forall i, (i < length prices)%nat ->
        (forall p, In p prices -> p <= price i) -> get (normalized nd) i = Num 1)
  /\ In (Num 0) (normalized nd)
  /\ In (Num 1) (normalized nd)
  /\ (forall i j v w, (i < length prices)%nat -> (j < length prices)%nat ->
        get (normalized nd) i = Num v -> get (normalized nd) j = Num w ->
        price i <= price j -> v <= w).
Proof.
  intros Hnc nd price. subst nd price.
  destruct prices as [| x xs]; [destruct Hnc as (a & _ & [] & _) |].
  pose proof (non_constant_range x xs Hnc) as Hrange.
  rewrite (normalizeData_finite x xs Hnc). cbn [normalized].
  pose proof (Rmin_list_In x xs) as Hmin. pose proof (Rmax_list_In x xs) as Hmax.
  pose proof (Rmin_list_le x xs) as Hle. pose proof (Rmax_list_ge x xs) as Hge.
  set (m := Rmin_list x xs) in *. set (M := Rmax_list x xs) in *.
  set (f := fun v : R => Num ((v - m) / (M - m))).
  assert (Hget : forall i, (i < length (x :: xs))%nat ->
            get (map f (x :: xs)) i = f (nth i (x :: xs) 0)).
  { intros i Hi. unfold get.
    rewrite (nth_indep _ NaN (f 0)) by now rewrite length_map.
    apply map_nth. }
  assert (Hinv : 0 < / (M - m)) by (apply Rinv_0_lt_compat; lra).
  split; [apply length_map |]. split; [| split; [| split; [| split; [| split]]]].
  - intros i Hi. rewrite Hget by exact Hi. unfold f. eexists. split; [reflexivity |].
    assert (Hin : In (nth i (x :: xs) 0) (x :: xs)) by now apply nth_In.
    pose proof (Hle _ Hin). pose proof (Hge _ Hin).
    set (v := nth i (x :: xs) 0) in *. clearbody v m M.
    split.
    + apply Rmult_le_pos; lra.
    + replace 1 with ((M - m) / (M - m)) by (field; lra).
      apply Rmult_le_compat_r; lra.
  - intros i Hi Hlow. rewrite Hget by exact Hi. unfold f. f_equal.
    assert (Hin : In (nth i (x :: xs) 0) (x :: xs)) by now apply nth_In.
    pose proof (Hle _ Hin). pose proof (Hlow m Hmin).
    replace (nth i (x :: xs) 0) with m by lra. unfold Rdiv. ring.
  - intros i Hi Hhigh. rewrite Hget by exact Hi. unfold f. f_equal.
    assert (Hin : In (nth i (x :: xs) 0) (x :: xs)) by now apply nth_In.
    pose proof (Hge _ Hin). pose proof (Hhigh M Hmax).
    replace (nth i (x :: xs) 0) with M by lra. field. lra.
  - apply in_map_iff. exists m. split; [| exact Hmin].
    unfold f. f_equal. unfold Rdiv. ring.
  - apply in_map_iff. exists M. split; [| exact Hmax].
    unfold f. f_equal. field. lra.
  - intros i j v w Hi Hj Hv Hw Hij.
    rewrite Hget in Hv by exact Hi. rewrite Hget in Hw by exact Hj.
    cbn beta in Hij.
    set (a := nth i (x :: xs) 0) in *. set (b := nth j (x :: xs) 0) in *.
    clearbody a b m M.
    unfold f in Hv, Hw. injection Hv as <-. injection Hw as <-.
    apply Rmult_le_compat_r; lra.
Qed.

Lemma normalizeData_unit_interval_witness :
  let nd := normalizeData (map Num [1; 3]) in
  let price i := nth i [1; 3] 0 in
  length (normalized nd) = length [1; 3]
  /\ (forall i, (i < length [1; 3])%nat ->
        exists v, get (normalized nd) i = Num v /\ 0 <= v <= 1)
  /\ (forall i, (i < length [1; 3])%nat ->
        (forall p, In p [1; 3] -> price i <= p) -> get (normalized nd) i = Num 0)
  /\ (forall i, (i < length [1; 3])%nat ->
        (forall p, In p [1; 3] -> p <= price i) -> get (normalized nd) i = Num 1)
  /\ In (Num 0) (normalized nd)
  /\ In (Num 1) (normalized nd)
  /\ (forall i j v w, (i < length [1; 3])%nat -> (j < length [1; 3])%nat ->
        get (normalized nd) i = Num v -> get (normalized nd) j = Num w ->
        price i <= price j -> v <= w).
Proof.
  apply (normalizeData_unit_interval [1; 3]).
  exists 1, 3. repeat split; [now left | right; now left | lra].
Defined.

Lemma Math_min2_NaN_l (a : num) : Math_min2 NaN a = NaN.
Proof. reflexivity. Qed.

Lemma Math_min_NaN (data : list num) : In NaN data -> Math_min data = NaN.
Proof.
  induction data as [| a data IH]; intros Hin; [contradiction |].
  cbn [Math_min fold_right]. destruct Hin as [-> | Hin].
  - reflexivity.
  - fold (Math_min data). rewrite IH by assumption. apply Math_min2_NaN_r.
Qed.

Lemma Math_max_NaN (data : list num) : In NaN data -> Math_max data = NaN.
Proof.
  induction data as [| a data IH]; intros Hin; [contradiction |].
  cbn [Math_max fold_right]. destruct Hin as [-> | Hin].
  - reflexivity.
  - fold (Math_max data). rewrite IH by assumption. apply Math_max2_NaN_r.
Qed.

Lemma sub_NaN_r (a : num) : (a - NaN)%num = NaN.
Proof. now destruct a. Qed.

(** X2: one [NaN] among the data (a close that [parseFloat] could not read)
    makes [min], [max] and every normalized point [NaN]. *)
Theorem normalizeData_NaN (data : list num) :
  In NaN data ->
  normalizeData data = mkNormalized (repeat NaN (length data)) NaN NaN.
Proof.
  intros Hin. unfold normalizeData.
  rewrite Math_min_NaN, Math_max_NaN by assumption. f_equal.
  clear Hin. induction data as [| a data IH]; cbn [map length repeat].
  - reflexivity.
  - now rewrite IH, sub_NaN_r.
Qed.

Lemma normalizeData_NaN_witness :
  normalizeData [Num 1; NaN; Num 3]
  = mkNormalized (repeat NaN (length [Num 1; NaN; Num 3])) NaN NaN.
Proof.
  apply (normalizeData_NaN [Num 1; NaN; Num 3]). right. now left.
Defined.

(** ** Trend forecaster on a line *)

Lemma line_S (a b : R) (k : nat) : line a b (S k) = line a b k ++ [a + b * INR k].
Proof.
  unfold line. rewrite seq_S, map_app. reflexivity.
Qed.

Lemma length_line (a b : R) (n : nat) : length (line a b n) = n.
Proof.
  unfold line. now rewrite length_map, length_seq.
Qed.

Lemma nth_line (a b : R) (n k : nat) :
  (k < n)%nat -> nth k (line a b n) 0 = a + b * INR k.
Proof.
  intros Hk. unfold line. set (f := fun k => a + b * INR k).
  transitivity (nth k (map f (seq 0 n)) (f O)).
  - apply nth_indep. now rewrite length_map, length_seq.
  - rewrite (map_nth f), seq_nth by assumption. reflexivity.
Qed.

Lemma line_shift (a b : R) (m w s : nat) :
  map (fun k => a + b * INR k) (seq (m + s) w)
  = map (fun k => a + b * INR m + b * INR k) (seq s w).
Proof.
  revert s. induction w as [| w IH]; intros s; cbn [seq map].
  - reflexivity.
  - f_equal.
    + rewrite plus_INR. ring.
    + rewrite <- IH. now rewrite Nat.add_succ_r.
Qed.

(** The last [w] prices of a line are a line, from the price [n - w] on. *)
Lemma slice_last_line (a b : R) (w n : nat) :
  (0 < w <= n)%nat -> slice_last w (line a b n) = line (a + b * INR (n - w)) b w.
Proof.
  intros Hw. unfold slice_last, line.
  destruct (Nat.eqb_spec w 0); [lia |].
  rewrite length_map, length_seq, skipn_map, skipn_seq.
  replace (n - (n - w))%nat with w by lia. cbn [Nat.add].
  rewrite <- (Nat.add_0_r (n - w)) at 1. apply line_shift.
Qed.

Lemma sumY_line (a b : R) (w k : nat) (s : Sums) :
  sumY s = Num 0 -> (k <= w)%nat ->
  sumY (fold_left (sums_step (map Num (line a b w))) (seq 0 k) s)
  = Num (INR k * a + b * index_sum k).
Proof.
  intros Hs. induction k as [| k IH]; intros Hk.
  - cbn [seq fold_left index_sum index_square_sum INR]. rewrite Hs. f_equal. ring.
  - rewrite fold_left_seq_S. cbn [sums_step sumY].
    rewrite IH by lia. rewrite get_map_Num by (rewrite length_line; lia).
    rewrite nth_line by lia. cbn [add index_sum]. f_equal. rewrite S_INR. ring.
Qed.

Lemma sumXY_line (a b : R) (w k : nat) (s : Sums) :
  sumXY s = Num 0 -> (k <= w)%nat ->
  sumXY (fold_left (sums_step (map Num (line a b w))) (seq 0 k) s)
  = Num (a * index_sum k + b * index_square_sum k).
Proof.
  intros Hs. induction k as [| k IH]; intros Hk.
  - cbn [seq fold_left index_sum index_square_sum INR]. rewrite Hs. f_equal. ring.
  - rewrite fold_left_seq_S. cbn [sums_step sumXY].
    rewrite IH by lia. rewrite get_map_Num by (rewrite length_line; lia).
    rewrite nth_line by lia. unfold of_nat.
    cbn [add mul index_sum index_square_sum]. f_equal. ring.
Qed.

(** The sum of the squared deviations of the first [k] prices of a line. *)
Lemma deviations_line (a b mean : R) (k : nat) :
  fold_left (fun acc price => (acc + Math_pow2 (price - Num mean))%num)
            (map Num (line a b k)) (Num 0)
  = Num (INR k * ((a - mean) * (a - mean))
         + 2 * b * (a - mean) * index_sum k
         + b * b * index_square_sum k).
Proof.
  induction k as [| k IH].
  - cbn [line seq map fold_left index_sum index_square_sum INR]. f_equal. ring.
  - rewrite line_S, map_app, fold_left_app, IH.
    cbn [map fold_left sub Math_pow2 mul add index_sum index_square_sum].
    f_equal. rewrite S_INR. ring.
Qed.

(** The fit of a window that is a line: slope [b], intercept the first
    price, and the deviation of [w] equally spaced prices. *)
Lemma predictLinearRegression_line (zone : TimeZone) (today : Z) (a b : R) (n : nat)
    (days : jsint) :
  (10 <= n)%nat ->
  let w := windowSize n in
  predictLinearRegression zone today (map Num (line a b n)) days
  = Ok (map (lr_day zone today w (Num b) (Num (a + b * INR (n - w)))
                    (Num (sqrt (b * b * ((INR w * INR w - 1) / 12))))
                    (Num (a + b * INR (n - 1))) days)
            (seq 1 (count days))).
Proof.
  intros Hn w. unfold predictLinearRegression.
  rewrite length_map, length_line.
  destruct (Nat.ltb_spec n 10) as [| _]; [lia |].
  pose proof (windowSize_bounds n Hn) as Hw. fold w in Hw. fold w.
  rewrite slice_last_map, slice_last_line by lia.
  set (a' := a + b * INR (n - w)).
  rewrite denominator_Num, !length_map, !length_line.
  assert (Hden : 0 < INR w * index_square_sum w - index_sum w * index_sum w)
    by (apply ols_denominator_pos; lia).
  assert (HW : 3 <= INR w)
    by (replace 3 with (INR 3) by (simpl; lra); apply le_INR; lia).
  pose proof (index_sum_closed w) as HS1.
  pose proof (index_square_sum_closed w) as HS2.
  unfold sums. rewrite length_map, length_line.
  rewrite sumX_partial, sumY_line, sumXY_line by (reflexivity || lia).
  unfold of_nat. cbn [mul sub].
  set (S1 := index_sum w) in *. set (S2 := index_square_sum w) in *.
  rewrite div_Num by lra.
  replace ((INR w * (a' * S1 + b * S2) - S1 * (INR w * a' + b * S1))
           / (INR w * S2 - S1 * S1)) with b
    by (field; lra).
  cbn [mul sub]. rewrite !div_Num by lra.
  replace ((INR w * a' + b * S1 - b * S1) / INR w) with a' by (field; lra).
  unfold variance_of. rewrite deviations_line, length_map, length_line.
  fold S1 S2. unfold of_nat. rewrite div_Num by lra.
  set (mean := (INR w * a' + b * S1) / INR w).
  replace ((INR w * ((a' - mean) * (a' - mean)) + 2 * b * (a' - mean) * S1
            + b * b * S2) / INR w)
    with (b * b * ((INR w * INR w - 1) / 12)).
  2: { unfold mean.
       replace S1 with (INR w * (INR w - 1) / 2) by lra.
       replace S2 with ((INR w - 1) * INR w * (2 * INR w - 1) / 6) by lra.
       field. lra. }
  rewrite Math_sqrt_Num.
  2: { apply Rmult_le_pos; [apply Rle_0_sqr | nra]. }
  rewrite get_map_Num by (rewrite length_line; lia).
  rewrite nth_line by lia. reflexivity.
Qed.

(** X3: on the line [a, a + b, ...] of at least 10 prices the least-squares
    fit is exact, and the price predicted for day [i] is the value of the line
    [i + 1] steps after the last price, whenever that is within 15% of the
    last price: the forecaster evaluates the fit at index [window + i], the
    last price being at index [window - 1]. *)
Theorem predictLinearRegression_on_line (zone : TimeZone) (today : Z) (a b : R) (n : nat)
    (days : Z) :
  (10 <= n)%nat ->
  (1 <= days)%Z ->
  let lastPrice := a + b * INR (n - 1) in
  exists preds,
    predictLinearRegression zone today (map Num (line a b n)) (Int days) = Ok preds
    /\ forall i, (1 <= i <= Z.to_nat days)%nat ->
         Rabs (b * (INR i + 1)) <= 15 / 100 * lastPrice ->
         option_map predicted_price (nth_error preds (i - 1))
         = Some (Num (lastPrice + b * (INR i + 1))).
Proof.
  intros Hn Hd lastPrice.
  eexists. split; [apply predictLinearRegression_line; exact Hn |].
  intros i Hi Hb.
  pose proof (windowSize_bounds n Hn) as Hw. set (w := windowSize n) in *.
  rewrite nth_error_map. cbn [count].
  rewrite nth_error_nth' with (d := O) by (rewrite length_seq; lia).
  rewrite seq_nth by lia. cbn [option_map]. f_equal.
  replace (1 + (i - 1))%nat with i by lia.
  unfold lr_day, of_nat. cbn [predicted_price mul add]. rewrite clamp_Num. fold lastPrice.
  cbn [Math_max2]. f_equal.
  assert (Hraw : b * INR (w + i) + (a + b * INR (n - w))
                 = lastPrice + b * (INR i + 1)).
  { unfold lastPrice. rewrite plus_INR, !minus_INR by lia. simpl INR. ring. }
  rewrite Hraw. set (p := lastPrice + b * (INR i + 1)).
  assert (HL : 0 <= lastPrice) by (pose proof (Rabs_pos (b * (INR i + 1))); lra).
  assert (Hp : lastPrice - lastPrice * (15 / 100) <= p <= lastPrice + lastPrice * (15 / 100)).
  { unfold p. unfold Rabs in Hb. destruct (Rcase_abs (b * (INR i + 1))); lra. }
  rewrite (Rmin_right _ p) by lra.
  rewrite (Rmax_right _ p) by lra.
  apply Rmax_right. lra.
Qed.

Lemma predictLinearRegression_on_line_witness :
  let lastPrice := 100 + 1 * INR (12 - 1) in
  exists preds,
    predictLinearRegression utc 0 (map Num (line 100 1 12)) (Int 3) = Ok preds
    /\ forall i, (1 <= i <= Z.to_nat 3)%nat ->
         Rabs (1 * (INR i + 1)) <= 15 / 100 * lastPrice ->
         option_map predicted_price (nth_error preds (i - 1))
         = Some (Num (lastPrice + 1 * (INR i + 1))).
Proof.
  apply (predictLinearRegression_on_line utc 0 100 1 12 3); lia.
Defined.

Lemma line_constant (c : R) (n : nat) : map Num (line c 0 n) = repeat (Num c) n.
Proof.
  unfold line. generalize 0%nat as s.
  induction n as [| n IH]; intros s; cbn [seq map repeat].
  - reflexivity.
  - rewrite IH. do 2 f_equal. ring.
Qed.

(** X4: on at least 10 equal prices [c], none negative, the trend forecaster
    returns one prediction for every day, each with the price [c] and both
    confidence bounds at [c]: the slope and the deviation are 0 and the
    division of the fit is by a number other than 0. *)
Theorem predictLinearRegression_constant (zone : TimeZone) (today : Z) (c : R) (n : nat)
    (days : Z) :
  (10 <= n)%nat ->
  0 <= c ->
  (1 <= days)%Z ->
  exists preds,
    predictLinearRegression zone today (repeat (Num c) n) (Int days) = Ok preds
    /\ length preds = Z.to_nat days
    /\ Forall (fun p => predicted_price p = Num c
                       /\ confidence_lower p = Num c
                       /\ confidence_upper p = Num c) preds.
Proof.
  intros Hn Hc Hd.
  rewrite <- line_constant, predictLinearRegression_line by exact Hn.
  cbn [count]. eexists. split; [reflexivity |]. split.
  - now rewrite length_map, length_seq.
  - apply Forall_map, Forall_forall. intros i _.
    unfold lr_day, of_nat.
    cbn [predicted_price confidence_lower confidence_upper mul add].
    rewrite confidenceRange_Num, clamp_Num by exact Hd.
    replace (0 * 0 * ((INR (windowSize n) * INR (windowSize n) - 1) / 12)) with 0
      by (unfold Rdiv; ring).
    rewrite sqrt_0. cbn [mul add sub Math_max2].
    replace (0 * INR (windowSize n + i) + (c + 0 * INR (n - windowSize n))) with c by ring.
    replace (c + 0 * INR (n - 1)) with c by ring.
    replace (0 * (1 + INR i / IZR days * (5 / 10)) * (196 / 100)) with 0 by ring.
    rewrite (Rmin_right _ c) by lra.
    rewrite (Rmax_right _ c) by lra.
    rewrite (Rmax_right 0 c) by lra.
    replace (c - 0) with c by ring. replace (c + 0) with c by ring.
    rewrite (Rmax_right 0 c) by lra. repeat split.
Qed.

Lemma predictLinearRegression_constant_witness :
  exists preds,
    predictLinearRegression utc 0 (repeat (Num 100) 20) (Int 5) = Ok preds
    /\ length preds = Z.to_nat 5
    /\ Forall (fun p => predicted_price p = Num 100
                       /\ confidence_lower p = Num 100
                       /\ confidence_upper p = Num 100) preds.
Proof.
  apply (predictLinearRegression_constant utc 0 100 20 5); [lia | lra | lia].
Defined.

Lemma get_slice_last (k : nat) (a : list num) :
  (0 < k <= length a)%nat -> get (slice_last k a) (k - 1) = get a (length a - 1).
Proof.
  intros Hk. unfold slice_last, get.
  destruct (Nat.eqb_spec k 0); [lia |].
  rewrite nth_skipn. f_equal. lia.
Qed.

(** X5: the trend forecast depends on the series through its length and its
    last [min(30, floor(n / 3))] prices alone: two series of one length that
    end in the same window get the same answer. *)
Theorem predictLinearRegression_window_only (zone : TimeZone) (today : Z)
    (prices1 prices2 : list num)
    (days : jsint) :
  length prices1 = length prices2 ->
  slice_last (windowSize (length prices1)) prices1
  = slice_last (windowSize (length prices1)) prices2 ->
  predictLinearRegression zone today prices1 days
  = predictLinearRegression zone today prices2 days.
Proof.
  intros Hlen Hslice. unfold predictLinearRegression. rewrite <- Hlen.
  destruct (Nat.ltb_spec (length prices1) 10) as [| Hn]; [reflexivity |].
  pose proof (windowSize_bounds _ Hn) as Hw.
  assert (Hlast : get prices1 (length prices1 - 1) = get prices2 (length prices1 - 1)).
  { rewrite <- (get_slice_last (windowSize (length prices1)) prices1) by lia.
    rewrite Hslice. rewrite Hlen in *. apply get_slice_last. lia. }
  now rewrite <- Hslice, Hlast.
Qed.

Lemma predictLinearRegression_window_only_witness :
  predictLinearRegression utc 0 (Num 1 :: repeat (Num 2) 9) (Int 5)
  = predictLinearRegression utc 0 (Num 7 :: repeat (Num 2) 9) (Int 5).
Proof.
  apply (predictLinearRegression_window_only utc 0 (Num 1 :: repeat (Num 2) 9)
           (Num 7 :: repeat (Num 2) 9) (Int 5)); reflexivity.
Defined.

(** X6: each forecaster throws its insufficient-data error exactly when the
    series is shorter than its minimum, 10 and 60 prices, whatever the prices
    and the days; from the minimum on it returns one prediction per day, none
    when the days are [NaN] or not positive. *)
Theorem forecasters_minimum_length (random : Random) (zone : TimeZone) (today : Z)
    (historicalPrices : list num) (days : jsint) :
  let n := length historicalPrices in
  ((n < 10)%nat ->
   predictLinearRegression zone today historicalPrices days
   = Throw "Insufficient historical data for prediction")
  /\ ((10 <= n)%nat ->
      exists preds, predictLinearRegression zone today historicalPrices days = Ok preds
                    /\ length preds = count days)
  /\ ((n < 60)%nat ->
      predictLSTM random zone today historicalPrices days
      = Throw "LSTM requires at least 60 days of historical data")
  /\ ((60 <= n)%nat ->
      exists preds, predictLSTM random zone today historicalPrices days = Ok preds
                    /\ length preds = count days).
Proof.
  intros n. subst n. repeat split.
  - intros Hn. unfold predictLinearRegression.
    destruct (Nat.ltb_spec (length historicalPrices) 10); [reflexivity | lia].
  - apply predictLinearRegression_returns.
  - intros Hn. unfold predictLSTM.
    destruct (Nat.ltb_spec (length historicalPrices) 60); [reflexivity | lia].
  - apply predictLSTM_returns.
Qed.

(** X7: on a host whose offset from UTC never changes, the dates of the
    predictions are the UTC day of the time the forecaster read off its
    clock plus 1, 2, ..., in both forecasters: the trend forecaster counts
    its days from 1 and adds [i], the recurrent one counts from 0 and adds
    [i + 1]. The dates then increase strictly, and the two forecasters date
    their predictions alike when their two readings of the clock fall on one
    UTC day. *)
Theorem forecasters_dates_fixed_offset (random : Random) (zone : TimeZone)
    (today lstmToday : Z) (historicalPrices : list num) (days : jsint) :
  fixed_offset zone ->
  (10 <= length historicalPrices)%nat ->
  exists lr,
    predictLinearRegression zone today historicalPrices days = Ok lr
    /\ map date lr = map (fun i => (toISODate today + Z.of_nat i)%Z) (seq 1 (count days))
    /\ increasing_dates lr
    /\ ((60 <= length historicalPrices)%nat ->
        exists lstm,
          predictLSTM random zone lstmToday historicalPrices days = Ok lstm
          /\ map date lstm
             = map (fun i => (toISODate lstmToday + Z.of_nat i)%Z) (seq 1 (count days))
          /\ increasing_dates lstm
          /\ (toISODate today = toISODate lstmToday -> map date lr = map date lstm)).
Proof.
  intros Hzone Hn. unfold predictLinearRegression, predictLSTM.
  destruct (Nat.ltb_spec (length historicalPrices) 10); [lia |].
  eexists. split; [reflexivity |].
  assert (Hlr : forall l,
            map (fun i => toISODate (setDate_plus zone today (Z.of_nat i))) l
            = map (fun i => (toISODate today + Z.of_nat i)%Z) l).
  { intros l. apply map_ext. intros i. now apply toISODate_fixed_offset. }
  split; [now rewrite lr_dates |].
  split.
  { apply increasing_dates_map with (shift := toISODate today). intros i.
    cbn [lr_day date]. now apply toISODate_fixed_offset. }
  intros H60.
  destruct (Nat.ltb_spec (length historicalPrices) 60); [lia |].
  eexists. split; [reflexivity |].
  assert (Hlstm : map (fun i => toISODate (setDate_plus zone lstmToday (Z.of_nat i + 1)))
                      (seq 0 (count days))
                  = map (fun i => (toISODate lstmToday + Z.of_nat i)%Z) (seq 1 (count days))).
  { rewrite <- seq_shift, map_map. apply map_ext. intros i.
    rewrite toISODate_fixed_offset by exact Hzone. f_equal. lia. }
  split; [now rewrite lstm_dates |].
  split.
  { apply increasing_dates_map with (shift := (toISODate lstmToday + 1)%Z). intros i.
    cbn [lstm_day date]. rewrite toISODate_fixed_offset by exact Hzone. lia. }
  intros Hsame. rewrite lr_dates, lstm_dates, Hlr, Hlstm, Hsame. reflexivity.
Qed.

Lemma forecasters_dates_fixed_offset_witness :
  exists lr,
    predictLinearRegression utc 1772843400000 (repeat (Num 100) 60) (Int 2) = Ok lr
    /\ map date lr
       = map (fun i => (toISODate 1772843400000 + Z.of_nat i)%Z) (seq 1 (count (Int 2)))
    /\ increasing_dates lr
    /\ ((60 <= length (repeat (Num 100) 60))%nat ->
        exists lstm,
          predictLSTM (fun _ => 0) utc 1772843400001 (repeat (Num 100) 60) (Int 2) = Ok lstm
          /\ map date lstm
             = map (fun i => (toISODate 1772843400001 + Z.of_nat i)%Z) (seq 1 (count (Int 2)))
          /\ increasing_dates lstm
          /\ (toISODate 1772843400000 = toISODate 1772843400001 ->
              map date lr = map date lstm)).
Proof.
  apply (forecasters_dates_fixed_offset (fun _ => 0) utc 1772843400000 1772843400001
           (repeat (Num 100) 60) (Int 2)).
  - exists 0%Z. split; reflexivity.
  - rewrite repeat_length. lia.
Defined.

(** ** Recurrent forecaster: the cell *)

Lemma Rtanh_bounds (x : R) : -1 < Rtrigo_def.tanh x < 1.
Proof.
  unfold Rtrigo_def.tanh, sinh, cosh.
  pose proof (exp_pos x) as Hp. pose proof (exp_pos (- x)) as Hq.
  set (p := exp x) in *. set (q := exp (- x)) in *.
  replace ((p - q) / 2 / ((p + q) / 2)) with ((p - q) / (p + q)) by (field; lra).
  assert (Hs : 0 < / (p + q)) by (apply Rinv_0_lt_compat; lra).
  split.
  - apply Rmult_lt_reg_r with (p + q); [lra |].
    unfold Rdiv. rewrite Rmult_assoc, Rinv_l by lra. lra.
  - apply Rmult_lt_reg_r with (p + q); [lra |].
    unfold Rdiv. rewrite Rmult_assoc, Rinv_l by lra. lra.
Qed.

Lemma sigmoid_between (x : num) : finite x -> strictly_between 0 1 (sigmoid x).
Proof.
  intros [r ->]. unfold sigmoid. cbn [neg Math_exp add].
  pose proof (exp_pos (- r)) as He. rewrite div_Num by lra.
  eexists. split; [reflexivity |].
  assert (Hs : 0 < / (1 + exp (- r))) by (apply Rinv_0_lt_compat; lra).
  unfold Rdiv. rewrite Rmult_1_l. split; [exact Hs |].
  rewrite <- Rinv_1 at 2. apply Rinv_lt_contravar; lra.
Qed.

Lemma tanh_between (x : num) : finite x -> strictly_between (-1) 1 (tanh x).
Proof.
  intros [r ->]. exists (Rtrigo_def.tanh r). split; [reflexivity | apply Rtanh_bounds].
Qed.

(** X8: the gates are strictly between 0 and 1 and [tanh] strictly between
    -1 and 1 on finite numbers, so one step of a well-formed cell on a finite
    input and finite states of its size returns states of the same size
    whose hidden values are all strictly between -1 and 1. *)
Theorem forward_hidden_bounded (cell : SimpleLSTMCell) (x : num) (h c : list num) :
  cell_ok cell -> finite x ->
  length h = cell_hiddenSize cell -> Forall finite h ->
  length c = cell_hiddenSize cell -> Forall finite c ->
  let hc := forward cell x h c in
  length (fst hc) = cell_hiddenSize cell
  /\ length (snd hc) = cell_hiddenSize cell
  /\ Forall finite (snd hc)
  /\ Forall (strictly_between (-1) 1) (fst hc).
Proof.
  intros Hcell Hx Hlh Hh Hlc Hc hc.
  destruct (forward_finite cell x h c Hcell Hx Hlh Hh Hlc Hc) as [[L1 F1] [L2 F2]].
  fold hc in L1, F1, L2, F2.
  split; [exact L1 |]. split; [exact L2 |]. split; [exact F2 |].
  subst hc. unfold forward in *. cbn [fst snd] in *.
  set (newC := mapi _ c) in *.
  apply Forall_mapi. intros i cVal Hi Hin.
  destruct Hcell as (_ & _ & _ & Ho).
  assert (Hcomb : Forall finite (x :: h)) by now constructor.
  assert (Hlen : length (x :: h) = (1 + cell_hiddenSize cell)%nat)
    by (cbn [length]; lia).
  rewrite <- Hlen in Ho.
  destruct (matMul_finite _ _ _ Ho Hcomb) as [Lo Fo].
  assert (Hgate : strictly_between 0 1
                    (get (map sigmoid (matMul (Wo cell) (x :: h))) i)).
  { unfold get. rewrite (nth_indep _ NaN (sigmoid NaN)) by (rewrite length_map; lia).
    rewrite map_nth. apply sigmoid_between.
    rewrite Forall_forall in Fo. apply Fo, nth_In. lia. }
  assert (Htanh : strictly_between (-1) 1 (tanh cVal)).
  { apply tanh_between. rewrite Forall_forall in F2. now apply F2. }
  destruct Hgate as (g & -> & Hg). destruct Htanh as (t & -> & Ht).
  exists (g * t). split; [reflexivity |]. nra.
Qed.

Lemma forward_hidden_bounded_witness :
  let cell := cell (fst (new_SimpleLSTM (fun _ => 0) 0 2)) in
  let hc := forward cell (Num 1) (repeat (Num 0) 2) (repeat (Num 0) 2) in
  length (fst hc) = cell_hiddenSize cell
  /\ length (snd hc) = cell_hiddenSize cell
  /\ Forall finite (snd hc)
  /\ Forall (strictly_between (-1) 1) (fst hc).
Proof.
  intros cell.
  apply (forward_hidden_bounded cell (Num 1) (repeat (Num 0) 2) (repeat (Num 0) 2)).
  - apply (new_SimpleLSTM_ok (fun _ => 0) 0 2).
  - apply finite_Num.
  - reflexivity.
  - apply Forall_finite_repeat.
  - reflexivity.
  - apply Forall_finite_repeat.
Defined.

(** ** Recurrent forecaster: construction and training *)

(** X9: [initWeights] returns [rows] rows of [cols] weights and consumes
    [rows * cols] draws, row by row; with draws in [0, 1) and a positive
    [rows + cols], weight [(i, j)] is the finite number
    [(draw - 0.5) * 2 * scale], at least [-scale] and below [scale], for
    [scale = sqrt(2 / (rows + cols))]. *)
Theorem initWeights_scaled (random : Random) (drawn rows cols : nat) :
  unit_draws random ->
  (0 < rows + cols)%nat ->
  let W := fst (initWeights random drawn rows cols) in
  let scale := sqrt (2 / INR (rows + cols)) in
  length W = rows
  /\ snd (initWeights random drawn rows cols) = (drawn + rows * cols)%nat
  /\ forall i j, (i < rows)%nat -> (j < cols)%nat ->
       length (nth i W []) = cols
       /\ get (nth i W []) j
          = Num ((random (drawn + i * cols + j)%nat - 5 / 10) * 2 * scale)
       /\ - scale <= (random (drawn + i * cols + j)%nat - 5 / 10) * 2 * scale < scale.
Proof.
  intros Hdraws Hpos W scale. subst W. unfold initWeights. cbn [fst snd].
  assert (Hrc : 0 < INR (rows + cols)) by now apply lt_0_INR.
  assert (Hq : 0 < 2 / INR (rows + cols))
    by (apply Rmult_lt_0_compat; [lra | now apply Rinv_0_lt_compat]).
  unfold of_nat. rewrite div_Num by lra. rewrite Math_sqrt_Num by lra.
  fold scale.
  assert (Hscale : 0 < scale) by now apply sqrt_lt_R0.
  split; [now rewrite length_map, length_seq |]. split; [reflexivity |].
  intros i j Hi Hj.
  set (row := fun i => map (fun j => _) (seq 0 cols)).
  assert (Hrow : nth i (map row (seq 0 rows)) [] = row i).
  { transitivity (nth i (map row (seq 0 rows)) (row O)).
    - apply nth_indep. now rewrite length_map, length_seq.
    - rewrite (map_nth row), seq_nth by assumption. reflexivity. }
  rewrite Hrow. unfold row.
  split; [now rewrite length_map, length_seq |]. split.
  - unfold get.
    set (f := fun j => _).
    transitivity (nth j (map f (seq 0 cols)) (f O)).
    + apply nth_indep. now rewrite length_map, length_seq.
    + rewrite (map_nth f), seq_nth by assumption. reflexivity.
  - specialize (Hdraws (drawn + i * cols + j)%nat). nra.
Qed.

Lemma initWeights_scaled_witness :
  let W := fst (initWeights (fun _ => 0) 0 2 3) in
  let scale := sqrt (2 / INR (2 + 3)) in
  length W = 2%nat
  /\ snd (initWeights (fun _ => 0) 0 2 3) = (0 + 2 * 3)%nat
  /\ forall i j, (i < 2)%nat -> (j < 3)%nat ->
       length (nth i W []) = 3%nat
       /\ get (nth i W []) j = Num (((fun _ => 0) (0 + i * 3 + j)%nat - 5 / 10) * 2 * scale)
       /\ - scale <= ((fun _ => 0) (0 + i * 3 + j)%nat - 5 / 10) * 2 * scale < scale.
Proof.
  apply (initWeights_scaled (fun _ => 0) 0 2 3).
  - intros k. lra.
  - lia.
Defined.

(** X10: the constructor builds a well-formed network of the size asked
    for, drawing [4 * hiddenSize * (1 + hiddenSize) + hiddenSize] numbers, and
    with draws in [0, 1) every readout weight starts at least at -0.05 and
    below 0.05. *)
Theorem new_SimpleLSTM_well_formed (random : Random) (drawn size : nat) :
  unit_draws random ->
  let lstm := fst (new_SimpleLSTM random drawn size) in
  lstm_ok lstm
  /\ hiddenSize lstm = size
  /\ snd (new_SimpleLSTM random drawn size)
     = (drawn + 4 * (size * (1 + size)) + size)%nat
  /\ Forall (fun w => exists r, w = Num r /\ - (5 / 100) <= r < 5 / 100)
            (outputWeights lstm).
Proof.
  intros Hdraws lstm.
  destruct (new_SimpleLSTM_ok random drawn size) as [Hok Hsize]. fold lstm in Hok, Hsize.
  split; [exact Hok |]. split; [exact Hsize |].
  subst lstm. unfold new_SimpleLSTM, new_SimpleLSTMCell, initWeights.
  cbn [fst snd outputWeights]. split; [lia |].
  apply Forall_map, Forall_forall. intros k _.
  eexists. split; [reflexivity |].
  match goal with |- _ <= (random ?d - _) * _ < _ => specialize (Hdraws d) end.
  lra.
Qed.

Lemma new_SimpleLSTM_well_formed_witness :
  let lstm := fst (new_SimpleLSTM (fun _ => 0) 0 50) in
  lstm_ok lstm
  /\ hiddenSize lstm = 50%nat
  /\ snd (new_SimpleLSTM (fun _ => 0) 0 50) = (0 + 4 * (50 * (1 + 50)) + 50)%nat
  /\ Forall (fun w => exists r, w = Num r /\ - (5 / 100) <= r < 5 / 100)
            (outputWeights lstm).
Proof.
  apply (new_SimpleLSTM_well_formed (fun _ => 0) 0 50). intros k. lra.
Defined.

(** X11: training keeps a well-formed network well formed on finite data:
    the size stays, and the readout weights stay as many and finite, whatever
    the number of epochs. *)
Theorem train_keeps_well_formed (lstm : SimpleLSTM) (data : list num) (epochs : nat) :
  lstm_ok lstm ->
  Forall finite data ->
  lstm_ok (train lstm data epochs)
  /\ hiddenSize (train lstm data epochs) = hiddenSize lstm
  /\ length (outputWeights (train lstm data epochs)) = length (outputWeights lstm).
Proof.
  intros Hok Hdata.
  pose proof (train_ok lstm data epochs Hdata Hok) as Hok'.
  destruct (train_frame lstm data epochs) as [_ Hsize].
  split; [exact Hok' |]. split; [exact Hsize |].
  destruct Hok as (_ & _ & -> & _). destruct Hok' as (_ & _ & -> & _). exact Hsize.
Qed.

Lemma train_keeps_well_formed_witness :
  let lstm := fst (new_SimpleLSTM (fun _ => 0) 0 2) in
  let data := [Num 0; Num (1 / 2); Num 1] in
  lstm_ok (train lstm data 3)
  /\ hiddenSize (train lstm data 3) = hiddenSize lstm
  /\ length (outputWeights (train lstm data 3)) = length (outputWeights lstm).
Proof.
  intros lstm data. apply (train_keeps_well_formed lstm data 3).
  - apply (new_SimpleLSTM_ok (fun _ => 0) 0 2).
  - repeat constructor; apply finite_Num.
Defined.

(** X12: there is nothing to learn from fewer than two values, or in no
    epoch: [train] then returns the network as it was. *)
Theorem train_nothing_to_learn (lstm : SimpleLSTM) (data : list num) (epochs : nat) :
  (length data <= 1)%nat \/ epochs = O ->
  train lstm data epochs = lstm.
Proof.
  intros [Hlen | ->]; [| reflexivity].
  unfold train. generalize (seq 0 epochs) as es.
  induction es as [| e es IH]; [reflexivity |].
  cbn [fold_left]. unfold train_epoch at 2.
  replace (length data - 1)%nat with O by lia. exact IH.
Qed.

Lemma train_nothing_to_learn_witness :
  train (fst (new_SimpleLSTM (fun _ => 0) 0 2)) [Num 1] 50
  = fst (new_SimpleLSTM (fun _ => 0) 0 2).
Proof.
  apply (train_nothing_to_learn (fst (new_SimpleLSTM (fun _ => 0) 0 2)) [Num 1] 50).
  left. simpl. lia.
Defined.

(** X13: a well-formed network that is shown finite values, at least one,
    predicts as many values as steps, all finite. *)
Theorem predict_finite_values (lstm : SimpleLSTM) (lastValues : list num)
    (steps : jsint) :
  lstm_ok lstm ->
  Forall finite lastValues ->
  lastValues <> [] ->
  length (predict lstm lastValues steps) = count steps
  /\ Forall finite (predict lstm lastValues steps).
Proof.
  intros Hok Hvals Hne. now apply predict_finite.
Qed.

Lemma predict_finite_values_witness :
  let lstm := fst (new_SimpleLSTM (fun _ => 0) 0 2) in
  length (predict lstm [Num 1; Num 0] (Int 3)) = count (Int 3)
  /\ Forall finite (predict lstm [Num 1; Num 0] (Int 3)).
Proof.
  intros lstm. apply (predict_finite_values lstm [Num 1; Num 0] (Int 3)).
  - apply (new_SimpleLSTM_ok (fun _ => 0) 0 2).
  - repeat constructor; apply finite_Num.
  - discriminate.
Defined.

(** ** Recurrent forecaster: the forecast *)

(** X14: on 60 prices or more, none negative and not all equal, and for 1
    to 90 days, the recurrent forecaster returns as many predictions as days,
    whatever the random weights, the zone of the host and the time on its
    clock; and every prediction has a price that is not negative, between
    its confidence bounds. *)
Theorem predictLSTM_well_formed (random : Random) (zone : TimeZone) (today : Z)
    (prices : list R) (days : Z) :
  (60 <= length prices)%nat ->
  Forall (fun p => 0 <= p) prices ->
  non_constant prices ->
  (1 <= days <= 90)%Z ->
  exists preds,
    predictLSTM random zone today (map Num prices) (Int days) = Ok preds
    /\ Z.of_nat (length preds) = days
    /\ Forall well_formed preds.
Proof.
  intros Hn Hpos Hnc Hd.
  destruct (predictLSTM_fit random zone today prices (Int days) Hn Hnc)
    as (actual & stdDev & Hs & Hlen & Hfin & Heq).
  pose proof (last_price_nonneg prices Hpos) as HL.
  set (lastPrice := nth (length prices - 1) prices 0) in *.
  eexists. split; [exact Heq |]. split.
  - rewrite length_map, length_seq. cbn [count]. lia.
  - apply Forall_forall. intros p Hp. apply in_map_iff in Hp.
    destruct Hp as (i & <- & Hi). apply in_seq in Hi.
    apply lstm_day_ok; [| assumption | assumption | lia].
    apply finite_get; [assumption | lia].
Qed.

Lemma predictLSTM_well_formed_witness :
  exists preds,
    predictLSTM (fun _ => 0) eastern_2026 1772843400000 (map Num (1 :: repeat 2 59)) (Int 2)
    = Ok preds
    /\ Z.of_nat (length preds) = 2%Z
    /\ Forall well_formed preds.
Proof.
  apply (predictLSTM_well_formed (fun _ => 0) eastern_2026 1772843400000
           (1 :: repeat 2 59) 2).
  - cbn [length]. rewrite repeat_length. lia.
  - constructor; [lra |]. apply Forall_forall. intros p Hp.
    apply repeat_spec in Hp. lra.
  - exists 1, 2. repeat split; [now left | right; now left | lra].
  - lia.
Defined.

(** X15: on 60 prices or more that are all equal the recurrent forecaster
    still returns one prediction per day, and the price of each is [NaN],
    whatever the random weights and the price: the normalized series is
    [NaN] throughout and nothing downstream replaces it. *)
Theorem predictLSTM_on_constant_series (random : Random) (zone : TimeZone) (today : Z) (c : R)
    (prices : list R) (days : jsint) :
  (60 <= length prices)%nat ->
  (forall v, In v prices -> v = c) ->
  exists preds,
    predictLSTM random zone today (map Num prices) days = Ok preds
    /\ length preds = count days
    /\ Forall (fun p => predicted_price p = NaN) preds.
Proof.
  intros Hn Hall.
  destruct (predictLSTM_constant random zone today c prices days Hn Hall)
    as (preds & Heq & Hprices).
  exists preds. split; [exact Heq |]. split.
  - rewrite <- (length_map predicted_price), Hprices. apply repeat_length.
  - apply Forall_forall. intros p Hp.
    apply (in_map predicted_price) in Hp. rewrite Hprices in Hp.
    now apply repeat_spec in Hp.
Qed.

Lemma predictLSTM_on_constant_series_witness :
  exists preds,
    predictLSTM (fun _ => 0) utc 0 (map Num (repeat 5 60)) (Int 3) = Ok preds
    /\ length preds = count (Int 3)
    /\ Forall (fun p => predicted_price p = NaN) preds.
Proof.
  apply (predictLSTM_on_constant_series (fun _ => 0) utc 0 5 (repeat 5 60) (Int 3)).
  - rewrite repeat_length. lia.
  - intros v Hv. now apply repeat_spec in Hv.
Defined.

(** ** Request handler: what is invoked, answered and stored *)

Lemma forecast_invokes
    (recurrent : list num -> jsint -> result (list Prediction))
    (zone : TimeZone) (today now : Z)
    (ticker : string) (days : jsint) (closingPrices : list num)
    (name : string) (prices : list num) (d : jsint) :
  In (Invoke name prices d) (snd (forecast recurrent zone today now ticker days closingPrices)) ->
  prices = closingPrices /\ d = days
  /\ (name = "linear_regression"%string
      \/ (name = "lstm"%string /\ (60 <= length closingPrices)%nat)).
Proof.
  unfold forecast.
  destruct (predictLinearRegression zone today closingPrices days) as [lr | message].
  - destruct (if (60 <=? length closingPrices)%nat then _ else _)
      as [[preds note] lstmEvents] eqn:E.
    cbn [snd]. intros [H | H]; [injection H as <- <- <-; auto |].
    apply in_app_or in H. destruct H as [H | H].
    + destruct (Nat.leb_spec 60 (length closingPrices)) as [H60 | H60].
      * destruct (recurrent closingPrices days); injection E as <- <- <-;
          repeat (destruct H as [H | H]; try discriminate; try contradiction);
          injection H as <- <- <-; auto.
      * injection E as <- <- <-. contradiction.
    + match type of H with In _ (if ?b then _ else _) => destruct b end;
        [destruct H as [H | []]; discriminate | contradiction].
  - cbn [snd]. intros [H | [H | []]]; [injection H as <- <- <-; auto | discriminate].
Qed.

(** X16: a forecaster is invoked only once every check has passed: on the
    closing prices of at least 10 rows (of at least 60 for the recurrent
    one), with the days of the request, which are then not an integer
    outside 1..90. *)
Theorem serve_invokes_after_checks
    (recurrent : list num -> jsint -> result (list Prediction))
    (zone : TimeZone) (today now : Z)
    (stock_data : string -> Selected) (req : Request)
    (name : string) (prices : list num) (d : jsint) :
  In (Invoke name prices d) (snd (serve recurrent zone today now stock_data req)) ->
  method req <> "OPTIONS"%string
  /\ d = days_of req
  /\ int_ltb d 1 || int_gtb d 90 = false
  /\ (10 <= length prices)%nat
  /\ (exists raw rows,
        ticker_param req = Some raw /\ raw <> ""%string
        /\ stock_data (toUpperCase raw) = mkSelected (Some rows) None
        /\ prices = map close rows)
  /\ (name = "linear_regression"%string
      \/ (name = "lstm"%string /\ (60 <= length prices)%nat)).
Proof.
  unfold serve.
  destruct (String.eqb_spec (method req) "OPTIONS") as [| Hm]; [intros [] |].
  destruct (ticker_param req) as [raw |] eqn:Hraw; cbn [option_map]; [| intros []].
  destruct (toUpperCase raw) as [| ch rest] eqn:Hup; [intros [] |].
  destruct (int_ltb (days_of req) 1 || int_gtb (days_of req) 90) eqn:Hdays;
    [intros [] |].
  destruct (stock_data (String ch rest)) as [found failure] eqn:Hdb. cbn [error data].
  destruct failure as [dbError |].
  { cbn [snd]. intros [H | [H | []]]; discriminate. }
  destruct found as [rows |].
  2: { cbn [snd]. intros [H | []]; discriminate. }
  destruct (Nat.ltb_spec (length rows) 10) as [Hlt | Hn].
  { cbn [snd]. intros [H | []]; discriminate. }
  destruct (forecast recurrent zone today now (String ch rest) (days_of req) (map close rows))
    as [response events] eqn:Hf.
  cbn [snd]. intros [H | H]; [discriminate |].
  pose proof (forecast_invokes recurrent zone today now (String ch rest) (days_of req)
                (map close rows) name prices d) as Hinv.
  rewrite Hf in Hinv. destruct (Hinv H) as (-> & -> & Hname).
  rewrite length_map in *.
  split; [exact Hm |]. split; [reflexivity |]. split; [exact Hdays |].
  split; [exact Hn |]. split; [| exact Hname].
  exists raw, rows. rewrite Hup. repeat split; try assumption.
  intros ->. discriminate.
Qed.

Lemma serve_invokes_after_checks_witness :
  let rows := repeat (mkRow (Num 100) "2024-01-02") 10 in
  let stock_data := fun _ : string => mkSelected (Some rows) None in
  let req := mkRequest "GET" (Some "aapl"%string) (Some "5"%string) in
  method req <> "OPTIONS"%string
  /\ Int 5 = days_of req
  /\ int_ltb (Int 5) 1 || int_gtb (Int 5) 90 = false
  /\ (10 <= length (map close rows))%nat
  /\ (exists raw rows',
        ticker_param req = Some raw /\ raw <> ""%string
        /\ stock_data (toUpperCase raw) = mkSelected (Some rows') None
        /\ map close rows = map close rows')
  /\ ("linear_regression"%string = "linear_regression"%string
      \/ ("linear_regression"%string = "lstm"%string
          /\ (60 <= length (map close rows))%nat)).
Proof.
  intros rows stock_data req.
  apply (serve_invokes_after_checks (predictLSTM (fun _ => 0) utc 0) utc 0 0 stock_data req
           "linear_regression" (map close rows) (Int 5)).
  right. left. reflexivity.
Defined.

(** X17: for days that parse to an integer outside 1..90 the handler answers
    400 with the range message and does nothing else: the table is not read
    and no forecaster is invoked. *)
Theorem integer_days_out_of_range_refused
    (recurrent : list num -> jsint -> result (list Prediction))
    (zone : TimeZone) (today now : Z)
    (stock_data : string -> Selected) (req : Request) (raw : string) (days : Z) :
  method req <> "OPTIONS"%string ->
  ticker_param req = Some raw -> raw <> ""%string ->
  days_of req = Int days ->
  (days < 1 \/ 90 < days)%Z ->
  serve recurrent zone today now stock_data req
  = (mkResponse 400 (ErrorBody "Days must be between 1 and 90" None), []).
Proof.
  intros Hm Hraw Hne Hdays Hd.
  now apply (serve_days_out_of_range recurrent zone today now stock_data req raw days).
Qed.

Lemma integer_days_out_of_range_refused_witness :
  serve (predictLSTM (fun _ => 0) utc 0) utc 0 0 (fun _ => mkSelected None None)
        (mkRequest "GET" (Some "aapl"%string) (Some "91"%string))
  = (mkResponse 400 (ErrorBody "Days must be between 1 and 90" None), []).
Proof.
  apply (integer_days_out_of_range_refused (predictLSTM (fun _ => 0) utc 0) utc 0 0
           (fun _ => mkSelected None None)
           (mkRequest "GET" (Some "aapl"%string) (Some "91"%string)) "aapl" 91).
  - discriminate.
  - reflexivity.
  - discriminate.
  - reflexivity.
  - lia.
Defined.

Lemma forecast_answer
    (recurrent : list num -> jsint -> result (list Prediction))
    (zone : TimeZone) (today now : Z)
    (ticker : string) (days : jsint) (closingPrices : list num) :
  (10 <= length closingPrices)%nat ->
  exists lr rest note,
    predictLinearRegression zone today closingPrices days = Ok lr
    /\ fst (forecast recurrent zone today now ticker days closingPrices)
       = mkResponse 200
           (ForecastBody ticker days (mkModel "linear_regression" lr :: rest) note
              disclaimer_text)
    /\ (rest = []
        \/ exists preds,
             preds <> [] /\ note = None
             /\ (60 <= length closingPrices)%nat
             /\ recurrent closingPrices days = Ok preds
             /\ rest = [mkModel "lstm" preds])
    /\ match note with
       | None =>
           (60 <= length closingPrices)%nat
           /\ exists preds, recurrent closingPrices days = Ok preds
       | Some message =>
           ((length closingPrices < 60)%nat
            /\ message = "Insufficient data for LSTM (requires 60+ days)"%string)
           \/ ((60 <= length closingPrices)%nat
               /\ recurrent closingPrices days = Throw message)
       end
    /\ inserted_batches (snd (forecast recurrent zone today now ticker days closingPrices))
       = batches (records_of ticker (toISODate now) (mkModel "linear_regression" lr :: rest)).
Proof.
  intros Hn.
  destruct (predictLinearRegression_returns zone today closingPrices days Hn)
    as (lr & Hlr & _).
  unfold forecast. rewrite Hlr. exists lr.
  assert (Hbatches : forall (events : list Event) (records : list Inserted),
            inserted_batches events = [] ->
            inserted_batches
              (Invoke "linear_regression" closingPrices days
               :: events ++ (if (0 <? length records)%nat then [Insert records] else []))
            = batches records).
  { intros events records Hev. unfold inserted_batches, batches in *.
    cbn [flat_map app]. rewrite flat_map_app, Hev.
    destruct (0 <? length records)%nat; reflexivity. }
  unfold records_of. cbn [flat_map model model_predictions].
  destruct (Nat.leb_spec 60 (length closingPrices)) as [H60 | H60].
  - destruct (recurrent closingPrices days) as [preds | message] eqn:Hrec.
    + destruct preds as [| p preds].
      * exists [], None.
        change (0 <? length (@nil Prediction))%nat with false. cbn iota. cbn [fst snd].
        split; [reflexivity |]. split; [reflexivity |]. split; [now left |].
        split; [split; [exact H60 | now exists []] |].
        cbn [flat_map]. rewrite !app_nil_r. now apply Hbatches.
      * exists [mkModel "lstm" (p :: preds)], None.
        change (0 <? length (p :: preds))%nat with true. cbn iota. cbn [fst snd].
        split; [reflexivity |]. split; [reflexivity |]. split.
        { right. exists (p :: preds). repeat split; auto. discriminate. }
        split; [split; [exact H60 | now exists (p :: preds)] |].
        cbn [flat_map model model_predictions]. rewrite app_nil_r.
        now apply Hbatches.
    + exists [], (Some message).
      change (0 <? length (@nil Prediction))%nat with false. cbn iota. cbn [fst snd].
      split; [reflexivity |]. split; [reflexivity |]. split; [now left |].
      split; [right; now split |].
      cbn [flat_map]. rewrite !app_nil_r. now apply Hbatches.
  - exists [], (Some "Insufficient data for LSTM (requires 60+ days)"%string).
    change (0 <? length (@nil Prediction))%nat with false. cbn iota. cbn [fst snd].
    split; [reflexivity |]. split; [reflexivity |]. split; [now left |].
    split; [left; now split |].
    cbn [flat_map]. rewrite !app_nil_r. now apply (Hbatches []).
Qed.

(** The ways the handler answers a request that is not a preflight. *)
Lemma serve_cases
    (recurrent : list num -> jsint -> result (list Prediction))
    (zone : TimeZone) (today now : Z)
    (stock_data : string -> Selected) (req : Request) :
  method req <> "OPTIONS"%string ->
  serve recurrent zone today now stock_data req
  = (mkResponse 400 (ErrorBody "Ticker symbol is required" None), [])
  \/ serve recurrent zone today now stock_data req
     = (mkResponse 400 (ErrorBody "Days must be between 1 and 90" None), [])
  \/ (exists raw dbError,
        ticker_param req = Some raw
        /\ error (stock_data (toUpperCase raw)) = Some dbError
        /\ serve recurrent zone today now stock_data req
           = (mkResponse 500 (ErrorBody "Failed to fetch historical data" None),
              [Select (toUpperCase raw); ConsoleError "Database error:"]))
  \/ (exists raw,
        ticker_param req = Some raw
        /\ serve recurrent zone today now stock_data req
           = (mkResponse 400
                (ErrorBody "Insufficient historical data. Please fetch stock data first."
                   None),
              [Select (toUpperCase raw)]))
  \/ (exists raw rows,
        ticker_param req = Some raw
        /\ stock_data (toUpperCase raw) = mkSelected (Some rows) None
        /\ (10 <= length rows)%nat
        /\ serve recurrent zone today now stock_data req
           = (fst (forecast recurrent zone today now (toUpperCase raw) (days_of req)
                            (map close rows)),
              Select (toUpperCase raw)
              :: snd (forecast recurrent zone today now (toUpperCase raw) (days_of req)
                               (map close rows)))).
Proof.
  intros Hm. unfold serve. apply String.eqb_neq in Hm. rewrite Hm.
  destruct (ticker_param req) as [raw |] eqn:Hraw; cbn [option_map]; [| now left].
  destruct (toUpperCase raw) as [| ch rest] eqn:Hup; [now left |].
  destruct (int_ltb (days_of req) 1 || int_gtb (days_of req) 90);
    [right; now left |].
  destruct (stock_data (String ch rest)) as [found failure] eqn:Hdb. cbn [error data].
  destruct failure as [dbError |].
  { right. right. left. exists raw, dbError. rewrite Hup, Hdb. now repeat split. }
  destruct found as [rows |].
  2: { right. right. right. left. exists raw. rewrite Hup. now split. }
  destruct (Nat.ltb_spec (length rows) 10) as [Hlt | Hn].
  { right. right. right. left. exists raw. rewrite Hup. now split. }
  right. right. right. right. exists raw, rows. rewrite Hup, Hdb.
  repeat split; try assumption.
  now destruct (forecast _ _ _ _ _).
Qed.

Lemma forecast_status
    (recurrent : list num -> jsint -> result (list Prediction))
    (zone : TimeZone) (today now : Z)
    (ticker : string) (days : jsint) (closingPrices : list num) :
  (10 <= length closingPrices)%nat ->
  status (fst (forecast recurrent zone today now ticker days closingPrices)) = 200%Z.
Proof.
  intros Hn.
  destruct (forecast_answer recurrent zone today now ticker days closingPrices Hn)
    as (lr & rest & note & _ & -> & _). reflexivity.
Qed.

(** X18: the only 500 the handler answers is for a failed read of the
    table, before any forecaster is invoked: the checks in front of the
    forecasters leave the catch-all "Internal server error" answer
    unreachable from them. *)
Theorem serve_500_is_database_error
    (recurrent : list num -> jsint -> result (list Prediction))
    (zone : TimeZone) (today now : Z)
    (stock_data : string -> Selected) (req : Request) :
  status (fst (serve recurrent zone today now stock_data req)) = 500%Z ->
  exists raw dbError,
    ticker_param req = Some raw
    /\ error (stock_data (toUpperCase raw)) = Some dbError
    /\ serve recurrent zone today now stock_data req
       = (mkResponse 500 (ErrorBody "Failed to fetch historical data" None),
          [Select (toUpperCase raw); ConsoleError "Database error:"]).
Proof.
  intros Hstatus.
  destruct (String.eqb_spec (method req) "OPTIONS") as [Hm | Hm].
  { unfold serve in Hstatus. apply String.eqb_eq in Hm. rewrite Hm in Hstatus.
    discriminate. }
  destruct (serve_cases recurrent zone today now stock_data req Hm)
    as [H | [H | [H | [(raw & _ & H) | (raw & rows & _ & _ & Hn & H)]]]];
    try (rewrite H in Hstatus; discriminate).
  - exact H.
  - rewrite H in Hstatus. cbn [fst] in Hstatus.
    rewrite forecast_status in Hstatus by (rewrite length_map; lia). discriminate.
Qed.

Lemma serve_500_is_database_error_witness :
  let stock_data := fun _ : string => mkSelected None (Some "timeout"%string) in
  let req := mkRequest "GET" (Some "aapl"%string) (Some "5"%string) in
  exists raw dbError,
    ticker_param req = Some raw
    /\ error (stock_data (toUpperCase raw)) = Some dbError
    /\ serve (predictLSTM (fun _ => 0) utc 0) utc 0 0 stock_data req
       = (mkResponse 500 (ErrorBody "Failed to fetch historical data" None),
          [Select (toUpperCase raw); ConsoleError "Database error:"]).
Proof.
  intros stock_data req.
  apply (serve_500_is_database_error (predictLSTM (fun _ => 0) utc 0) utc 0 0 stock_data req).
  reflexivity.
Defined.

Lemma serve_success
    (recurrent : list num -> jsint -> result (list Prediction))
    (zone : TimeZone) (today now : Z)
    (stock_data : string -> Selected) (req : Request) :
  method req <> "OPTIONS"%string ->
  status (fst (serve recurrent zone today now stock_data req)) = 200%Z ->
  exists raw rows,
    ticker_param req = Some raw
    /\ stock_data (toUpperCase raw) = mkSelected (Some rows) None
    /\ (10 <= length rows)%nat
    /\ serve recurrent zone today now stock_data req
       = (fst (forecast recurrent zone today now (toUpperCase raw) (days_of req)
                        (map close rows)),
          Select (toUpperCase raw)
          :: snd (forecast recurrent zone today now (toUpperCase raw) (days_of req)
                           (map close rows))).
Proof.
  intros Hm Hstatus.
  destruct (serve_cases recurrent zone today now stock_data req Hm)
    as [H | [H | [(raw & e & _ & _ & H) | [(raw & _ & H) | H]]]];
    try (rewrite H in Hstatus; discriminate).
  destruct H as (raw & rows & H1 & H2 & H3 & H4). now exists raw, rows.
Qed.

(** X19: a success answers the ticker in upper case, the days of the
    request and the fixed disclaimer, and lists the trend model first, with
    what the trend forecaster returned on the closing prices; the recurrent
    model comes second or not at all, and never with an empty list of
    predictions. *)
Theorem serve_success_shape
    (recurrent : list num -> jsint -> result (list Prediction))
    (zone : TimeZone) (today now : Z)
    (stock_data : string -> Selected) (req : Request) :
  method req <> "OPTIONS"%string ->
  status (fst (serve recurrent zone today now stock_data req)) = 200%Z ->
  exists raw rows lr rest note,
    ticker_param req = Some raw
    /\ stock_data (toUpperCase raw) = mkSelected (Some rows) None
    /\ predictLinearRegression zone today (map close rows) (days_of req) = Ok lr
    /\ fst (serve recurrent zone today now stock_data req)
       = mkResponse 200
           (ForecastBody (toUpperCase raw) (days_of req)
              (mkModel "linear_regression" lr :: rest) note disclaimer_text)
    /\ (rest = []
        \/ exists preds,
             preds <> [] /\ note = None
             /\ recurrent (map close rows) (days_of req) = Ok preds
             /\ rest = [mkModel "lstm" preds]).
Proof.
  intros Hm Hstatus.
  destruct (serve_success recurrent zone today now stock_data req Hm Hstatus)
    as (raw & rows & Hraw & Hdb & Hn & Hserve).
  destruct (forecast_answer recurrent zone today now (toUpperCase raw) (days_of req)
              (map close rows))
    as (lr & rest & note & Hlr & Hfst & Hrest & _); [rewrite length_map; lia |].
  exists raw, rows, lr, rest, note.
  split; [exact Hraw |]. split; [exact Hdb |]. split; [exact Hlr |].
  split; [rewrite Hserve; exact Hfst |].
  destruct Hrest as [-> | (preds & Hne & -> & _ & Hrec & ->)]; [now left |].
  right. now exists preds.
Qed.

Lemma serve_success_shape_witness :
  let recurrent := predictLSTM (fun _ => 0) utc 0 in
  let stock_data :=
    fun _ : string => mkSelected (Some (repeat (mkRow (Num 100) "2024-01-02") 10)) None in
  let req := mkRequest "GET" (Some "aapl"%string) (Some "5"%string) in
  exists raw rows lr rest note,
    ticker_param req = Some raw
    /\ stock_data (toUpperCase raw) = mkSelected (Some rows) None
    /\ predictLinearRegression utc 0 (map close rows) (days_of req) = Ok lr
    /\ fst (serve recurrent utc 0 0 stock_data req)
       = mkResponse 200
           (ForecastBody (toUpperCase raw) (days_of req)
              (mkModel "linear_regression" lr :: rest) note disclaimer_text)
    /\ (rest = []
        \/ exists preds,
             preds <> [] /\ note = None
             /\ recurrent (map close rows) (days_of req) = Ok preds
             /\ rest = [mkModel "lstm" preds]).
Proof.
  intros recurrent stock_data req.
  apply (serve_success_shape recurrent utc 0 0 stock_data req).
  - discriminate.
  - reflexivity.
Defined.

(** X20: what is stored is what is answered: on a success the handler
    inserts one batch, the records of the models of the answer in their
    order, each with the ticker and the day the handler reads off its
    clock, and no batch when the answer has no prediction; an answer that is
    not a success inserts nothing. *)
Theorem serve_stores_the_answer
    (recurrent : list num -> jsint -> result (list Prediction))
    (zone : TimeZone) (today now : Z)
    (stock_data : string -> Selected) (req : Request) :
  method req <> "OPTIONS"%string ->
  let answer := serve recurrent zone today now stock_data req in
  (status (fst answer) = 200%Z ->
   exists ticker days models note text,
     body (fst answer) = ForecastBody ticker days models note text
     /\ inserted_batches (snd answer) = batches (records_of ticker (toISODate now) models))
  /\ (status (fst answer) <> 200%Z -> inserted_batches (snd answer) = []).
Proof.
  intros Hm answer. subst answer. split.
  - intros Hstatus.
    destruct (serve_success recurrent zone today now stock_data req Hm Hstatus)
      as (raw & rows & Hraw & Hdb & Hn & Hserve).
    destruct (forecast_answer recurrent zone today now (toUpperCase raw) (days_of req)
                (map close rows))
      as (lr & rest & note & Hlr & Hfst & _ & _ & Hins); [rewrite length_map; lia |].
    rewrite Hserve. cbn [fst snd]. rewrite Hfst. cbn [body].
    eexists _, _, _, _, _. split; [reflexivity |]. exact Hins.
  - intros Hstatus.
    destruct (serve_cases recurrent zone today now stock_data req Hm)
      as [H | [H | [(raw & e & _ & _ & H) | [(raw & _ & H) | H]]]];
      try (rewrite H; reflexivity).
    destruct H as (raw & rows & _ & _ & Hn & H). exfalso. apply Hstatus.
    rewrite H. cbn [fst]. apply forecast_status. rewrite length_map. lia.
Qed.

Lemma serve_stores_the_answer_witness :
  let recurrent := predictLSTM (fun _ => 0) utc 0 in
  let stock_data :=
    fun _ : string => mkSelected (Some (repeat (mkRow (Num 100) "2024-01-02") 10)) None in
  let req := mkRequest "GET" (Some "aapl"%string) (Some "5"%string) in
  let answer := serve recurrent utc 0 0 stock_data req in
  (status (fst answer) = 200%Z ->
   exists ticker days models note text,
     body (fst answer) = ForecastBody ticker days models note text
     /\ inserted_batches (snd answer) = batches (records_of ticker (toISODate 0) models))
  /\ (status (fst answer) <> 200%Z -> inserted_batches (snd answer) = []).
Proof.
  intros recurrent stock_data req.
  apply (serve_stores_the_answer recurrent utc 0 0 stock_data req). discriminate.
Defined.

(** X21: the deployed handler never reports an exception of the recurrent
    forecaster: on a success the error note is null when there are 60 rows
    or more and the fixed insufficient-data text otherwise, the throw of
    [predictLSTM] being out of reach behind the handler's own length test. *)
Theorem Deno_serve_error_note (random : Random) (zone : TimeZone)
    (today lstmToday now : Z)
    (stock_data : string -> Selected) (req : Request) :
  method req <> "OPTIONS"%string ->
  status (fst (Deno_serve random zone today lstmToday now stock_data req)) = 200%Z ->
  exists raw rows models note,
    ticker_param req = Some raw
    /\ stock_data (toUpperCase raw) = mkSelected (Some rows) None
    /\ body (fst (Deno_serve random zone today lstmToday now stock_data req))
       = ForecastBody (toUpperCase raw) (days_of req) models note disclaimer_text
    /\ (((60 <= length rows)%nat /\ note = None)
        \/ ((length rows < 60)%nat
            /\ note = Some "Insufficient data for LSTM (requires 60+ days)"%string)).
Proof.
  intros Hm Hstatus. unfold Deno_serve in *.
  destruct (serve_success _ zone today now stock_data req Hm Hstatus)
    as (raw & rows & Hraw & Hdb & Hn & Hserve).
  destruct (forecast_answer (predictLSTM random zone lstmToday) zone today now (toUpperCase raw)
              (days_of req) (map close rows))
    as (lr & rest & note & Hlr & Hfst & _ & Hnote & _); [rewrite length_map; lia |].
  rewrite length_map in Hnote.
  exists raw, rows, (mkModel "linear_regression" lr :: rest), note.
  split; [exact Hraw |]. split; [exact Hdb |].
  split; [rewrite Hserve; cbn [fst]; now rewrite Hfst |].
  destruct note as [message |].
  - destruct Hnote as [[Hlt ->] | [H60 Hthrow]]; [right; now split |].
    destruct (predictLSTM_returns random zone lstmToday (map close rows) (days_of req))
      as (preds & Hok & _); [rewrite length_map; lia |].
    congruence.
  - left. now split.
Qed.

Lemma Deno_serve_error_note_witness :
  let stock_data :=
    fun _ : string => mkSelected (Some (repeat (mkRow (Num 100) "2024-01-02") 10)) None in
  let req := mkRequest "GET" (Some "aapl"%string) (Some "5"%string) in
  exists raw rows models note,
    ticker_param req = Some raw
    /\ stock_data (toUpperCase raw) = mkSelected (Some rows) None
    /\ body (fst (Deno_serve (fun _ => 0) utc 0 0 0 stock_data req))
       = ForecastBody (toUpperCase raw) (days_of req) models note disclaimer_text
    /\ (((60 <= length rows)%nat /\ note = None)
        \/ ((length rows < 60)%nat
            /\ note = Some "Insufficient data for LSTM (requires 60+ days)"%string)).
Proof.
  intros stock_data req.
  apply (Deno_serve_error_note (fun _ => 0) utc 0 0 0 stock_data req).
  - discriminate.
  - reflexivity.
Defined.

(** ** Price chart and model cards *)

Lemma priceScale_Num (historicalData : list StockDataPoint)
    (models : list ModelPredictions) (x : R) (xs : list R) :
  allPrices historicalData models = map Num (x :: xs) ->
  priceScale historicalData models
  = let range := Rmax_list x xs - Rmin_list x xs in
    mkScale (Num (Rmin_list x xs - range * (1 / 10)))
            (Num (Rmax_list x xs + range * (1 / 10)))
            (Num (range + range * (1 / 10) * 2)).
Proof.
  intros Hall. unfold priceScale. rewrite Hall, Math_min_Num, Math_max_Num.
  reflexivity.
Qed.

(** X22: when the prices the chart plots are finite and not all equal,
    every one of them gets a height that is a number between 100/12 and
    1100/12 of the 100 units of the view box, and a larger price is never
    lower on the chart (its y is not larger): the padding keeps the curve
    off the borders. *)
Theorem getYPosition_within_view (historicalData : list StockDataPoint)
    (models : list ModelPredictions) (prices : list R) :
  allPrices historicalData models = map Num prices ->
  non_constant prices ->
  let scale := priceScale historicalData models in
  (forall p, In p prices ->
     exists y, getYPosition scale (Num p) = Num y /\ 100 / 12 <= y <= 1100 / 12)
  /\ (forall p q, In p prices -> In q prices -> p <= q ->
        (getYPosition scale (Num q) <= getYPosition scale (Num p))%num).
Proof.
  intros Hall Hnc scale. subst scale.
  destruct prices as [| x xs]; [destruct Hnc as (a & _ & [] & _) |].
  pose proof (non_constant_range x xs Hnc) as Hrange.
  rewrite (priceScale_Num historicalData models x xs Hall). cbn zeta.
  assert (Hbounds : forall v, In v (x :: xs) -> Rmin_list x xs <= v <= Rmax_list x xs)
    by (intros v Hv; split; [now apply Rmin_list_le | now apply Rmax_list_ge]).
  set (m := Rmin_list x xs) in *. set (M := Rmax_list x xs) in *.
  clearbody m M. set (r := M - m) in *.
  assert (Hrdef : r = M - m) by reflexivity. clearbody r.
  assert (Hr : 0 < r) by lra.
  assert (Hpos : 0 < r + r * (1 / 10) * 2) by lra.
  assert (Hy : forall v,
            getYPosition (mkScale (Num (m - r * (1 / 10))) (Num (M + r * (1 / 10)))
                                  (Num (r + r * (1 / 10) * 2))) (Num v)
            = Num ((M - v) / r * (1000 / 12) + 100 / 12)).
  { intros v. unfold getYPosition. cbn [maxPrice priceRange sub].
    rewrite div_Num by lra. cbn [mul]. f_equal. field. lra. }
  assert (Hinv : 0 < / r) by now apply Rinv_0_lt_compat.
  split.
  - intros p Hp. rewrite Hy. eexists. split; [reflexivity |].
    destruct (Hbounds p Hp) as [Hlo Hhi].
    assert (0 <= (M - p) / r) by (apply Rmult_le_pos; lra).
    assert ((M - p) / r <= 1).
    { replace 1 with (r / r) by (field; lra).
      apply Rmult_le_compat_r; lra. }
    lra.
  - intros p q Hp Hq Hpq. rewrite !Hy. apply le_Num.
    assert ((M - q) / r <= (M - p) / r) by (apply Rmult_le_compat_r; lra).
    lra.
Qed.

Lemma getYPosition_within_view_witness :
  let historicalData :=
    [mkPoint "2024-01-02" (Num 1) (Num 1) (Num 1) (Num 1) (Num 1);
     mkPoint "2024-01-03" (Num 3) (Num 3) (Num 3) (Num 3) (Num 3)] in
  let scale := priceScale historicalData [] in
  (forall p, In p [1; 3] ->
     exists y, getYPosition scale (Num p) = Num y /\ 100 / 12 <= y <= 1100 / 12)
  /\ (forall p q, In p [1; 3] -> In q [1; 3] -> p <= q ->
        (getYPosition scale (Num q) <= getYPosition scale (Num p))%num).
Proof.
  intros historicalData.
  apply (getYPosition_within_view historicalData [] [1; 3]).
  - reflexivity.
  - exists 1, 3. repeat split; [now left | right; now left | lra].
Defined.

(** X23: when the prices the chart plots are one and the same finite price,
    the range is 0 and the height of that price is [NaN]: a flat series has
    no y position. *)
Theorem getYPosition_flat (historicalData : list StockDataPoint)
    (models : list ModelPredictions) (c : R) (prices : list R) :
  allPrices historicalData models = map Num prices ->
  prices <> [] ->
  (forall v, In v prices -> v = c) ->
  priceRange (priceScale historicalData models) = Num 0
  /\ getYPosition (priceScale historicalData models) (Num c) = NaN.
Proof.
  intros Hall Hne Hconst.
  destruct prices as [| x xs]; [contradiction |].
  assert (x = c) as -> by (apply Hconst; now left).
  assert (Hxs : forall v, In v xs -> v = c) by (intros v Hv; apply Hconst; now right).
  rewrite (priceScale_Num historicalData models c xs Hall). cbn zeta.
  rewrite Rmin_list_constant, Rmax_list_constant by assumption.
  cbn [priceRange]. split; [f_equal; ring |].
  unfold getYPosition. cbn [maxPrice priceRange sub].
  rewrite div_zero_zero by ring. reflexivity.
Qed.

Lemma getYPosition_flat_witness :
  let historicalData := [mkPoint "2024-01-02" (Num 5) (Num 5) (Num 5) (Num 5) (Num 5)] in
  priceRange (priceScale historicalData []) = Num 0
  /\ getYPosition (priceScale historicalData []) (Num 5) = NaN.
Proof.
  intros historicalData.
  apply (getYPosition_flat historicalData [] 5 [5]).
  - reflexivity.
  - discriminate.
  - intros v [<- | []]. reflexivity.
Defined.

Lemma mapi_index_only {A B : Type} (g : nat -> B) (l : list A) :
  mapi (fun _ index => g index) l = map g (seq 0 (length l)).
Proof.
  unfold mapi. generalize 0%nat as s.
  induction l as [| x l IH]; intros s; cbn [length seq combine map].
  - reflexivity.
  - cbn [fst snd]. now rewrite IH.
Qed.

Lemma hasPredictions_of_model (models : list ModelPredictions) (model : ModelPredictions) :
  In model models -> model_predictions model <> [] -> hasPredictions models = true.
Proof.
  intros Hin Hne. unfold hasPredictions. apply andb_true_iff. split.
  - destruct models; [contradiction | reflexivity].
  - apply existsb_exists. exists model. split; [exact Hin |].
    destruct (model_predictions model); [contradiction | reflexivity].
Qed.

(** X24: the x positions of the predictions of a listed model: with two
    predictions or more they are numbers from 70, for the first, to 100, for
    the last; with a single prediction (a forecast of one day) the position
    is [NaN], the quotient of index 0 by [length - 1 = 0]. *)
Theorem prediction_x_positions (models : list ModelPredictions)
    (model : ModelPredictions) :
  In model models ->
  let k := length (model_predictions model) in
  length (predictionXs models model) = k
  /\ (k = 1%nat -> predictionXs models model = [NaN])
  /\ ((2 <= k)%nat ->
      forall i, (i < k)%nat ->
        exists x, get (predictionXs models model) i = Num x
                  /\ 70 <= x <= 100
                  /\ (i = O -> x = 70)
                  /\ (i = (k - 1)%nat -> x = 100)).
Proof.
  intros Hin k. unfold predictionXs. fold k.
  rewrite (mapi_index_only
             (fun index => getXPosition models (of_nat index) (of_nat k - Num 1)%num true)).
  fold k. split; [now rewrite length_map, length_seq |].
  assert (Hhas : (1 <= k)%nat -> hasPredictions models = true).
  { intros Hk. apply (hasPredictions_of_model models model Hin).
    intros E. unfold k in Hk. rewrite E in Hk. simpl in Hk. lia. }
  split.
  - intros Hk. rewrite Hk. cbn [seq map]. unfold getXPosition, historicalWidth,
      predictionWidth. rewrite Hhas by lia.
    unfold of_nat. cbn [sub]. rewrite div_zero_zero; [reflexivity | reflexivity |].
    simpl INR. ring.
  - intros Hk i Hi.
    set (g := fun index => getXPosition models (of_nat index) (of_nat k - Num 1)%num true).
    assert (Hget : get (map g (seq 0 k)) i = g i).
    { unfold get. transitivity (nth i (map g (seq 0 k)) (g O)).
      - apply nth_indep. now rewrite length_map, length_seq.
      - rewrite (map_nth g), seq_nth by assumption. reflexivity. }
    rewrite Hget. unfold g, getXPosition, historicalWidth, predictionWidth.
    rewrite Hhas by lia. unfold of_nat. cbn [sub].
    assert (Hk1 : 1 <= INR k - 1).
    { assert (2 <= INR k) by (replace 2 with (INR 2) by (simpl; lra); apply le_INR; lia).
      lra. }
    rewrite div_Num by lra. cbn [mul add].
    eexists. split; [reflexivity |].
    assert (Hi0 : 0 <= INR i) by apply pos_INR.
    assert (Hik : INR i <= INR k - 1).
    { assert (INR (S i) <= INR k) by (apply le_INR; lia). rewrite S_INR in H. lra. }
    assert (Hinv : 0 < / (INR k - 1)) by (apply Rinv_0_lt_compat; lra).
    assert (Hq0 : 0 <= INR i / (INR k - 1)) by (apply Rmult_le_pos; lra).
    assert (Hq1 : INR i / (INR k - 1) <= 1).
    { apply Rle_trans with ((INR k - 1) / (INR k - 1));
        [apply Rmult_le_compat_r; lra | right; field; lra]. }
    split; [lra |]. split.
    + intros ->. simpl INR. unfold Rdiv. ring.
    + intros ->. rewrite minus_INR by lia. simpl INR. field. lra.
Qed.

Lemma prediction_x_positions_witness :
  let p := mkPrediction 1 (Num 1) (Num 1) (Num 1) in
  let model := mkModel "linear_regression" [p; p; p] in
  let k := length (model_predictions model) in
  length (predictionXs [model] model) = k
  /\ (k = 1%nat -> predictionXs [model] model = [NaN])
  /\ ((2 <= k)%nat ->
      forall i, (i < k)%nat ->
        exists x, get (predictionXs [model] model) i = Num x
                  /\ 70 <= x <= 100
                  /\ (i = O -> x = 70)
                  /\ (i = (k - 1)%nat -> x = 100)).
Proof.
  intros p model.
  apply (prediction_x_positions [model] model). now left.
Defined.

Lemma priceChangePercent_within (name : string) (preds : list Prediction)
    (fraction lastPrice : R) :
  Forall (within fraction lastPrice) preds -> preds <> [] -> 0 < lastPrice ->
  exists percent,
    priceChangePercent (mkModel name preds) (Num lastPrice) = Some (Num percent)
    /\ - (fraction * 100) <= percent <= fraction * 100.
Proof.
  intros Hall Hne HL. unfold priceChangePercent, lastPrediction.
  cbn [model_predictions].
  destruct (nth_error preds (length preds - 1)) as [last |] eqn:Hlast.
  2: { apply nth_error_None in Hlast. destruct preds; [contradiction | simpl in Hlast; lia]. }
  rewrite Forall_forall in Hall.
  destruct (Hall last (nth_error_In _ _ Hlast)) as (price & -> & Habs).
  cbn [sub]. rewrite div_Num by lra. cbn [mul].
  eexists. split; [reflexivity |].
  assert (Hinv : 0 < / lastPrice) by now apply Rinv_0_lt_compat.
  unfold Rabs in Habs. destruct (Rcase_abs (price - lastPrice)) as [Hneg | Hpos].
  - assert (- fraction <= (price - lastPrice) / lastPrice <= 0).
    { split.
      - apply Rmult_le_reg_r with lastPrice; [lra |].
        unfold Rdiv. rewrite Rmult_assoc, Rinv_l by lra. lra.
      - apply Rmult_le_reg_r with lastPrice; [lra |].
        unfold Rdiv. rewrite Rmult_assoc, Rinv_l by lra. lra. }
    assert (0 <= fraction) by nra. lra.
  - assert (0 <= (price - lastPrice) / lastPrice <= fraction).
    { split.
      - apply Rmult_le_pos; lra.
      - apply Rmult_le_reg_r with lastPrice; [lra |].
        unfold Rdiv. rewrite Rmult_assoc, Rinv_l by lra. lra. }
    assert (0 <= fraction) by nra. lra.
Qed.

(** X25: the forecasters and the model card together: for prices that are
    not negative, the last of them above 0, and 1 to 90 days, the card of
    the trend model, given that last price as the current price, shows a
    change between -15% and +15%; the card of the recurrent model, on 60
    prices or more that are not all equal, a change between -20% and +20%. *)
Theorem model_card_change_bounded (random : Random) (zone : TimeZone) (today : Z) (prices : list R)
    (days : Z) :
  Forall (fun p => 0 <= p) prices ->
  (1 <= days <= 90)%Z ->
  let lastPrice := nth (length prices - 1) prices 0 in
  0 < lastPrice ->
  ((10 <= length prices)%nat ->
   exists preds percent,
     predictLinearRegression zone today (map Num prices) (Int days) = Ok preds
     /\ priceChangePercent (mkModel "linear_regression" preds) (Num lastPrice)
        = Some (Num percent)
     /\ -15 <= percent <= 15)
  /\ ((60 <= length prices)%nat -> non_constant prices ->
      exists preds percent,
        predictLSTM random zone today (map Num prices) (Int days) = Ok preds
        /\ priceChangePercent (mkModel "lstm" preds) (Num lastPrice)
           = Some (Num percent)
        /\ -20 <= percent <= 20).
Proof.
  intros Hpos Hd lastPrice HL.
  assert (Hcount : seq 1 (count (Int days)) <> [] /\ seq 0 (count (Int days)) <> []).
  { cbn [count]. destruct (Z.to_nat days) eqn:E; [lia |]. split; discriminate. }
  split.
  - intros Hn.
    destruct (predictLinearRegression_fit zone today prices (Int days) Hn)
      as (slope & intercept & stdDev & Hs & Heq).
    fold lastPrice in Heq.
    destruct (priceChangePercent_within "linear_regression"
                (map (lr_day zone today (windowSize (length prices)) (Num slope)
                             (Num intercept) (Num stdDev) (Num lastPrice) (Int days))
                     (seq 1 (count (Int days))))
                (15 / 100) lastPrice) as (percent & Hp & Hb).
    + apply Forall_map, Forall_forall. intros i _.
      apply lr_day_ok; [assumption | lra | lia].
    + intros E. apply map_eq_nil in E. now destruct Hcount.
    + exact HL.
    + eexists _, percent. split; [exact Heq |]. split; [exact Hp | lra].
  - intros Hn Hnc.
    destruct (predictLSTM_fit random zone today prices (Int days) Hn Hnc)
      as (actual & stdDev & Hs & Hlen & Hfin & Heq).
    fold lastPrice in Heq.
    destruct (priceChangePercent_within "lstm"
                (map (lstm_day zone today actual (Num stdDev) (Num lastPrice) (Int days))
                     (seq 0 (count (Int days))))
                (20 / 100) lastPrice) as (percent & Hp & Hb).
    + apply Forall_map, Forall_forall. intros i Hi. apply in_seq in Hi.
      apply lstm_day_ok; [| assumption | lra | lia].
      apply finite_get; [assumption | lia].
    + intros E. apply map_eq_nil in E. now destruct Hcount.
    + exact HL.
    + eexists _, percent. split; [exact Heq |]. split; [exact Hp | lra].
Qed.

Lemma model_card_change_bounded_witness :
  let prices := 1 :: repeat 2 59 in
  let lastPrice := nth (length prices - 1) prices 0 in
  ((10 <= length prices)%nat ->
   exists preds percent,
     predictLinearRegression utc 0 (map Num prices) (Int 1) = Ok preds
     /\ priceChangePercent (mkModel "linear_regression" preds) (Num lastPrice)
        = Some (Num percent)
     /\ -15 <= percent <= 15)
  /\ ((60 <= length prices)%nat -> non_constant prices ->
      exists preds percent,
        predictLSTM (fun _ => 0) utc 0 (map Num prices) (Int 1) = Ok preds
        /\ priceChangePercent (mkModel "lstm" preds) (Num lastPrice)
           = Some (Num percent)
        /\ -20 <= percent <= 20).
Proof.
  apply (model_card_change_bounded (fun _ => 0) utc 0 (1 :: repeat 2 59) 1).
  - constructor; [lra |]. apply Forall_forall. intros p Hp.
    apply repeat_spec in Hp. lra.
  - lia.
  - cbn. lra.
Defined.
